(** * forecast-sense: the dashboard's aggregation and correlation arithmetic

    A shallow embedding of the computational parts of the dashboard
    components (monthly aggregation, daily growth rates, the Pearson
    correlation of [ExternalEventsChart], the capacity chart's simulated
    series, the maintenance heuristic, the summary metrics and the CSV
    upload state machine), followed by the properties the specification
    states about them.

    JavaScript numbers are IEEE 754 binary64 values.  They are modelled by
    the Standard Library's [spec_float] at precision 53 and maximal
    exponent 1024, whose operations are plain functions that round to
    nearest-even exactly like the hardware: every definition below can be
    evaluated.  The correlation routine is written once over an interface
    of number operations, so that it can also be read with exact real
    arithmetic when a property is about the formula and not its rounding. *)

From Stdlib Require Import ZArith List Bool String Ascii Floats Lia.
From Stdlib Require Import Reals Lra Psatz Sorting.Sorted Sorting.Permutation.
From Stdlib Require DecimalString DecimalZ DecimalPos OrderedTypeEx.
Import ListNotations.

Set Warnings "-inexact-float".
#[local] Open Scope string_scope.
#[local] Open Scope list_scope.
#[local] Open Scope Z_scope.

(** ** JavaScript numbers *)

Module Num.

Definition prec : Z := 53.
Definition emax : Z := 1024.

(** A binary64 value: signed zero, signed infinity, NaN (no payload, as in
    JavaScript) or sign, mantissa and exponent. *)
Definition number : Type := spec_float.

Definition add : number -> number -> number := SFadd prec emax.
Definition sub : number -> number -> number := SFsub prec emax.
Definition mul : number -> number -> number := SFmul prec emax.
Definition div : number -> number -> number := SFdiv prec emax.
Definition sqrt : number -> number := SFsqrt prec emax.
Definition abs : number -> number := SFabs.

(** A literal of the source, read as the nearest binary64 value. *)
Definition lit (f : float) : number := Prim2SF f.

Definition of_Z (z : Z) : number := binary_normalize prec emax z 0 false.
Definition of_nat (n : nat) : number := of_Z (Z.of_nat n).

Definition zero : number := S754_zero false.

(** [isNaN(x)] *)
Definition isNaN (x : number) : bool :=
  match x with S754_nan => true | _ => false end.

(** ToBoolean on a number: [0], [-0] and [NaN] are falsy. *)
Definition truthy (x : number) : bool :=
  match x with
  | S754_zero _ | S754_nan => false
  | _ => true
  end.

(** [x === 0]: true of both zeros. *)
Definition is_zero (x : number) : bool :=
  match x with S754_zero _ => true | _ => false end.

(** [x || d] on numbers. *)
Definition or_else (x d : number) : number := if truthy x then x else d.

(** [x > y], [x < y]: false as soon as one side is NaN. *)
Definition gt (x y : number) : bool := SFltb y x.
Definition lt (x y : number) : bool := SFltb x y.

(** [Math.max(x, y)]: NaN if either is, and [+0] above [-0]. *)
Definition max (x y : number) : number :=
  if isNaN x || isNaN y then S754_nan
  else if SFltb x y then y
  else if SFltb y x then x
  else match x with S754_zero true => y | _ => x end.

(** [Math.round(x)]: the nearest integer, a tie going up; a result of zero
    keeps the sign of [x]. *)
Definition round (x : number) : number :=
  match x with
  | S754_finite s m e =>
      if 0 <=? e then x
      else
        let d := 2 ^ (- e) in
        match (2 * cond_Zopp s (Zpos m) + d) / (2 * d) with
        | 0 => S754_zero s
        | n => of_Z n
        end
  | _ => x
  end.

(** [Math.ceil(x)] *)
Definition ceil (x : number) : number :=
  match x with
  | S754_finite s m e =>
      if 0 <=? e then x
      else
        match - ((- cond_Zopp s (Zpos m)) / 2 ^ (- e)) with
        | 0 => S754_zero s
        | n => of_Z n
        end
  | _ => x
  end.

(** The number that the text [x.toFixed(f)] denotes, that is
    [parseFloat(x.toFixed(f))].  Below 10^21 in magnitude [toFixed] prints
    n / 10^f for the integer n nearest to |x| * 10^f (the larger one on a
    tie) under the sign of [x], and reading the digits back rounds n / 10^f
    to the nearest number; from 10^21 on, and for NaN and the infinities,
    it prints the number itself, which reads back unchanged. *)
Definition toFixed (f : nat) (x : number) : number :=
  match x with
  | S754_zero _ => zero
  | S754_finite s m e =>
      let scale := 10 ^ Z.of_nat f in
      let num := if 0 <=? e then Zpos m * 2 ^ e else Zpos m in
      let den := if 0 <=? e then 1 else 2 ^ (- e) in
      if 10 ^ 21 * den <=? num then x
      else
        match (2 * num * scale + den) / (2 * den), scale with
        | Zpos n, Zpos d => SFdiv prec emax (S754_finite s n 0) (S754_finite false d 0)
        | _, _ => S754_zero s
        end
  | _ => x
  end.

End Num.

Definition number : Type := Num.number.

(** The operations the correlation routine needs from its numbers. *)
Class Arith (num : Type) : Type := {
  n_zero : num;
  n_add : num -> num -> num;
  n_sub : num -> num -> num;
  n_mul : num -> num -> num;
  n_div : num -> num -> num;
  n_sqrt : num -> num;
  n_isNaN : num -> bool;
  n_truthy : num -> bool;
  n_of_nat : nat -> num
}.

#[global] Instance ieee : Arith number := {
  n_zero := Num.zero;
  n_add := Num.add;
  n_sub := Num.sub;
  n_mul := Num.mul;
  n_div := Num.div;
  n_sqrt := Num.sqrt;
  n_isNaN := Num.isNaN;
  n_truthy := Num.truthy;
  n_of_nat := Num.of_nat
}.

(** ** ExternalEventsChart: the correlation estimator

    [calculateCorrelation], DatabaseCapacityChart.tsx lines 335-364 (the
    second component of that file). *)

Section Correlation.

Context {num : Type} `{Arith num}.

(** One chart row as [calculateCorrelation] reads it: the selected metric's
    monthly average and the month's event count (an array length). *)
Definition point : Type := (num * nat)%type.

(** [filteredData.filter(item => item[metric] && item.event_count)] *)
Definition validData (pts : list point) : list point :=
  filter (fun p => n_truthy (fst p) && negb (Nat.eqb (snd p) 0)) pts.

(** [xs.reduce((sum, val) => sum + val, 0)] *)
Definition sum (xs : list num) : num := fold_left n_add xs n_zero.

(** The state of the [for] loop: numerator, denomMetric, denomEvents. *)
Definition accumulate (meanMetric meanEvents : num)
    (acc : num * num * num) (p : num * num) : num * num * num :=
  let '(numerator, denomMetric, denomEvents) := acc in
  let metricDiff := n_sub (fst p) meanMetric in
  let eventDiff := n_sub (snd p) meanEvents in
  (n_add numerator (n_mul metricDiff eventDiff),
   n_add denomMetric (n_mul metricDiff metricDiff),
   n_add denomEvents (n_mul eventDiff eventDiff)).

(** The body of [calculateCorrelation] after the filter. *)
Definition pearson (valid : list point) : num :=
  if (List.length valid <? 2)%nat then n_zero
  else
    let metricValues := map fst valid in
    let eventValues := map (fun p => n_of_nat (snd p)) valid in
    let meanMetric := n_div (sum metricValues) (n_of_nat (List.length metricValues)) in
    let meanEvents := n_div (sum eventValues) (n_of_nat (List.length eventValues)) in
    let '(numerator, denomMetric, denomEvents) :=
      fold_left (accumulate meanMetric meanEvents)
                (combine metricValues eventValues)
                (n_zero, n_zero, n_zero) in
    let correlation := n_div numerator (n_sqrt (n_mul denomMetric denomEvents)) in
    if n_isNaN correlation then n_zero else correlation.

Definition correlate (pts : list point) : num := pearson (validData pts).

End Correlation.

(** ** Exact arithmetic

    The same interface over the real numbers, with the three outcomes a
    division or a square root adds to them: the infinities and NaN.  No
    operation rounds.  This reading is used only to say what the formula
    computes when rounding is left out. *)

Module Exact.

Inductive xreal : Type :=
| Fin (r : R)
| Inf (negative : bool)
| NaN.

Definition negR (r : R) : bool := if Rlt_dec r 0 then true else false.
Definition zeroR (r : R) : bool := if Req_dec_T r 0 then true else false.

Definition add (x y : xreal) : xreal :=
  match x, y with
  | NaN, _ | _, NaN => NaN
  | Inf a, Inf b => if Bool.eqb a b then Inf a else NaN
  | Inf a, Fin _ => Inf a
  | Fin _, Inf b => Inf b
  | Fin a, Fin b => Fin (a + b)
  end.

Definition opp (x : xreal) : xreal :=
  match x with
  | NaN => NaN
  | Inf a => Inf (negb a)
  | Fin a => Fin (- a)
  end.

Definition sub (x y : xreal) : xreal := add x (opp y).

Definition mul (x y : xreal) : xreal :=
  match x, y with
  | NaN, _ | _, NaN => NaN
  | Inf a, Inf b => Inf (xorb a b)
  | Inf a, Fin r | Fin r, Inf a =>
      if zeroR r then NaN else Inf (xorb a (negR r))
  | Fin a, Fin b => Fin (a * b)
  end.

Definition div (x y : xreal) : xreal :=
  match x, y with
  | NaN, _ | _, NaN => NaN
  | Inf _, Inf _ => NaN
  | Inf a, Fin r => Inf (xorb a (negR r))
  | Fin _, Inf _ => Fin 0
  | Fin a, Fin b =>
      if zeroR b then (if zeroR a then NaN else Inf (negR a))
      else Fin (a / b)
  end.

Definition sqrt (x : xreal) : xreal :=
  match x with
  | NaN => NaN
  | Inf a => if a then NaN else Inf false
  | Fin a => if negR a then NaN else Fin (R_sqrt.sqrt a)
  end.

Definition isNaN (x : xreal) : bool :=
  match x with NaN => true | _ => false end.

Definition truthy (x : xreal) : bool :=
  match x with
  | NaN => false
  | Inf _ => true
  | Fin r => negb (zeroR r)
  end.

#[global] Instance exact : Arith xreal := {
  n_zero := Fin 0;
  n_add := add;
  n_sub := sub;
  n_mul := mul;
  n_div := div;
  n_sqrt := sqrt;
  n_isNaN := isNaN;
  n_truthy := truthy;
  n_of_nat := fun n => Fin (INR n)
}.

End Exact.

(** ** Data model *)

(** One parsed row of the predictions file (an element of [data: any[]]).
    A column that the row does not have is [None], [undefined] in the
    source.  The timestamp holds text.  A numeric column holds a number;
    where the source reads a cell through [parseFloat], a cell still held
    as text stands for the number [parseFloat] reads in it (NaN for text
    that is no number, such as the empty cell; Infinity for the text
    Infinity).  The daily chart, which calls [toFixed] on a cell, is
    modelled on [Raw.Row] below, where a cell is text or a number. *)
Record Row : Type := {
  timestamp : option string;
  cpu_usage : option number;
  memory_usage : option number;
  network_traffic : option number;
  power_consumption : option number;
  cpu_usage_growth_pct : option number;
  memory_usage_growth_pct : option number;
  network_traffic_growth_pct : option number
}.

(** One parsed row of the events file. *)
Record EventRow : Type := {
  ev_timestamp : option string;
  ev_type : option string;
  ev_severity : option string;
  ev_description : option string
}.

(** Rows as a component receives them, for the code that uses a cell with
    [||], [>], [-] and [toFixed] and not through [parseFloat].  The dialog
    hands over what [Papa.parse] returns, and [Papa.parse], called without
    [dynamicTyping], returns every cell as text; another caller of the
    component may pass numbers. *)
Module Raw.

Inductive Cell : Type :=
| Text (s : string)
| Number (x : number).

(** The columns that the daily chart reads. *)
Record Row : Type := {
  timestamp : option string;
  cpu_usage : option Cell;
  memory_usage : option Cell;
  network_traffic : option Cell;
  power_consumption : option Cell
}.

(** [cell || 0]: the empty text, [0], [-0], [NaN] and [undefined] are
    falsy; any other text is kept as text. *)
Definition or_zero (cell : option Cell) : Cell :=
  match cell with
  | Some (Text EmptyString) | None => Number Num.zero
  | Some (Text s) => Text s
  | Some (Number x) => Number (Num.or_else x Num.zero)
  end.

End Raw.

(** ToBoolean on an optional string: [undefined] and the empty string are
    falsy. *)
Definition present (s : option string) : bool :=
  match s with
  | Some EmptyString | None => false
  | Some _ => true
  end.

(** [v || d] on an optional number. *)
Definition or_default (v : option number) (d : number) : number :=
  match v with
  | Some x => Num.or_else x d
  | None => d
  end.

(** [parseFloat(x)] on a number: the number is printed and read back, which
    returns it unchanged except that [-0] prints as ["0"]. *)
Definition parseFloat (x : number) : number :=
  match x with
  | S754_zero _ => Num.zero
  | _ => x
  end.

(** [parseFloat(x) || 0] *)
Definition parsed (x : number) : number := Num.or_else (parseFloat x) Num.zero.

(** [if (v !== undefined) values.push(parseFloat(v) || 0)] *)
Definition push_defined (values : list number) (v : option number) : list number :=
  match v with
  | Some x => (values ++ [parsed x])%list
  | None => values
  end.

(** [values.reduce((sum, val) => sum + val, 0) / values.length || 0] *)
Definition average (values : list number) : number :=
  Num.or_else (Num.div (fold_left Num.add values Num.zero)
                       (Num.of_nat (List.length values)))
              Num.zero.

(** A [Date] object, kept as the expression that built it. *)
Inductive JSDate : Type :=
| NewDate (s : string)
| NewDateYMD (year monthIndex day : Z)
| ParseISO (s : string).

(** Decimal text of an integer, as [String(n)] prints it. *)
Definition Z_to_string (z : Z) : string :=
  DecimalString.NilZero.string_of_int (Z.to_int z).

(** [s.padStart(2, '0')] *)
Definition padStart2 (s : string) : string :=
  match String.length s with
  | O => "00"
  | S O => ("0" ++ s)%string
  | _ => s
  end.

(** [a.localeCompare(b)] on month keys.  The keys are made of digits, ['-']
    and the letters of ["NaN"], on which the locale's collation orders
    strings as their code units do. *)
Definition localeCompare (a b : string) : comparison := String.compare a b.

(** [xs.sort(cmp)]: the result is ordered by [cmp] and, as the language
    requires, elements that compare equal keep their order. *)
Fixpoint insert {A : Type} (cmp : A -> A -> comparison) (x : A) (l : list A) : list A :=
  match l with
  | [] => [x]
  | y :: l' =>
      match cmp x y with
      | Gt => y :: insert cmp x l'
      | _ => x :: l
      end
  end.

Definition sort {A : Type} (cmp : A -> A -> comparison) (l : list A) : list A :=
  fold_right (insert cmp) [] l.

(** [toLowerCase] on ASCII text: the letters A to Z are lowered and every
    other character is kept.  On text with other characters JavaScript
    does more (it lowers U+212A, the Kelvin sign, to k); what is proved of
    [toLowerCase] below is stated for ASCII text. *)
Definition lower (c : ascii) : ascii :=
  let n := nat_of_ascii c in
  if ((65 <=? n) && (n <=? 90))%nat then ascii_of_nat (n + 32) else c.

Fixpoint toLowerCase (s : string) : string :=
  match s with
  | EmptyString => EmptyString
  | String c s' => String (lower c) (toLowerCase s')
  end.

(** [s.includes(sub)] *)
Definition includes (sub s : string) : bool :=
  match String.index 0 sub s with
  | Some _ => true
  | None => false
  end.

(** A [Map] with string keys: entries in insertion order, one per key. *)
Definition JSMap (V : Type) : Type := list (string * V).

Definition Map_has {V : Type} (k : string) (m : JSMap V) : bool :=
  existsb (fun e => String.eqb (fst e) k) m.

(** [m.set(k, v)] for a key that [m] does not hold yet. *)
Definition Map_set {V : Type} (k : string) (v : V) (m : JSMap V) : JSMap V :=
  (m ++ [(k, v)])%list.

(** A mutation of the object that [m.get(k)] returns. *)
Fixpoint Map_update {V : Type} (k : string) (f : V -> V) (m : JSMap V) : JSMap V :=
  match m with
  | [] => []
  | (k', v) :: m' =>
      if String.eqb k' k then (k', f v) :: m' else (k', v) :: Map_update k f m'
  end.

(** [m.get(k)] *)
Fixpoint Map_get {V : Type} (k : string) (m : JSMap V) : option V :=
  match m with
  | [] => None
  | (k', v) :: m' => if String.eqb k' k then Some v else Map_get k m'
  end.

(** The keys of [m], in insertion order. *)
Definition keys {V : Type} (m : JSMap V) : list string := map fst m.

(** [Array.from(m.values())] *)
Definition Map_values {V : Type} (m : JSMap V) : list V := map snd m.

Section Calendar.

(** The host's reading of a timestamp: [getFullYear()] and [getMonth()] of
    [new Date(s)] in local time, or [None] when [new Date(s)] is an Invalid
    Date. *)
Variable calendar : string -> option (Z * Z).

(** [`${date.getFullYear()}-${String(date.getMonth() + 1).padStart(2, '0')}`]
    for [date = new Date(s)]; both getters return NaN on an Invalid Date. *)
Definition monthKey (s : string) : string :=
  match calendar s with
  | Some (year, monthIndex) =>
      (Z_to_string year ++ "-" ++ padStart2 (Z_to_string (monthIndex + 1)))%string
  | None => "NaN-NaN"
  end.

End Calendar.

(** ** ResourcePredictionChart, monthly aggregation

    [processedData], DatabaseMetricsGrid.tsx lines 175-222 (the second
    component of that file). *)

Module MonthlyChart.

Record MonthData : Type := {
  md_month : string;
  md_date : JSDate;
  md_cpu_usage : list number;
  md_memory_usage : list number;
  md_network_traffic : list number;
  md_power_consumption : list number;
  md_cpu_growth : list number;
  md_memory_growth : list number;
  md_network_growth : list number
}.

Record Bucket : Type := {
  month : string;
  cpu_avg : number;
  memory_avg : number;
  network_avg : number;
  power_avg : number;
  cpu_growth : number;
  memory_growth : number;
  network_growth : number
}.

Definition emptyMonth (monthKey : string) (date : JSDate) : MonthData :=
  {| md_month := monthKey; md_date := date;
     md_cpu_usage := []; md_memory_usage := []; md_network_traffic := [];
     md_power_consumption := []; md_cpu_growth := []; md_memory_growth := [];
     md_network_growth := [] |}.

(** The seven conditional [push]es of the loop body. *)
Definition pushRow (item : Row) (monthData : MonthData) : MonthData :=
  {| md_month := md_month monthData;
     md_date := md_date monthData;
     md_cpu_usage := push_defined (md_cpu_usage monthData) (cpu_usage item);
     md_memory_usage := push_defined (md_memory_usage monthData) (memory_usage item);
     md_network_traffic := push_defined (md_network_traffic monthData) (network_traffic item);
     md_power_consumption := push_defined (md_power_consumption monthData) (power_consumption item);
     md_cpu_growth := push_defined (md_cpu_growth monthData) (cpu_usage_growth_pct item);
     md_memory_growth := push_defined (md_memory_growth monthData) (memory_usage_growth_pct item);
     md_network_growth := push_defined (md_network_growth monthData) (network_traffic_growth_pct item) |}.

Definition averages (monthData : MonthData) : Bucket :=
  {| month := md_month monthData;
     cpu_avg := average (md_cpu_usage monthData);
     memory_avg := average (md_memory_usage monthData);
     network_avg := average (md_network_traffic monthData);
     power_avg := average (md_power_consumption monthData);
     cpu_growth := average (md_cpu_growth monthData);
     memory_growth := average (md_memory_growth monthData);
     network_growth := average (md_network_growth monthData) |}.

Section Host.

Variable calendar : string -> option (Z * Z).

(** The body of [data.forEach(item => ...)]. *)
Definition groupRow (monthlyData : JSMap MonthData) (item : Row) : JSMap MonthData :=
  match timestamp item with
  | None | Some EmptyString => monthlyData
  | Some ts =>
      let date := NewDate ts in
      let monthKey := monthKey calendar ts in
      let monthlyData :=
        if Map_has monthKey monthlyData then monthlyData
        else Map_set monthKey (emptyMonth monthKey date) monthlyData in
      Map_update monthKey (pushRow item) monthlyData
  end.

Definition monthlyData (data : list Row) : JSMap MonthData :=
  fold_left groupRow data [].

Definition processedData (data : list Row) : list Bucket :=
  match data with
  | [] => []
  | _ =>
      sort (fun a b => localeCompare (month a) (month b))
           (map averages (Map_values (monthlyData data)))
  end.

End Host.

End MonthlyChart.

(** ** ExternalEventsChart

    [correlatedData], [getMetricData], [filteredData], [calculateCorrelation]
    and the strength badge, DatabaseCapacityChart.tsx lines 195-301,
    335-366 and 417-422. *)

Module ExternalEventsChart.

Record MonthData : Type := {
  md_month : string;
  md_cpu_values : list number;
  md_memory_values : list number;
  md_network_values : list number;
  md_power_values : list number;
  md_events : list EventRow
}.

Record Bucket : Type := {
  month : string;
  cpu_avg : number;
  memory_avg : number;
  network_avg : number;
  power_avg : number;
  event_count : nat;
  high_severity_events : nat;
  event_impact : nat;
  events : list EventRow
}.

Inductive Metric : Type := cpu | memory | network | power.

(** [item[getMetricData(selectedMetric)]] *)
Definition getMetricData (metric : Metric) : Bucket -> number :=
  match metric with
  | cpu => cpu_avg
  | memory => memory_avg
  | network => network_avg
  | power => power_avg
  end.

Definition emptyMonth (monthKey : string) : MonthData :=
  {| md_month := monthKey; md_cpu_values := []; md_memory_values := [];
     md_network_values := []; md_power_values := []; md_events := [] |}.

Definition pushRow (item : Row) (monthData : MonthData) : MonthData :=
  {| md_month := md_month monthData;
     md_cpu_values := push_defined (md_cpu_values monthData) (cpu_usage item);
     md_memory_values := push_defined (md_memory_values monthData) (memory_usage item);
     md_network_values := push_defined (md_network_values monthData) (network_traffic item);
     md_power_values := push_defined (md_power_values monthData) (power_consumption item);
     md_events := md_events monthData |}.

Definition pushEvent (event : EventRow) (monthData : MonthData) : MonthData :=
  {| md_month := md_month monthData;
     md_cpu_values := md_cpu_values monthData;
     md_memory_values := md_memory_values monthData;
     md_network_values := md_network_values monthData;
     md_power_values := md_power_values monthData;
     md_events := (md_events monthData ++ [event])%list |}.

(** [e.severity === 'high' || e.type?.toLowerCase().includes('earthquake')
     || e.type?.toLowerCase().includes('covid')] *)
Definition highSeverity (e : EventRow) : bool :=
  match ev_severity e with
  | Some s => String.eqb s "high"
  | None => false
  end
  || match ev_type e with
     | Some t => includes "earthquake" (toLowerCase t) || includes "covid" (toLowerCase t)
     | None => false
     end.

Definition summarize (monthData : MonthData) : Bucket :=
  let eventCount := List.length (md_events monthData) in
  let highSeverityEvents := List.length (filter highSeverity (md_events monthData)) in
  {| month := md_month monthData;
     cpu_avg := average (md_cpu_values monthData);
     memory_avg := average (md_memory_values monthData);
     network_avg := average (md_network_values monthData);
     power_avg := average (md_power_values monthData);
     event_count := eventCount;
     high_severity_events := highSeverityEvents;
     event_impact := (eventCount * 5 + highSeverityEvents * 15)%nat;
     events := md_events monthData |}.

Section Host.

Variable calendar : string -> option (Z * Z).

(** The body of [predictionsData.forEach(item => ...)]. *)
Definition groupRow (monthlyPredictions : JSMap MonthData) (item : Row) : JSMap MonthData :=
  match timestamp item with
  | None | Some EmptyString => monthlyPredictions
  | Some ts =>
      let monthKey := monthKey calendar ts in
      let monthlyPredictions :=
        if Map_has monthKey monthlyPredictions then monthlyPredictions
        else Map_set monthKey (emptyMonth monthKey) monthlyPredictions in
      Map_update monthKey (pushRow item) monthlyPredictions
  end.

(** The body of [eventsData.forEach(event => ...)]. *)
Definition groupEvent (monthlyPredictions : JSMap MonthData) (event : EventRow) : JSMap MonthData :=
  match ev_timestamp event with
  | None | Some EmptyString => monthlyPredictions
  | Some ts =>
      let monthKey := monthKey calendar ts in
      if Map_has monthKey monthlyPredictions
      then Map_update monthKey (pushEvent event) monthlyPredictions
      else monthlyPredictions
  end.

Definition monthlyPredictions (predictionsData : list Row) (eventsData : list EventRow)
    : JSMap MonthData :=
  fold_left groupEvent eventsData (fold_left groupRow predictionsData []).

Definition correlatedData (predictionsData : list Row) (eventsData : list EventRow)
    : list Bucket :=
  match predictionsData, eventsData with
  | [], _ | _, [] => []
  | _, _ =>
      sort (fun a b => localeCompare (month a) (month b))
           (map summarize (Map_values (monthlyPredictions predictionsData eventsData)))
  end.

End Host.

(** The event-type selector: ['all'] or one type. *)
Definition filteredData (correlatedData : list Bucket) (eventFilter : string) : list Bucket :=
  if String.eqb eventFilter "all" then correlatedData
  else
    let ofType (e : EventRow) :=
      match ev_type e with
      | Some t => String.eqb t eventFilter
      | None => false
      end in
    map (fun item =>
           {| month := month item;
              cpu_avg := cpu_avg item;
              memory_avg := memory_avg item;
              network_avg := network_avg item;
              power_avg := power_avg item;
              event_count := List.length (filter ofType (events item));
              high_severity_events := high_severity_events item;
              event_impact := event_impact item;
              events := filter ofType (events item) |})
        correlatedData.

(** [calculateCorrelation()] for the chart rows and metric on display. *)
Definition calculateCorrelation (filteredData : list Bucket) (selectedMetric : Metric) : number :=
  correlate (map (fun item => (getMetricData selectedMetric item, event_count item)) filteredData).

Inductive Strength : Type := Strong | Moderate | Weak.

(** [Math.abs(c) > 0.5 ? "Strong" : Math.abs(c) > 0.3 ? "Moderate" : "Weak"] *)
Definition strength (correlation : number) : Strength :=
  if Num.gt (Num.abs correlation) (Num.lit 0.5) then Strong
  else if Num.gt (Num.abs correlation) (Num.lit 0.3) then Moderate
  else Weak.

End ExternalEventsChart.

(** ** ResourcePredictionChart, daily display

    [processedData], ResourcePredictionChart.tsx lines 35-72, on the rows
    as the component receives them. *)

Module DailyChart.

Record Point : Type := {
  date : string;
  fullDate : JSDate;
  cpu_avg : number;
  memory_avg : number;
  network_avg : number;
  power_avg : number;
  cpu_growth : number;
  memory_growth : number;
  network_growth : number
}.

(** [prev > 0 ? ((current - prev) / prev) * 100 : 0] *)
Definition growth (prev current : number) : number :=
  if Num.gt prev Num.zero
  then Num.mul (Num.div (Num.sub current prev) prev) (Num.of_Z 100)
  else Num.zero.

(** [parseFloat(v.toFixed(2))]: text has no [toFixed], so the call throws
    a TypeError, which is [None] here. *)
Definition fixed (v : Raw.Cell) : option number :=
  match v with
  | Raw.Number x => Some (Num.toFixed 2 x)
  | Raw.Text _ => None
  end.

Section Host.

(** ToNumber on text: what [>], [-] and [/] do to an operand that is
    text. *)
Variable toNumber : string -> number.

(** [d.toLocaleDateString('en-US', { month: 'short', day: 'numeric' })] *)
Variable toLocaleDateString : JSDate -> string.

(** An operand of [>], [-] or [/]. *)
Definition numeric (v : Raw.Cell) : number :=
  match v with
  | Raw.Number x => x
  | Raw.Text s => toNumber s
  end.

(** The callback of [data.map((item, index) => ...)]; [prevItem] is
    [data[index - 1]], absent at index 0.  [None] when the callback
    throws. *)
Definition point (prevItem : option Raw.Row) (index : nat) (item : Raw.Row) : option Point :=
  let timestamp :=
    match Raw.timestamp item with
    | None | Some EmptyString => NewDateYMD 2025 0 (Z.of_nat index + 1)
    | Some ts => NewDate ts
    end in
  let '(cpuGrowth, memoryGrowth, networkGrowth) :=
    match prevItem with
    | None => (Num.zero, Num.zero, Num.zero)
    | Some prevItem =>
        let prevCpu := Raw.or_zero (Raw.cpu_usage prevItem) in
        let prevMemory := Raw.or_zero (Raw.memory_usage prevItem) in
        let prevNetwork := Raw.or_zero (Raw.network_traffic prevItem) in
        let currentCpu := Raw.or_zero (Raw.cpu_usage item) in
        let currentMemory := Raw.or_zero (Raw.memory_usage item) in
        let currentNetwork := Raw.or_zero (Raw.network_traffic item) in
        (growth (numeric prevCpu) (numeric currentCpu),
         growth (numeric prevMemory) (numeric currentMemory),
         growth (numeric prevNetwork) (numeric currentNetwork))
    end in
  match fixed (Raw.or_zero (Raw.cpu_usage item)),
        fixed (Raw.or_zero (Raw.memory_usage item)),
        fixed (Raw.or_zero (Raw.network_traffic item)),
        fixed (Raw.or_zero (Raw.power_consumption item)) with
  | Some cpu, Some memory, Some network, Some power =>
      Some {| date := toLocaleDateString timestamp;
              fullDate := timestamp;
              cpu_avg := cpu;
              memory_avg := memory;
              network_avg := network;
              power_avg := power;
              cpu_growth := Num.toFixed 2 cpuGrowth;
              memory_growth := Num.toFixed 2 memoryGrowth;
              network_growth := Num.toFixed 2 networkGrowth |}
  | _, _, _, _ => None
  end.

Fixpoint points (prevItem : option Raw.Row) (index : nat) (data : list Raw.Row)
    : option (list Point) :=
  match data with
  | [] => Some []
  | item :: rest =>
      match point prevItem index item with
      | None => None
      | Some p =>
          match points (Some item) (S index) rest with
          | None => None
          | Some ps => Some (p :: ps)
          end
      end
  end.

(** [None] when a callback throws. *)
Definition processedData (data : list Raw.Row) : option (list Point) := points None 0 data.

End Host.

End DailyChart.

(** ** DatabaseCapacityChart

    [processedData] and [averageInputs], DatabaseCapacityChart.tsx lines
    14-40. *)

Module DatabaseCapacityChart.

Record Point : Type := {
  date : string;
  fullDate : JSDate;
  dailyInputs : number;
  cpuUsage : number;
  memoryUsage : number;
  networkTraffic : number;
  powerConsumption : number
}.

Section Host.

(** date-fns [format(d, 'MMM dd')]; it throws a RangeError on an Invalid
    Date, which is [None] here. *)
Variable format : JSDate -> option string.

(** The values that the successive calls of [Math.random()] return during
    one pass; the callback makes one call per row, so the call made for the
    row at [index] is call number [index]. *)
Variable random : nat -> number.

(** The callback of [data.map((item, index) => ...)], for cells that are
    numbers.  (A cell that is text and not empty is truthy and is used as
    it is; the properties of the capacity chart below hold for any value
    of [baseInputs] and of the four charted cells.) *)
Definition point (index : nat) (item : Row) : option Point :=
  let timestamp :=
    match timestamp item with
    | None | Some EmptyString => NewDateYMD 2025 0 (Z.of_nat index + 1)
    | Some ts => ParseISO ts
    end in
  let baseInputs :=
    Num.round (Num.add (Num.mul (or_default (cpu_usage item) (Num.of_Z 50)) (Num.of_Z 10))
                       (Num.mul (or_default (memory_usage item) (Num.of_Z 50)) (Num.of_Z 5))) in
  let variation := Num.sub (Num.mul (random index) (Num.of_Z 400)) (Num.of_Z 200) in
  let dailyInputs := Num.max Num.zero (Num.add baseInputs variation) in
  match format timestamp with
  | None => None
  | Some text =>
      Some {| date := text;
              fullDate := timestamp;
              dailyInputs := Num.round dailyInputs;
              cpuUsage := or_default (cpu_usage item) Num.zero;
              memoryUsage := or_default (memory_usage item) Num.zero;
              networkTraffic := or_default (network_traffic item) Num.zero;
              powerConsumption := or_default (power_consumption item) Num.zero |}
  end.

Fixpoint points (index : nat) (data : list Row) : option (list Point) :=
  match data with
  | [] => Some []
  | item :: rest =>
      match point index item with
      | None => None
      | Some p =>
          match points (S index) rest with
          | None => None
          | Some ps => Some (p :: ps)
          end
      end
  end.

(** [None] when a callback throws. *)
Definition processedData (data : list Row) : option (list Point) := points 0 data.

End Host.

(** [processedData.reduce((sum, item) => sum + item.dailyInputs, 0) / processedData.length],
    and 0 for no data. *)
Definition averageInputs (processedData : list Point) : number :=
  match processedData with
  | [] => Num.zero
  | _ =>
      Num.div (fold_left (fun sum item => Num.add sum (dailyInputs item)) processedData Num.zero)
              (Num.of_nat (List.length processedData))
  end.

End DatabaseCapacityChart.

(** ** DatabaseMetricsGrid

    [calculateMetrics], DatabaseMetricsGrid.tsx lines 13-45. *)

Module DatabaseMetricsGrid.

Record Metrics : Type := {
  totalInputs : nat;
  dailyAverage : number;
  cpuAvg : number;
  memoryAvg : number;
  networkAvg : number;
  (** the number that the text [(...).toFixed(1)] denotes *)
  trendPercent : number;
  highLoadDays : nat
}.

(** [data.reduce((sum, item) => sum + (item.field || 0), 0)], for cells
    that are numbers.  (On a cell that is text [+] joins texts; the
    properties of [calculateMetrics] and [maintenanceTasks] below are
    about row counts, windows and severities, which do not depend on what
    the sums are.) *)
Definition total (field : Row -> option number) (data : list Row) : number :=
  fold_left (fun sum item => Num.add sum (or_default (field item) Num.zero)) data Num.zero.

(** [data.slice(-n)] *)
Definition slice_last {A : Type} (n : nat) (data : list A) : list A :=
  skipn (List.length data - n) data.

(** [data.slice(-a, -b)] *)
Definition slice_between {A : Type} (a b : nat) (data : list A) : list A :=
  let start := (List.length data - a)%nat in
  let stop := (List.length data - b)%nat in
  firstn (stop - start) (skipn start data).

Definition highLoad (item : Row) : bool :=
  Num.gt (or_default (cpu_usage item) Num.zero) (Num.of_Z 80)
  || Num.gt (or_default (memory_usage item) Num.zero) (Num.of_Z 85)
  || Num.gt (or_default (network_traffic item) Num.zero) (Num.of_Z 90).

(** [null] for no data. *)
Definition calculateMetrics (data : list Row) : option Metrics :=
  match data with
  | [] => None
  | _ =>
      let totalInputs := List.length data in
      let recent30Days := slice_last 30 data in
      let previous30Days := slice_between 60 30 data in
      let recentAvg :=
        Num.div (total cpu_usage recent30Days) (Num.of_nat (List.length recent30Days)) in
      let previousAvg :=
        Num.div (total cpu_usage previous30Days) (Num.of_nat (List.length previous30Days)) in
      Some {| totalInputs := totalInputs;
              dailyAverage := Num.round (Num.div (Num.of_nat totalInputs) (Num.of_Z 365));
              cpuAvg := Num.div (total cpu_usage data) (Num.of_nat (List.length data));
              memoryAvg := Num.div (total memory_usage data) (Num.of_nat (List.length data));
              networkAvg := Num.div (total network_traffic data) (Num.of_nat (List.length data));
              trendPercent :=
                Num.toFixed 1 (Num.mul (Num.div (Num.sub recentAvg previousAvg) previousAvg)
                                       (Num.of_Z 100));
              highLoadDays := List.length (filter highLoad data) |}
  end.

End DatabaseMetricsGrid.

(** ** MaintenancePredictions

    [maintenanceTasks], lines 13-67 of the maintenance component. *)

Module MaintenancePredictions.

Inductive Icon : Type := Database | CheckCircle | Clock.

Record Task : Type := {
  id : string;
  title : string;
  status : string;
  severity : string;
  description : string;
  estimatedTime : string;
  action : string;
  details : string;
  frequency : string;
  icon : Icon
}.

Section Host.

(** [n.toLocaleString()] and [String(x)], the host's renderings of a
    number inside the template strings. *)
Variable toLocaleString : nat -> string.
Variable toString : number -> string.

Definition maintenanceTasks (data : list Row) : list Task :=
  match data with
  | [] => []
  | _ =>
      let totalInputs := List.length data in
      let avgCpuUsage :=
        Num.div (DatabaseMetricsGrid.total cpu_usage data) (Num.of_nat (List.length data)) in
      let highUsageDays :=
        List.length
          (filter (fun item =>
                     Num.gt (or_default (cpu_usage item) Num.zero) (Num.of_Z 80)
                     || Num.gt (or_default (memory_usage item) Num.zero) (Num.of_Z 85))
                  data) in
      let vacuumFrequency := Num.ceil (Num.div (Num.of_nat totalInputs) (Num.of_Z 50000)) in
      let estimatedTime :=
        Num.round (Num.mul (Num.div (Num.of_nat totalInputs) (Num.of_Z 100000)) (Num.of_Z 24)) in
      [ {| id := "vacuum";
           title := "Database Vacuuming";
           status := if (50 <? highUsageDays)%nat then "Required" else "Scheduled";
           severity := if (50 <? highUsageDays)%nat then "high" else "medium";
           description :=
             ("Database requires vacuuming due to " ++ toLocaleString totalInputs
              ++ " total inputs")%string;
           estimatedTime :=
             (toString estimatedTime ++ "-"
              ++ toString (Num.add estimatedTime (Num.of_Z 2)))%string;
           action := "Schedule Run VACUUM ANALYZE";
           details := "Improved query performance and space reclamation";
           frequency := ("Every " ++ toString vacuumFrequency ++ " days")%string;
           icon := Database |};
        {| id := "index";
           title := "Index Rebuilding";
           status := if Num.gt avgCpuUsage (Num.of_Z 75) then "Recommended" else "Optimal";
           severity := if Num.gt avgCpuUsage (Num.of_Z 75) then "medium" else "low";
           description := "Index maintenance not currently required";
           estimatedTime := "1-2";
           action := "Monitor performance metrics";
           details := "Indexes are performing within optimal ranges";
           frequency := "As needed";
           icon := CheckCircle |};
        {| id := "statistics";
           title := "Statistics Update";
           status := "Scheduled";
           severity := "medium";
           description := "Regular statistics update for query optimization";
           estimatedTime := "0.5-1";
           action := "Auto-scheduled weekly";
           details := "Maintains query planner accuracy";
           frequency := "Weekly";
           icon := Clock |} ]
  end.

End Host.

End MaintenancePredictions.

(** ** FileUpload and the page that hosts it

    [processFile], [onPredictionsDrop], [handleLoadData] and [canLoadData]
    of the upload dialog, and [handleDataLoad] of pages/Index.tsx, which
    the dialog receives as [onDataLoad]; [onClose] hides the dialog. *)

Module FileUpload.

Inductive Status : Type := pending | uploading | complete | error.

Record FileStatus : Type := {
  name : string;
  status : Status;
  progress : nat;
  error_message : option string;
  data : option (list Row)
}.

(** One entry of Papa Parse's [results.errors]. *)
Record ParseError : Type := {
  error_type : string;
  error_code : string;
  message : string;
  row : option nat
}.

Record ParseResult : Type := {
  result_data : list Row;
  errors : list ParseError
}.

(** The callback that [Papa.parse] ends with. *)
Inductive Outcome : Type :=
| Complete (results : ParseResult)
| Failed (message : string).

(** How the promise of [processFile] settles. *)
Inductive Settled : Type :=
| Resolved (rows : list Row)
| Rejected (message : string).

Record Toast : Type := {
  toast_title : string;
  toast_description : string
}.

(** The state of the page ([Index]) and of the dialog it shows. *)
Record Page : Type := {
  showFileUpload : bool;
  predictionsData : list Row;
  toasts : list Toast;
  predictionFile : option FileStatus;
  console : list string
}.

Section Host.

Variable toLocaleString : nat -> string.

(** [Index.handleDataLoad]: the one place that replaces the loaded rows. *)
Definition handleDataLoad (predictions : list Row) (page : Page) : Page :=
  {| showFileUpload := showFileUpload page;
     predictionsData := predictions;
     toasts :=
       toasts page
       ++ [ {| toast_title := "Data Loaded Successfully";
               toast_description :=
                 ("Loaded " ++ toLocaleString (List.length predictions)
                  ++ " predictions")%string |} ];
     predictionFile := predictionFile page;
     console := console page |}.

(** [onClose]: the dialog is unmounted, and its state goes with it. *)
Definition onClose (page : Page) : Page :=
  {| showFileUpload := false;
     predictionsData := predictionsData page;
     toasts := toasts page;
     predictionFile := None;
     console := console page |}.

Definition setPredictionFile (file : FileStatus) (page : Page) : Page :=
  {| showFileUpload := showFileUpload page;
     predictionsData := predictionsData page;
     toasts := toasts page;
     predictionFile := Some file;
     console := console page |}.

Definition log (line : string) (page : Page) : Page :=
  {| showFileUpload := showFileUpload page;
     predictionsData := predictionsData page;
     toasts := toasts page;
     predictionFile := predictionFile page;
     console := console page ++ [line] |}.

(** [processFile(file)]: the dialog's state once the parse has ended, and
    how the promise settles. *)
Definition processFile (fileName : string) (outcome : Outcome) (page : Page)
    : Page * Settled :=
  let fileStatus :=
    {| name := fileName; status := uploading; progress := 0;
       error_message := None; data := None |} in
  let page := setPredictionFile fileStatus page in
  match outcome with
  | Complete results =>
      match errors results with
      | first :: _ =>
          let errorStatus :=
            {| name := name fileStatus; status := error;
               progress := progress fileStatus;
               error_message := Some (message first);
               data := data fileStatus |} in
          (setPredictionFile errorStatus page, Rejected (message first))
      | [] =>
          let completeStatus :=
            {| name := name fileStatus; status := complete; progress := 100;
               error_message := error_message fileStatus;
               data := Some (result_data results) |} in
          (setPredictionFile completeStatus page, Resolved (result_data results))
      end
  | Failed msg =>
      let errorStatus :=
        {| name := name fileStatus; status := error;
           progress := progress fileStatus;
           error_message := Some msg;
           data := data fileStatus |} in
      (setPredictionFile errorStatus page, Rejected msg)
  end.

(** [onPredictionsDrop]: the first accepted file is processed; a rejection
    is caught and written to the console. *)
Definition onPredictionsDrop (acceptedFiles : list (string * Outcome)) (page : Page) : Page :=
  match acceptedFiles with
  | [] => page
  | (fileName, outcome) :: _ =>
      match processFile fileName outcome page with
      | (page, Resolved _) => page
      | (page, Rejected msg) => log msg page
      end
  end.

(** [handleLoadData]: the handler of the "Load Data" button. *)
Definition handleLoadData (page : Page) : Page :=
  match predictionFile page with
  | Some file =>
      match data file with
      | Some rows => onClose (handleDataLoad rows page)
      | None => page
      end
  | None => page
  end.

(** [canLoadData]: whether the button is enabled. *)
Definition canLoadData (page : Page) : bool :=
  match predictionFile page with
  | Some file => match status file with complete => true | _ => false end
  | None => false
  end.

End Host.

End FileUpload.

(** ** ExternalEventsChart: event types and the impact summary

    [eventTypes] and the three reductions of the "Event Impact Summary",
    DatabaseCapacityChart.tsx lines 285-291 and 490-508. *)

Module EventsSummary.

(** [types.add(x)] on a [Set] of strings: members in insertion order, each
    once. *)
Definition Set_add (x : string) (types : list string) : list string :=
  if existsb (String.eqb x) types then types else types ++ [x].

(** [eventTypes]: ['all'], then every truthy [event.type]. *)
Definition eventTypes (eventsData : list EventRow) : list string :=
  fold_left (fun types event =>
               match ev_type event with
               | None | Some EmptyString => types
               | Some t => Set_add t types
               end)
            eventsData [ "all" ].

(** [filteredData.reduce((sum, item) => sum + item.event_count, 0)] *)
Definition totalEvents (filteredData : list ExternalEventsChart.Bucket) : nat :=
  fold_left (fun sum item => (sum + ExternalEventsChart.event_count item)%nat) filteredData O.

(** [filteredData.reduce((sum, item) => sum + item.high_severity_events, 0)] *)
Definition totalHighSeverity (filteredData : list ExternalEventsChart.Bucket) : nat :=
  fold_left (fun sum item => (sum + ExternalEventsChart.high_severity_events item)%nat)
            filteredData O.

(** The number that the "Avg Impact" text denotes:
    [(sum of event_impact / Math.max(filteredData.length, 1)).toFixed(1)]. *)
Definition averageImpact (filteredData : list ExternalEventsChart.Bucket) : number :=
  Num.toFixed 1
    (Num.div
       (Num.of_nat (fold_left (fun sum item => (sum + ExternalEventsChart.event_impact item)%nat)
                              filteredData O))
       (Num.of_nat (Nat.max (List.length filteredData) 1))).

End EventsSummary.

(** ** InteractiveCalendar

    [processedCalendarData], [getDateData] and [getDateIntensity],
    InteractiveCalendar.tsx lines 27-79.  A calendar day is named by its
    distance in days from today: [i] stands for [addDays(today, i)]. *)

Module InteractiveCalendar.

Record CalendarData : Type := {
  date : nat;
  cpu_avg : number;
  memory_avg : number;
  network_avg : number;
  power_avg : number;
  events : list string
}.

(** [parseFloat(v) || 0]; [parseFloat(undefined)] is NaN. *)
Definition value (v : option number) : number :=
  match v with
  | Some x => parsed x
  | None => Num.zero
  end.

(** [dayData.reduce((sum, item) => sum + (parseFloat(item.x) || 0), 0) / dayData.length] *)
Definition dayAverage (column : Row -> option number) (dayData : list Row) : number :=
  Num.div (fold_left (fun sum item => Num.add sum (value (column item))) dayData Num.zero)
          (Num.of_nat (List.length dayData)).

Section Host.

(** [isSameDay(new Date(ts), addDays(today, i))] *)
Variable onDay : string -> nat -> bool.

(** [data.filter(item => item.timestamp ? isSameDay(...) : false)] *)
Definition dayData (data : list Row) (i : nat) : list Row :=
  filter (fun item =>
            match timestamp item with
            | None | Some EmptyString => false
            | Some ts => onDay ts i
            end) data.

(** The body of [for (let i = 0; i < 365; i++)]: what the round pushes. *)
Definition day (data : list Row) (i : nat) : list CalendarData :=
  match dayData data i with
  | [] => []
  | rows =>
      [ {| date := i;
           cpu_avg := dayAverage cpu_usage rows;
           memory_avg := dayAverage memory_usage rows;
           network_avg := dayAverage network_traffic rows;
           power_avg := dayAverage power_consumption rows;
           events := [] |} ]
  end.

Definition processedCalendarData (data : list Row) : list CalendarData :=
  flat_map (day data) (seq 0 365).

(** [processedCalendarData.find(item => isSameDay(item.date, date))], for
    the date [day] days from today (negative for a past date). *)
Definition getDateData (data : list Row) (day : Z) : option CalendarData :=
  find (fun item => Z.of_nat (date item) =? day) (processedCalendarData data).

Definition getDateIntensity (data : list Row) (day : Z) : nat :=
  match getDateData data day with
  | None => 0
  | Some dayData =>
      let avgUsage := Num.div (Num.add (cpu_avg dayData) (memory_avg dayData)) (Num.of_Z 2) in
      if Num.gt avgUsage (Num.of_Z 80) then 3
      else if Num.gt avgUsage (Num.of_Z 60) then 2
      else if Num.gt avgUsage (Num.of_Z 40) then 1
      else 0
  end.

(** [getSelectedDateDetails] *)
Definition getSelectedDateDetails (data : list Row) (selectedDate : option Z)
    : option CalendarData :=
  match selectedDate with
  | None => None
  | Some day => getDateData data day
  end.

End Host.

End InteractiveCalendar.

(** ** MaintenancePredictions: badges

    [getSeverityColor] and [getSeverityIcon], lines 69-85 of the
    maintenance component. *)

Module MaintenanceBadges.

Definition getSeverityColor (severity : string) : string :=
  if String.eqb severity "high" then "destructive"
  else if String.eqb severity "medium" then "warning"
  else if String.eqb severity "low" then "success"
  else "secondary".

Inductive SeverityIcon : Type := AlertTriangle | CheckCircle | Clock.

Definition getSeverityIcon (severity : string) : SeverityIcon :=
  if String.eqb severity "high" then AlertTriangle
  else if String.eqb severity "medium" then AlertTriangle
  else if String.eqb severity "low" then CheckCircle
  else Clock.

End MaintenanceBadges.

(** ** The page and its dialog in use

    The handlers as pages/Index.tsx and the dialog wire them: the header's
    upload button shows the dialog, the dialog's close and cancel buttons
    call [onClose], its drop zone calls [onPredictionsDrop], and its load
    button, disabled unless [canLoadData], calls [handleLoadData].  The
    dialog exists only while [showFileUpload] holds.  A drop stands for the
    whole of [onPredictionsDrop], the end of the parse included: the user
    acts again once the parse of the dropped file has ended. *)

Module Session.

Inductive Action : Type :=
| UploadClick
| Close
| Drop (acceptedFiles : list (string * FileUpload.Outcome))
| LoadClick.

(** The page when the application starts. *)
Definition initial : FileUpload.Page :=
  {| FileUpload.showFileUpload := false;
     FileUpload.predictionsData := [];
     FileUpload.toasts := [];
     FileUpload.predictionFile := None;
     FileUpload.console := [] |}.

(** [setShowFileUpload(true)] *)
Definition show (page : FileUpload.Page) : FileUpload.Page :=
  {| FileUpload.showFileUpload := true;
     FileUpload.predictionsData := FileUpload.predictionsData page;
     FileUpload.toasts := FileUpload.toasts page;
     FileUpload.predictionFile := FileUpload.predictionFile page;
     FileUpload.console := FileUpload.console page |}.

(** [hasData]: whether the page shows the dashboard. *)
Definition hasData (page : FileUpload.Page) : bool :=
  negb (Nat.eqb (List.length (FileUpload.predictionsData page)) 0).

Section Host.

Variable toLocaleString : nat -> string.

Definition act (page : FileUpload.Page) (action : Action) : FileUpload.Page :=
  match action with
  | UploadClick => show page
  | Close => if FileUpload.showFileUpload page then FileUpload.onClose page else page
  | Drop acceptedFiles =>
      if FileUpload.showFileUpload page
      then FileUpload.onPredictionsDrop acceptedFiles page
      else page
  | LoadClick =>
      if FileUpload.showFileUpload page && FileUpload.canLoadData page
      then FileUpload.handleLoadData toLocaleString page
      else page
  end.

Definition run (actions : list Action) (page : FileUpload.Page) : FileUpload.Page :=
  fold_left act actions page.

End Host.

End Session.

(** ** A host for the worked examples

    Time zone UTC.  It reads the dates written YYYY-MM-DD and takes any
    other text for no date; it prints the January days that
    [new Date(2025, 0, d)] builds, counts below 1000, and reads a text of
    digits as that number.  The examples stay within these; what it
    answers elsewhere is not used. *)

Module Sample.

Definition number_of (s : string) : option Z :=
  option_map Z.of_uint (DecimalString.NilZero.uint_of_string s).

Definition daysInMonth (year month : Z) : Z :=
  if month =? 2 then
    if ((year mod 4 =? 0) && negb (year mod 100 =? 0)) || (year mod 400 =? 0) then 29 else 28
  else if (month =? 4) || (month =? 6) || (month =? 9) || (month =? 11) then 30
  else 31.

Definition calendar (s : string) : option (Z * Z) :=
  match number_of (substring 0 4 s), number_of (substring 5 2 s),
        number_of (substring 8 2 s) with
  | Some year, Some month, Some day =>
      if (String.length s =? 10)%nat
         && String.eqb (substring 4 1 s) "-" && String.eqb (substring 7 1 s) "-"
         && (1 <=? month) && (month <=? 12) && (1 <=? day) && (day <=? daysInMonth year month)
      then Some (year, month - 1)
      else None
  | _, _, _ => None
  end.

Definition toLocaleDateString (d : JSDate) : string :=
  match d with
  | NewDateYMD 2025 0 day =>
      if (1 <=? day) && (day <=? 31) then ("Jan " ++ Z_to_string day)%string
      else "Invalid Date"
  | _ => "Invalid Date"
  end.

Definition format (d : JSDate) : option string :=
  match d with
  | NewDateYMD 2025 0 day =>
      if (1 <=? day) && (day <=? 31)
      then Some ("Jan " ++ padStart2 (Z_to_string day))%string
      else None
  | _ => None
  end.

Definition toLocaleString (n : nat) : string := Z_to_string (Z.of_nat n).

Definition row (ts : option string) (cpu : option number) : Row :=
  {| timestamp := ts; cpu_usage := cpu; memory_usage := None;
     network_traffic := None; power_consumption := None;
     cpu_usage_growth_pct := None; memory_usage_growth_pct := None;
     network_traffic_growth_pct := None |}.

(** Two January rows, the second without a cpu_usage column. *)
Definition january : list Row :=
  [ row (Some "2025-01-01") (Some (Num.of_Z 80)); row (Some "2025-01-02") None ].

(** One row in each of January, February and March 2025, with the given
    cpu_usage. *)
Definition quarter (january february march : number) : list Row :=
  [ row (Some "2025-01-15") (Some january); row (Some "2025-02-15") (Some february);
    row (Some "2025-03-15") (Some march) ].

Definition event (ts : string) : EventRow :=
  {| ev_timestamp := Some ts; ev_type := Some "outage"; ev_severity := None;
     ev_description := None |}.

(** One event in January 2025, two in February and four in March. *)
Definition incidents : list EventRow :=
  [ event "2025-01-03"; event "2025-02-04"; event "2025-02-21"; event "2025-03-01";
    event "2025-03-02"; event "2025-03-17"; event "2025-03-30" ].

(** The chart's coefficient for cpu, all event types on display. *)
Definition cpuCorrelation (predictionsData : list Row) (eventsData : list EventRow) : number :=
  ExternalEventsChart.calculateCorrelation
    (ExternalEventsChart.filteredData
       (ExternalEventsChart.correlatedData calendar predictionsData eventsData) "all")
    ExternalEventsChart.cpu.

(** Rows without timestamps whose cpu_usage is 3, 4, -4 and 4. *)
Definition swings : list Row :=
  [ row None (Some (Num.of_Z 3)); row None (Some (Num.of_Z 4));
    row None (Some (Num.of_Z (-4))); row None (Some (Num.of_Z 4)) ].

(** ToNumber on the texts of the examples, which are unsigned decimal
    integers. *)
Definition toNumber (s : string) : number :=
  match number_of s with
  | Some z => Num.of_Z z
  | None => S754_nan
  end.

(** A row as a component receives it, with the given cpu_usage cell and
    the other metric cells empty. *)
Definition cells (ts : option string) (cpu : option Raw.Cell) : Raw.Row :=
  {| Raw.timestamp := ts; Raw.cpu_usage := cpu; Raw.memory_usage := Some (Raw.Text "");
     Raw.network_traffic := Some (Raw.Text ""); Raw.power_consumption := Some (Raw.Text "") |}.

(** The rows that [Papa.parse] returns for a file with the cpu_usage cells
    3 and 4. *)
Definition loaded : list Raw.Row :=
  [ cells (Some "2025-01-01") (Some (Raw.Text "3"));
    cells (Some "2025-01-02") (Some (Raw.Text "4")) ].

(** Two January rows whose cpu_usage cells read Infinity and -Infinity. *)
Definition extremes : list Row :=
  [ row (Some "2025-01-01") (Some (S754_infinity false));
    row (Some "2025-01-02") (Some (S754_infinity true)) ].

(** Two January rows with the cpu_usage cells 80 and empty. *)
Definition gap : list Row :=
  [ row (Some "2025-01-01") (Some (Num.of_Z 80)); row (Some "2025-01-02") (Some S754_nan) ].

End Sample.

(** ** Vocabulary of the properties *)

(** *** The loop of the monthly aggregations

    Both monthly aggregations run the same loop: skip a row without a key,
    create the key's entry when it is new, then update that entry.  The
    loop is written once, for any key function and any entry type, to be
    compared with [MonthlyChart.groupRow] and
    [ExternalEventsChart.groupRow]. *)

Section Loop.

Context {I V : Type}.
Variable keyOf : I -> option string.
Variable fresh : I -> string -> V.
Variable push : I -> V -> V.

(** One round of the loop. *)
Definition group (m : JSMap V) (item : I) : JSMap V :=
  match keyOf item with
  | None => m
  | Some k =>
      Map_update k (push item) (if Map_has k m then m else Map_set k (fresh item k) m)
  end.

(** What the loop does to the entry of one key [k]. *)
Definition collect (k : string) (acc : option V) (item : I) : option V :=
  match keyOf item with
  | Some k' =>
      if String.eqb k' k
      then Some (push item (match acc with Some v => v | None => fresh item k end))
      else acc
  | None => acc
  end.

(** The rows that the loop files under [k]. *)
Definition filed (k : string) (items : list I) : list I :=
  filter (fun item =>
            match keyOf item with
            | Some k' => String.eqb k' k
            | None => false
            end) items.

End Loop.

(** [values.push(parseFloat(v) || 0)] for every row that has the column. *)
Definition pushed {I : Type} (column : I -> option number) (items : list I) : list number :=
  flat_map (fun item =>
              match column item with
              | Some x => [parsed x]
              | None => []
              end) items.

(** The key under which the loops file a row: none for a row whose
    timestamp is absent or empty. *)
Definition rowKey (calendar : string -> option (Z * Z)) (item : Row) : option string :=
  match timestamp item with
  | None | Some EmptyString => None
  | Some ts => Some (monthKey calendar ts)
  end.

(** The date that the loop stores in a new entry. *)
Definition rowDate (item : Row) : JSDate :=
  match timestamp item with
  | Some ts => NewDate ts
  | None => NewDate ""
  end.

(** The mean as the specification words it: every row of the bucket counts
    in the denominator, and a row without the column adds 0. *)
Definition spec_mean (column : Row -> option number) (rows : list Row) : number :=
  Num.div
    (fold_left Num.add
               (map (fun r => match column r with Some x => parsed x | None => Num.zero end) rows)
               Num.zero)
    (Num.of_nat (List.length rows)).

(** Every row has the column or none has, as in the rows of a file that
    the dialog accepts: [Papa.parse] reports a row shorter than the header
    as an error (TooFewFields), and [processFile] refuses a file with an
    error. *)
Definition uniform (column : Row -> option number) (rows : list Row) : Prop :=
  Forall (fun r => column r <> None) rows \/ Forall (fun r => column r = None) rows.

(** [x === y] on numbers: [0] and [-0] are the same, NaN is not itself. *)
Definition same (x y : number) : bool := SFeqb x y.

(** Whether a cell is text that is not empty, which [cell || 0] keeps as
    text. *)
Definition textual (cell : option Raw.Cell) : bool :=
  match cell with
  | Some (Raw.Text (String _ _)) => true
  | _ => false
  end.

(** Whether one of the four metric cells that the daily chart rounds is
    text that is not empty. *)
Definition holdsText (item : Raw.Row) : bool :=
  textual (Raw.cpu_usage item) || textual (Raw.memory_usage item)
  || textual (Raw.network_traffic item) || textual (Raw.power_consumption item).

(** Whether a cell is not a number: text, or absent. *)
Definition unparsed (cell : option Raw.Cell) : bool :=
  match cell with
  | Some (Raw.Number _) => false
  | _ => true
  end.

(** A row as [Papa.parse] returns it: no metric cell is a number. *)
Definition fromFile (item : Raw.Row) : bool :=
  unparsed (Raw.cpu_usage item) && unparsed (Raw.memory_usage item)
  && unparsed (Raw.network_traffic item) && unparsed (Raw.power_consumption item).

(** Text made of ASCII characters, on which [toLowerCase] is what
    JavaScript's [toLowerCase] is. *)
Fixpoint asciiText (s : string) : bool :=
  match s with
  | EmptyString => true
  | String c s' => (nat_of_ascii c <? 128)%nat && asciiText s'
  end.

(** An event whose type, if it has one, is ASCII text. *)
Definition asciiType (e : EventRow) : bool :=
  match ev_type e with
  | Some t => asciiText t
  | None => true
  end.

(** [m * 2 ^ k] on positive numbers, for [k] not below 0. *)
Definition shl (m : positive) (k : Z) : positive :=
  match k with
  | Zpos p => Pos.iter xO m p
  | _ => m
  end.

(** A zero of either sign, or NaN. *)
Definition zero_or_nan (x : number) : bool :=
  match x with
  | S754_zero _ | S754_nan => true
  | _ => false
  end.

(** A chart point without its simulated [dailyInputs]. *)
Definition measured (p : DatabaseCapacityChart.Point)
    : string * JSDate * number * number * number * number :=
  (DatabaseCapacityChart.date p, DatabaseCapacityChart.fullDate p,
   DatabaseCapacityChart.cpuUsage p, DatabaseCapacityChart.memoryUsage p,
   DatabaseCapacityChart.networkTraffic p, DatabaseCapacityChart.powerConsumption p).

(** *** The correlation formula on real numbers *)

Section RealFormula.

#[local] Open Scope R_scope.

(** Input rows with finite metric averages, read as exact numbers. *)
Definition lift (pts : list (R * nat)) : list (@point Exact.xreal) :=
  map (fun p => (Exact.Fin (fst p), snd p)) pts.

(** The filter of [calculateCorrelation] on exact rows. *)
Definition rvalid (p : R * nat) : bool :=
  negb (Exact.zeroR (fst p)) && negb (Nat.eqb (snd p) 0).

(** The mean of a sequence. *)
Definition rmean (xs : list R) : R := fold_left Rplus xs 0 / INR (List.length xs).

(** One round of the [for] loop on real numbers. *)
Definition rstep (mx my : R) (acc : R * R * R) (p : R * R) : R * R * R :=
  let '(n, a, b) := acc in
  (n + (fst p + - mx) * (snd p + - my),
   a + (fst p + - mx) * (fst p + - mx),
   b + (snd p + - my) * (snd p + - my)).

(** Numerator and the two denominators that the loop reaches. *)
Definition moments (valid : list (R * nat)) : R * R * R :=
  let xs := map fst valid in
  let ys := map (fun p => INR (snd p)) valid in
  fold_left (rstep (rmean xs) (rmean ys)) (combine xs ys) (0, 0, 0).

End RealFormula.

(** *** Vocabulary of the further properties *)

(** The key under which the second loop of [correlatedData] looks an event
    up: none for an event whose timestamp is absent or empty. *)
Definition eventKey (calendar : string -> option (Z * Z)) (event : EventRow) : option string :=
  match ev_timestamp event with
  | None | Some EmptyString => None
  | Some ts => Some (monthKey calendar ts)
  end.

(** Whether an optional key is the key [k]. *)
Definition keyed (key : option string) (k : string) : bool :=
  match key with
  | Some k' => String.eqb k' k
  | None => false
  end.

(** What both monthly charts show of a bucket: its month and the means of
    the four metrics. *)
Definition monthlyView (b : MonthlyChart.Bucket) : string * number * number * number * number :=
  (MonthlyChart.month b, MonthlyChart.cpu_avg b, MonthlyChart.memory_avg b,
   MonthlyChart.network_avg b, MonthlyChart.power_avg b).

Definition correlatedView (b : ExternalEventsChart.Bucket)
    : string * number * number * number * number :=
  (ExternalEventsChart.month b, ExternalEventsChart.cpu_avg b, ExternalEventsChart.memory_avg b,
   ExternalEventsChart.network_avg b, ExternalEventsChart.power_avg b).

(** Neither NaN nor [-0]. *)
Definition plain (x : number) : bool :=
  match x with
  | S754_nan | S754_zero true => false
  | _ => true
  end.

(** The sign bit of a number: set on [-0], on [-Infinity] and on every
    number below zero. *)
Definition negative (x : number) : bool :=
  match x with
  | S754_zero s | S754_infinity s | S754_finite s _ _ => s
  | S754_nan => false
  end.

(** The date that the capacity chart formats for the row at [index]. *)
Definition pointDate (index : nat) (item : Row) : JSDate :=
  match timestamp item with
  | None | Some EmptyString => NewDateYMD 2025 0 (Z.of_nat index + 1)
  | Some ts => ParseISO ts
  end.

(** Whether the event-type selector shows an event: every event under
    ['all'], and otherwise the events of the selected type. *)
Definition shownType (eventFilter : string) (e : EventRow) : bool :=
  String.eqb eventFilter "all"
  || match ev_type e with
     | Some t => String.eqb t eventFilter
     | None => false
     end.

(** [rows] is what an error-free parse returned for the first file of some
    drop among [actions]. *)
Definition parsedBy (actions : list Session.Action) (rows : list Row) : Prop :=
  exists fileName results rest,
    In (Session.Drop ((fileName, FileUpload.Complete results) :: rest)) actions
    /\ FileUpload.errors results = []
    /\ rows = FileUpload.result_data results.

(** The dialog holds either nothing, or a file whose parse has ended: with
    the rows of an error-free parse of [actions] and status [complete], or
    without rows and with status [error]. *)
Definition settled (actions : list Session.Action) (page : FileUpload.Page) : Prop :=
  match FileUpload.predictionFile page with
  | None => True
  | Some file =>
      FileUpload.showFileUpload page = true
      /\ match FileUpload.data file with
         | Some rows => FileUpload.status file = FileUpload.complete /\ parsedBy actions rows
         | None => FileUpload.status file = FileUpload.error
         end
  end.

(** * Properties *)

(** ** Worked examples *)

(** The specification's daily example: cpu_usage 80 and 40 on two days give
    averages 80 and 40 and growth percentages 0 and -50, for a caller that
    passes numbers. *)
Example daily_growth_example :
  option_map (map (fun p => (DailyChart.cpu_avg p, DailyChart.cpu_growth p)))
             (DailyChart.processedData Sample.toNumber Sample.toLocaleDateString
                [ Sample.cells (Some "2025-01-01") (Some (Raw.Number (Num.of_Z 80)));
                  Sample.cells (Some "2025-01-02") (Some (Raw.Number (Num.of_Z 40))) ])
  = Some [ (Num.of_Z 80, Num.zero); (Num.of_Z 40, Num.of_Z (-50)) ].
Proof. vm_compute. reflexivity. Qed.

(** Rows of March and January 2025 and of December 2024 come out as three
    buckets in the order of their keys; a cell that is no number counts as
    0 in its month's mean. *)
Example monthly_buckets_example :
  map (fun b => (MonthlyChart.month b, MonthlyChart.cpu_avg b))
      (MonthlyChart.processedData Sample.calendar
         [ Sample.row (Some "2025-03-09") (Some (Num.of_Z 30));
           Sample.row (Some "2025-01-05") (Some (Num.of_Z 80));
           Sample.row (Some "2024-12-31") (Some (Num.of_Z 10));
           Sample.row (Some "2025-01-20") (Some S754_nan);
           Sample.row None (Some (Num.of_Z 99)) ])
  = [ ("2024-12", Num.of_Z 10); ("2025-01", Num.of_Z 40); ("2025-03", Num.of_Z 30) ].
Proof. vm_compute. reflexivity. Qed.

(** [toFixed(2)] and [Math.round] on a few values: 0.125 goes up to 0.13,
    1.005 (stored just below) down to 1, -0.001 to -0, and 2.5 rounds to 3
    while -2.5 rounds to -2. *)
Example rounding_example :
  map (Num.toFixed 2) [ Num.lit 0.125; Num.lit 1.005; Num.lit (-0.001) ]
  = [ Num.lit 0.13; Num.of_Z 1; S754_zero true ]
  /\ map Num.round [ Num.lit 2.5; Num.lit (-2.5) ] = [ Num.of_Z 3; Num.of_Z (-2) ].
Proof. split; vm_compute; reflexivity. Qed.

(** ** Sorting by month key *)

Lemma compare_lt_trans (a b c : string) :
  String.compare a b = Lt -> String.compare b c = Lt -> String.compare a c = Lt.
Proof.
  intros Hab Hbc.
  apply OrderedTypeEx.String_as_OT.cmp_lt.
  apply OrderedTypeEx.String_as_OT.lt_trans with b;
    now apply OrderedTypeEx.String_as_OT.cmp_lt.
Qed.

Lemma compare_gt_lt (a b : string) :
  String.compare a b = Gt -> String.compare b a = Lt.
Proof.
  intros H. rewrite String.compare_antisym, H. reflexivity.
Qed.

Section SortByKey.

Context {A : Type}.
Variable key : A -> string.

Let cmp (a b : A) : comparison := localeCompare (key a) (key b).
Let before (a b : A) : Prop := localeCompare (key a) (key b) = Lt.

Lemma insert_perm (x : A) (l : list A) : Permutation (insert cmp x l) (x :: l).
Proof.
  induction l as [|y l IH]; simpl.
  - apply Permutation_refl.
  - destruct (cmp x y); try apply Permutation_refl.
    eapply perm_trans; [apply perm_skip, IH | apply perm_swap].
Qed.

Lemma sort_perm (l : list A) : Permutation (sort cmp l) l.
Proof.
  induction l as [|x l IH]; simpl.
  - apply perm_nil.
  - eapply perm_trans; [apply insert_perm | apply perm_skip, IH].
Qed.

Lemma insert_sorted (x : A) (l : list A) :
  StronglySorted before l ->
  ~ In (key x) (map key l) ->
  StronglySorted before (insert cmp x l).
Proof.
  induction 1 as [|y l Hsorted IH Hy]; intros Hfresh; simpl.
  - constructor; constructor.
  - destruct (cmp x y) eqn:Hxy; unfold cmp, localeCompare in Hxy.
    + exfalso. apply Hfresh. left. symmetry. now apply String.compare_eq_iff.
    + constructor; [now constructor|].
      constructor; [exact Hxy|].
      eapply Forall_impl; [|exact Hy].
      intros z Hz. unfold before, localeCompare in *. now apply compare_lt_trans with (key y).
    + constructor.
      * apply IH. intros Hin. apply Hfresh. now right.
      * apply (Permutation_Forall (Permutation_sym (insert_perm x l))).
        constructor; [|exact Hy].
        unfold before, localeCompare. now apply compare_gt_lt.
Qed.

Lemma sort_strictly_sorted (l : list A) :
  NoDup (map key l) -> StronglySorted before (sort cmp l).
Proof.
  induction l as [|x l IH]; simpl; intros Hnd.
  - constructor.
  - inversion Hnd as [|? ? Hx Hl]; subst.
    apply insert_sorted; [now apply IH|].
    intros Hin. apply Hx.
    eapply Permutation_in; [|exact Hin].
    apply Permutation_map, sort_perm.
Qed.

End SortByKey.

(** ** Grouping rows in a [Map] *)

Lemma keys_update {V : Type} (k : string) (f : V -> V) (m : JSMap V) :
  keys (Map_update k f m) = keys m.
Proof.
  unfold keys.
  induction m as [|[k' v] m IH]; simpl; [reflexivity|].
  destruct (String.eqb k' k); simpl; [reflexivity|].
  now rewrite IH.
Qed.

Lemma Map_has_keys {V : Type} (k : string) (m : JSMap V) :
  Map_has k m = true <-> In k (keys m).
Proof.
  unfold Map_has, keys. rewrite existsb_exists, in_map_iff.
  split; intros [e [H1 H2]]; exists e.
  - split; [now apply String.eqb_eq | exact H1].
  - split; [exact H2 | now apply String.eqb_eq].
Qed.

Lemma Map_has_get {V : Type} (k : string) (m : JSMap V) :
  Map_has k m = false <-> Map_get k m = None.
Proof.
  unfold Map_has.
  induction m as [|[k' v] m IH]; simpl; [tauto|].
  destruct (String.eqb k' k); simpl; [split; discriminate | exact IH].
Qed.

Lemma Map_get_update {V : Type} (k k' : string) (f : V -> V) (m : JSMap V) :
  Map_get k' (Map_update k f m) =
  if String.eqb k k' then option_map f (Map_get k m) else Map_get k' m.
Proof.
  induction m as [|[k0 v] m IH]; simpl.
  - now destruct (String.eqb k k').
  - destruct (String.eqb k0 k) eqn:E0; simpl.
    + apply String.eqb_eq in E0; subst k0.
      now destruct (String.eqb k k').
    + rewrite IH.
      destruct (String.eqb k0 k') eqn:E1; [|reflexivity].
      apply String.eqb_eq in E1; subst k'.
      rewrite String.eqb_sym, E0. reflexivity.
Qed.

Lemma Map_get_set {V : Type} (k k' : string) (v : V) (m : JSMap V) :
  Map_get k' (Map_set k v m) =
  match Map_get k' m with
  | Some x => Some x
  | None => if String.eqb k k' then Some v else None
  end.
Proof.
  unfold Map_set.
  induction m as [|[k0 v0] m IH]; simpl.
  - reflexivity.
  - now destruct (String.eqb k0 k').
Qed.

Lemma Map_get_In {V : Type} (k : string) (v : V) (m : JSMap V) :
  NoDup (keys m) -> In (k, v) m -> Map_get k m = Some v.
Proof.
  unfold keys.
  induction m as [|[k0 v0] m IH]; simpl; intros Hnd Hin; [contradiction|].
  inversion Hnd as [|? ? Hk0 Hm]; subst.
  destruct Hin as [Heq|Hin].
  - inversion Heq; subst. now rewrite String.eqb_refl.
  - destruct (String.eqb k0 k) eqn:E.
    + apply String.eqb_eq in E; subst k0. exfalso. apply Hk0.
      apply in_map_iff. now exists (k, v).
    + now apply IH.
Qed.

Section Grouping.

Context {I V : Type}.
Variable keyOf : I -> option string.
Variable fresh : I -> string -> V.
Variable push : I -> V -> V.

Lemma group_nodup (m : JSMap V) (item : I) :
  NoDup (keys m) -> NoDup (keys (group keyOf fresh push m item)).
Proof.
  intros Hnd. unfold group.
  destruct (keyOf item) as [k|]; [|exact Hnd].
  rewrite keys_update.
  destruct (Map_has k m) eqn:Hhas; [exact Hnd|].
  unfold Map_set, keys. rewrite map_app. simpl.
  apply NoDup_rev in Hnd.
  rewrite <- (rev_involutive (map fst m ++ [k])).
  apply NoDup_rev. rewrite rev_app_distr. simpl.
  constructor.
  - rewrite <- in_rev. intros Hin.
    apply (proj2 (Map_has_keys k m)) in Hin. congruence.
  - exact Hnd.
Qed.

Lemma group_all_nodup (items : list I) (m : JSMap V) :
  NoDup (keys m) -> NoDup (keys (fold_left (group keyOf fresh push) items m)).
Proof.
  revert m. induction items as [|item items IH]; simpl; intros m Hnd; [exact Hnd|].
  apply IH, group_nodup, Hnd.
Qed.

Lemma group_get (k : string) (m : JSMap V) (item : I) :
  Map_get k (group keyOf fresh push m item) = collect keyOf fresh push k (Map_get k m) item.
Proof.
  unfold group, collect.
  destruct (keyOf item) as [k'|]; [|reflexivity].
  rewrite Map_get_update.
  destruct (String.eqb k' k) eqn:E; [apply String.eqb_eq in E; subst k'|].
  - destruct (Map_has k m) eqn:Hhas.
    + destruct (Map_get k m) eqn:Hget; [reflexivity|].
      apply Map_has_get in Hget. congruence.
    + rewrite Map_get_set, String.eqb_refl.
      apply Map_has_get in Hhas. now rewrite Hhas.
  - destruct (Map_has k' m); [reflexivity|].
    rewrite Map_get_set, E. now destruct (Map_get k m).
Qed.

Lemma group_all_get (k : string) (items : list I) (m : JSMap V) :
  Map_get k (fold_left (group keyOf fresh push) items m) = fold_left (collect keyOf fresh push k) items (Map_get k m).
Proof.
  revert m. induction items as [|item items IH]; simpl; intros m; [reflexivity|].
  now rewrite IH, group_get.
Qed.

(** A list-valued field of the entry that every round extends by what it
    reads in the row. *)
Variable field : V -> list number.
Variable column : I -> option number.
Hypothesis field_push : forall item v, field (push item v) = push_defined (field v) (column item).
Hypothesis field_fresh : forall item k, field (fresh item k) = [].

Lemma collect_field (k : string) (items : list I) (acc : option V) (v : V) :
  fold_left (collect keyOf fresh push k) items acc = Some v ->
  field v = match acc with Some v0 => field v0 | None => [] end ++ pushed column (filed keyOf k items).
Proof.
  revert acc. induction items as [|item items IH]; simpl; intros acc Hv.
  - subst acc. now rewrite app_nil_r.
  - apply IH in Hv. rewrite Hv. unfold collect.
    destruct (keyOf item) as [k'|]; [|reflexivity].
    destruct (String.eqb k' k); [|reflexivity].
    simpl. rewrite field_push.
    assert (Hacc : field (match acc with Some v0 => v0 | None => fresh item k end)
                   = match acc with Some v0 => field v0 | None => [] end)
      by (destruct acc; [reflexivity | apply field_fresh]).
    rewrite Hacc. unfold push_defined.
    destruct (column item); simpl; [now rewrite <- app_assoc | reflexivity].
Qed.

(** A label of the entry that no round changes. *)
Variable label : V -> string.
Hypothesis label_push : forall item v, label (push item v) = label v.
Hypothesis label_fresh : forall item k, label (fresh item k) = k.

Lemma collect_label (k : string) (items : list I) (acc : option V) (v : V) :
  fold_left (collect keyOf fresh push k) items acc = Some v ->
  label v = match acc with Some v0 => label v0 | None => k end.
Proof.
  revert acc. induction items as [|item items IH]; simpl; intros acc Hv.
  - now subst acc.
  - apply IH in Hv. rewrite Hv. unfold collect.
    destruct (keyOf item) as [k'|]; [|reflexivity].
    destruct (String.eqb k' k); [|reflexivity].
    rewrite label_push. destruct acc; [reflexivity | apply label_fresh].
Qed.

Lemma group_all_labels (items : list I) :
  map (fun e => label (snd e)) (fold_left (group keyOf fresh push) items []) = keys (fold_left (group keyOf fresh push) items []).
Proof.
  apply map_ext_in. intros [k v] Hin. simpl.
  apply Map_get_In in Hin; [|apply group_all_nodup; constructor].
  rewrite group_all_get in Hin. simpl in Hin.
  now apply collect_label in Hin.
Qed.

End Grouping.

(** An update that keeps the label keeps every entry's label. *)
Lemma labels_update {V : Type} (label : V -> string) (k : string) (f : V -> V) (m : JSMap V) :
  (forall v, label (f v) = label v) ->
  map (fun e => label (snd e)) (Map_update k f m) = map (fun e => label (snd e)) m.
Proof.
  intros Hf. induction m as [|[k' v] m IH]; simpl; [reflexivity|].
  destruct (String.eqb k' k); simpl; [now rewrite Hf | now rewrite IH].
Qed.

(** ** The two monthly aggregations as instances of the loop *)

Lemma monthly_groupRow calendar (m : JSMap MonthlyChart.MonthData) (item : Row) :
  MonthlyChart.groupRow calendar m item =
  group (rowKey calendar) (fun item k => MonthlyChart.emptyMonth k (rowDate item))
        MonthlyChart.pushRow m item.
Proof.
  unfold MonthlyChart.groupRow, group, rowKey, rowDate.
  destruct (timestamp item) as [[|c ts]|]; reflexivity.
Qed.

Lemma monthly_monthlyData calendar (data : list Row) :
  MonthlyChart.monthlyData calendar data =
  fold_left (group (rowKey calendar) (fun item k => MonthlyChart.emptyMonth k (rowDate item))
                   MonthlyChart.pushRow) data [].
Proof.
  unfold MonthlyChart.monthlyData. generalize (@nil (string * MonthlyChart.MonthData)).
  induction data as [|item data IH]; simpl; intros m; [reflexivity|].
  now rewrite IH, monthly_groupRow.
Qed.

Lemma events_groupRow calendar (m : JSMap ExternalEventsChart.MonthData) (item : Row) :
  ExternalEventsChart.groupRow calendar m item =
  group (rowKey calendar) (fun _ k => ExternalEventsChart.emptyMonth k)
        ExternalEventsChart.pushRow m item.
Proof.
  unfold ExternalEventsChart.groupRow, group, rowKey.
  destruct (timestamp item) as [[|c ts]|]; reflexivity.
Qed.

Lemma events_groupRows calendar (predictionsData : list Row) :
  fold_left (ExternalEventsChart.groupRow calendar) predictionsData [] =
  fold_left (group (rowKey calendar) (fun _ k => ExternalEventsChart.emptyMonth k)
                   ExternalEventsChart.pushRow) predictionsData [].
Proof.
  generalize (@nil (string * ExternalEventsChart.MonthData)).
  induction predictionsData as [|item data IH]; simpl; intros m; [reflexivity|].
  now rewrite IH, events_groupRow.
Qed.

(** The second loop, over the events, changes no key and no list of metric
    values. *)
Lemma groupEvent_keys calendar (m : JSMap ExternalEventsChart.MonthData) (event : EventRow) :
  keys (ExternalEventsChart.groupEvent calendar m event) = keys m.
Proof.
  unfold ExternalEventsChart.groupEvent.
  destruct (ev_timestamp event) as [[|c ts]|]; try reflexivity.
  destruct (Map_has _ m); [apply keys_update | reflexivity].
Qed.

Lemma groupEvents_keys calendar (eventsData : list EventRow) (m : JSMap ExternalEventsChart.MonthData) :
  keys (fold_left (ExternalEventsChart.groupEvent calendar) eventsData m) = keys m.
Proof.
  revert m. induction eventsData as [|event events IH]; simpl; intros m; [reflexivity|].
  now rewrite IH, groupEvent_keys.
Qed.

Lemma groupEvent_get calendar {T : Type} (proj : ExternalEventsChart.MonthData -> T)
    (k : string) (m : JSMap ExternalEventsChart.MonthData) (event : EventRow) :
  (forall e v, proj (ExternalEventsChart.pushEvent e v) = proj v) ->
  option_map proj (Map_get k (ExternalEventsChart.groupEvent calendar m event)) =
  option_map proj (Map_get k m).
Proof.
  intros Hproj. unfold ExternalEventsChart.groupEvent.
  destruct (ev_timestamp event) as [[|c ts]|]; try reflexivity.
  destruct (Map_has _ m); [|reflexivity].
  rewrite Map_get_update.
  destruct (String.eqb _ k) eqn:E; [|reflexivity].
  apply String.eqb_eq in E. rewrite E.
  destruct (Map_get k m); simpl; [now rewrite Hproj | reflexivity].
Qed.

Lemma groupEvents_get calendar {T : Type} (proj : ExternalEventsChart.MonthData -> T)
    (k : string) (eventsData : list EventRow) (m : JSMap ExternalEventsChart.MonthData) :
  (forall e v, proj (ExternalEventsChart.pushEvent e v) = proj v) ->
  option_map proj (Map_get k (fold_left (ExternalEventsChart.groupEvent calendar) eventsData m)) =
  option_map proj (Map_get k m).
Proof.
  intros Hproj. revert m.
  induction eventsData as [|event events IH]; simpl; intros m; [reflexivity|].
  now rewrite IH, groupEvent_get.
Qed.

Lemma groupEvents_labels calendar (eventsData : list EventRow) (m : JSMap ExternalEventsChart.MonthData) :
  map (fun e => ExternalEventsChart.md_month (snd e))
      (fold_left (ExternalEventsChart.groupEvent calendar) eventsData m) =
  map (fun e => ExternalEventsChart.md_month (snd e)) m.
Proof.
  revert m. induction eventsData as [|event events IH]; simpl; intros m; [reflexivity|].
  rewrite IH. unfold ExternalEventsChart.groupEvent.
  destruct (ev_timestamp event) as [[|c ts]|]; try reflexivity.
  destruct (Map_has _ m); [|reflexivity].
  now apply labels_update.
Qed.

(** ** Bucket keys *)

Lemma monthly_months calendar (data : list Row) :
  map MonthlyChart.month
      (map MonthlyChart.averages (Map_values (MonthlyChart.monthlyData calendar data))) =
  keys (MonthlyChart.monthlyData calendar data).
Proof.
  unfold Map_values. rewrite !map_map. simpl.
  rewrite monthly_monthlyData.
  apply (group_all_labels _ _ _ MonthlyChart.md_month); reflexivity.
Qed.

Lemma monthly_keys_nodup calendar (data : list Row) :
  NoDup (keys (MonthlyChart.monthlyData calendar data)).
Proof.
  rewrite monthly_monthlyData. apply group_all_nodup. constructor.
Qed.

Lemma events_months calendar (predictionsData : list Row) (eventsData : list EventRow) :
  map ExternalEventsChart.month
      (map ExternalEventsChart.summarize
           (Map_values (ExternalEventsChart.monthlyPredictions calendar predictionsData eventsData))) =
  keys (ExternalEventsChart.monthlyPredictions calendar predictionsData eventsData).
Proof.
  unfold Map_values, ExternalEventsChart.monthlyPredictions. rewrite !map_map. simpl.
  rewrite groupEvents_labels, groupEvents_keys, events_groupRows.
  apply (group_all_labels _ _ _ ExternalEventsChart.md_month); reflexivity.
Qed.

Lemma events_keys_nodup calendar (predictionsData : list Row) (eventsData : list EventRow) :
  NoDup (keys (ExternalEventsChart.monthlyPredictions calendar predictionsData eventsData)).
Proof.
  unfold ExternalEventsChart.monthlyPredictions.
  rewrite groupEvents_keys, events_groupRows. apply group_all_nodup. constructor.
Qed.

Lemma sorted_buckets {A : Type} (key : A -> string) (l : list A) :
  NoDup (map key l) ->
  let sorted := sort (fun a b => localeCompare (key a) (key b)) l in
  StronglySorted (fun a b => localeCompare (key a) (key b) = Lt) sorted
  /\ NoDup (map key sorted).
Proof.
  intros Hnd sorted. split.
  - now apply sort_strictly_sorted.
  - eapply Permutation_NoDup; [|exact Hnd].
    apply Permutation_map, Permutation_sym, sort_perm.
Qed.

(** C3.  Whatever the rows (and events), each monthly aggregation returns
    its buckets in strictly ascending order of month key, and no two
    buckets carry the same key. *)
Theorem buckets_strictly_ascending
    calendar (data : list Row) (eventsData : list EventRow) :
  let monthly := MonthlyChart.processedData calendar data in
  let correlated := ExternalEventsChart.correlatedData calendar data eventsData in
  StronglySorted
    (fun a b => localeCompare (MonthlyChart.month a) (MonthlyChart.month b) = Lt) monthly
  /\ NoDup (map MonthlyChart.month monthly)
  /\ StronglySorted
       (fun a b => localeCompare (ExternalEventsChart.month a) (ExternalEventsChart.month b) = Lt)
       correlated
  /\ NoDup (map ExternalEventsChart.month correlated).
Proof.
  intros monthly correlated.
  assert (Hm : StronglySorted
                 (fun a b => localeCompare (MonthlyChart.month a) (MonthlyChart.month b) = Lt)
                 monthly
               /\ NoDup (map MonthlyChart.month monthly)).
  { subst monthly. unfold MonthlyChart.processedData.
    destruct data as [|item data]; [split; constructor|].
    apply sorted_buckets. rewrite monthly_months. apply monthly_keys_nodup. }
  assert (Hc : StronglySorted
                 (fun a b => localeCompare (ExternalEventsChart.month a)
                                           (ExternalEventsChart.month b) = Lt)
                 correlated
               /\ NoDup (map ExternalEventsChart.month correlated)).
  { subst correlated. unfold ExternalEventsChart.correlatedData.
    destruct data as [|item data]; [split; constructor|].
    destruct eventsData as [|event events]; [split; constructor|].
    apply sorted_buckets. rewrite events_months. apply events_keys_nodup. }
  tauto.
Qed.

(** ** Bucket means *)

Lemma pushed_length {I : Type} (column : I -> option number) (items : list I) :
  List.length (pushed column items) =
  List.length (filter (fun item => match column item with Some _ => true | None => false end) items).
Proof.
  induction items as [|item items IH]; simpl; [reflexivity|].
  destruct (column item); simpl; now rewrite IH.
Qed.

Lemma monthly_entry calendar (data : list Row) (k : string) (v : MonthlyChart.MonthData) :
  In (k, v) (MonthlyChart.monthlyData calendar data) ->
  fold_left (collect (rowKey calendar) (fun item k => MonthlyChart.emptyMonth k (rowDate item))
                     MonthlyChart.pushRow k) data None = Some v.
Proof.
  intros Hin.
  apply Map_get_In in Hin; [|apply monthly_keys_nodup].
  now rewrite monthly_monthlyData, group_all_get in Hin.
Qed.

Lemma events_entry calendar (predictionsData : list Row) (eventsData : list EventRow)
    (k : string) (v : ExternalEventsChart.MonthData) :
  In (k, v) (ExternalEventsChart.monthlyPredictions calendar predictionsData eventsData) ->
  exists v0,
    fold_left (collect (rowKey calendar) (fun _ k => ExternalEventsChart.emptyMonth k)
                       ExternalEventsChart.pushRow k) predictionsData None = Some v0
    /\ ExternalEventsChart.md_month v0 = ExternalEventsChart.md_month v
    /\ ExternalEventsChart.md_cpu_values v0 = ExternalEventsChart.md_cpu_values v
    /\ ExternalEventsChart.md_memory_values v0 = ExternalEventsChart.md_memory_values v
    /\ ExternalEventsChart.md_network_values v0 = ExternalEventsChart.md_network_values v
    /\ ExternalEventsChart.md_power_values v0 = ExternalEventsChart.md_power_values v.
Proof.
  intros Hin.
  apply Map_get_In in Hin; [|apply events_keys_nodup].
  unfold ExternalEventsChart.monthlyPredictions in Hin.
  pose proof (groupEvents_get calendar (fun x => x) k eventsData
                (fold_left (ExternalEventsChart.groupRow calendar) predictionsData [])) as Hid.
  assert (Hproj : forall {T : Type} (proj : ExternalEventsChart.MonthData -> T),
             (forall e x, proj (ExternalEventsChart.pushEvent e x) = proj x) ->
             option_map proj
               (Map_get k (fold_left (ExternalEventsChart.groupRow calendar) predictionsData []))
             = Some (proj v)).
  { intros T proj Hp.
    rewrite <- (groupEvents_get calendar proj k eventsData) by exact Hp.
    now rewrite Hin. }
  clear Hid.
  destruct (Map_get k (fold_left (ExternalEventsChart.groupRow calendar) predictionsData []))
    as [v0|] eqn:Hget.
  - exists v0. rewrite events_groupRows, group_all_get in Hget. simpl in Hget.
    split; [exact Hget|].
    repeat split.
    + specialize (Hproj _ ExternalEventsChart.md_month (fun _ _ => eq_refl)). now inversion Hproj.
    + specialize (Hproj _ ExternalEventsChart.md_cpu_values (fun _ _ => eq_refl)). now inversion Hproj.
    + specialize (Hproj _ ExternalEventsChart.md_memory_values (fun _ _ => eq_refl)). now inversion Hproj.
    + specialize (Hproj _ ExternalEventsChart.md_network_values (fun _ _ => eq_refl)). now inversion Hproj.
    + specialize (Hproj _ ExternalEventsChart.md_power_values (fun _ _ => eq_refl)). now inversion Hproj.
  - specialize (Hproj _ ExternalEventsChart.md_month (fun _ _ => eq_refl)). discriminate Hproj.
Qed.

Lemma monthly_bucket calendar (data : list Row) (b : MonthlyChart.Bucket) :
  In b (MonthlyChart.processedData calendar data) ->
  exists k v, In (k, v) (MonthlyChart.monthlyData calendar data) /\ b = MonthlyChart.averages v.
Proof.
  intros Hin.
  assert (Hin' : In b (map MonthlyChart.averages
                           (Map_values (MonthlyChart.monthlyData calendar data)))).
  { unfold MonthlyChart.processedData in Hin.
    destruct data; [contradiction|].
    exact (Permutation_in _ (sort_perm MonthlyChart.month _) Hin). }
  apply in_map_iff in Hin'. destruct Hin' as [v [Hb Hv]].
  apply in_map_iff in Hv. destruct Hv as [[k v'] [Hv Hkv]]. simpl in Hv. subst v'.
  now exists k, v.
Qed.

Lemma events_bucket calendar (predictionsData : list Row) (eventsData : list EventRow)
    (b : ExternalEventsChart.Bucket) :
  In b (ExternalEventsChart.correlatedData calendar predictionsData eventsData) ->
  exists k v,
    In (k, v) (ExternalEventsChart.monthlyPredictions calendar predictionsData eventsData)
    /\ b = ExternalEventsChart.summarize v.
Proof.
  intros Hin.
  assert (Hin' : In b (map ExternalEventsChart.summarize
                           (Map_values (ExternalEventsChart.monthlyPredictions
                                          calendar predictionsData eventsData)))).
  { unfold ExternalEventsChart.correlatedData in Hin.
    destruct predictionsData; [contradiction|].
    destruct eventsData; [contradiction|].
    exact (Permutation_in _ (sort_perm ExternalEventsChart.month _) Hin). }
  apply in_map_iff in Hin'. destruct Hin' as [v [Hb Hv]].
  apply in_map_iff in Hv. destruct Hv as [[k v'] [Hv Hkv]]. simpl in Hv. subst v'.
  now exists k, v.
Qed.

(** The list that a field of a month's entry holds once the rows are read. *)
Ltac monthly_field H field column :=
  exact (collect_field (rowKey _) (fun item k => MonthlyChart.emptyMonth k (rowDate item))
                       MonthlyChart.pushRow field column
                       (fun _ _ => eq_refl) (fun _ _ => eq_refl) _ _ None _ H).

Ltac events_field H field column :=
  exact (collect_field (rowKey _) (fun _ k => ExternalEventsChart.emptyMonth k)
                       ExternalEventsChart.pushRow field column
                       (fun _ _ => eq_refl) (fun _ _ => eq_refl) _ _ None _ H).

Lemma average_pushed_cases (column : Row -> option number) (rows : list Row) :
  (Forall (fun r => column r <> None) rows ->
   average (pushed column rows) = Num.or_else (spec_mean column rows) Num.zero)
  /\ (Forall (fun r => column r = None) rows -> average (pushed column rows) = Num.zero).
Proof.
  split; intros Hall.
  - assert (Hpushed : pushed column rows =
                      map (fun r => match column r with Some x => parsed x | None => Num.zero end)
                          rows).
    { induction Hall as [|r rows Hr Hrows IH]; simpl; [reflexivity|].
      rewrite IH. destruct (column r); [reflexivity | contradiction]. }
    unfold average, spec_mean. now rewrite Hpushed, length_map.
  - assert (Hpushed : pushed column rows = []).
    { induction Hall as [|r rows Hr Hrows IH]; simpl; [reflexivity|].
      now rewrite IH, Hr. }
    now rewrite Hpushed.
Qed.

Lemma sum_of_absent (column : Row -> option number) (rows : list Row) :
  Forall (fun r => column r = None) rows ->
  fold_left Num.add
            (map (fun r => match column r with Some x => parsed x | None => Num.zero end) rows)
            Num.zero
  = Num.zero.
Proof.
  intros Hall. induction Hall as [|r rows Hr Hrows IH]; simpl; [reflexivity|].
  rewrite Hr. exact IH.
Qed.

Lemma zero_quotient_or_zero (y : number) :
  Num.or_else (Num.div Num.zero y) Num.zero = Num.zero.
Proof. destruct y as [[|]|[|]| |[|] m e]; reflexivity. Qed.

Lemma average_uniform (column : Row -> option number) (rows : list Row) :
  uniform column rows ->
  average (pushed column rows) = Num.or_else (spec_mean column rows) Num.zero.
Proof.
  intros [Hall|Hnone].
  - now apply average_pushed_cases.
  - rewrite (proj2 (average_pushed_cases column rows) Hnone).
    unfold spec_mean. rewrite sum_of_absent by exact Hnone.
    symmetry. apply zero_quotient_or_zero.
Qed.

Lemma same_or_zero (x : number) :
  Num.isNaN x = false -> same (Num.or_else x Num.zero) x = true.
Proof.
  destruct x as [s|s| |s m e]; simpl; intros Hx; try discriminate.
  - now destruct s.
  - now destruct s.
  - change (Num.or_else (S754_finite s m e) Num.zero) with (S754_finite s m e).
    unfold same, SFeqb, SFcompare.
    rewrite Z.compare_refl, Pos.compare_cont_refl. now destruct s.
Qed.

(** C2, as amended.  In both monthly aggregations, when the rows of a
    bucket all have a metric's column or all lack it (as the rows of an
    accepted file do), the mean of the metric in the bucket is the sum of
    the parsed-or-zero values of all rows of the bucket divided by the
    number of all rows of the bucket, and 0 when that quotient is NaN: a
    cell that is empty or no number adds 0 and is counted.  When the
    quotient is a number, the mean is that number.  (In general the mean
    averages the values that the loop pushed.) *)
Theorem bucket_mean_counts_every_row
    calendar (data : list Row) (eventsData : list EventRow) :
  let is_mean (column : Row -> option number) (rows : list Row) (avg : number) :=
    avg = average (pushed column rows)
    /\ (uniform column rows ->
        avg = Num.or_else (spec_mean column rows) Num.zero
        /\ (Num.isNaN (spec_mean column rows) = false ->
            same avg (spec_mean column rows) = true)) in
  (forall b, In b (MonthlyChart.processedData calendar data) ->
     let rows := filed (rowKey calendar) (MonthlyChart.month b) data in
     is_mean cpu_usage rows (MonthlyChart.cpu_avg b)
     /\ is_mean memory_usage rows (MonthlyChart.memory_avg b)
     /\ is_mean network_traffic rows (MonthlyChart.network_avg b)
     /\ is_mean power_consumption rows (MonthlyChart.power_avg b)
     /\ is_mean cpu_usage_growth_pct rows (MonthlyChart.cpu_growth b)
     /\ is_mean memory_usage_growth_pct rows (MonthlyChart.memory_growth b)
     /\ is_mean network_traffic_growth_pct rows (MonthlyChart.network_growth b))
  /\ (forall b, In b (ExternalEventsChart.correlatedData calendar data eventsData) ->
     let rows := filed (rowKey calendar) (ExternalEventsChart.month b) data in
     is_mean cpu_usage rows (ExternalEventsChart.cpu_avg b)
     /\ is_mean memory_usage rows (ExternalEventsChart.memory_avg b)
     /\ is_mean network_traffic rows (ExternalEventsChart.network_avg b)
     /\ is_mean power_consumption rows (ExternalEventsChart.power_avg b)).
Proof.
  intros is_mean.
  assert (Hmean : forall column rows values,
             values = pushed column rows -> is_mean column rows (average values)).
  { intros column rows values Hvalues. subst values is_mean.
    split; [reflexivity|]. intros Huniform.
    rewrite (average_uniform column rows Huniform).
    split; [reflexivity | apply same_or_zero]. }
  clearbody is_mean.
  split; intros b Hin rows.
  - apply monthly_bucket in Hin. destruct Hin as [k [v [Hin Hb]]].
    apply monthly_entry in Hin.
    assert (Hk : MonthlyChart.month b = k).
    { subst b. simpl.
      exact (collect_label (rowKey _) (fun item k => MonthlyChart.emptyMonth k (rowDate item))
                           MonthlyChart.pushRow MonthlyChart.md_month
                           (fun _ _ => eq_refl) (fun _ _ => eq_refl) _ _ None _ Hin). }
    subst rows. rewrite Hk. subst b. simpl.
    repeat split; apply Hmean.
    + monthly_field Hin MonthlyChart.md_cpu_usage cpu_usage.
    + monthly_field Hin MonthlyChart.md_memory_usage memory_usage.
    + monthly_field Hin MonthlyChart.md_network_traffic network_traffic.
    + monthly_field Hin MonthlyChart.md_power_consumption power_consumption.
    + monthly_field Hin MonthlyChart.md_cpu_growth cpu_usage_growth_pct.
    + monthly_field Hin MonthlyChart.md_memory_growth memory_usage_growth_pct.
    + monthly_field Hin MonthlyChart.md_network_growth network_traffic_growth_pct.
  - apply events_bucket in Hin. destruct Hin as [k [v [Hin Hb]]].
    apply events_entry in Hin.
    destruct Hin as [v0 [Hget [Hmonth [Hcpu [Hmem [Hnet Hpow]]]]]].
    assert (Hk : ExternalEventsChart.month b = k).
    { subst b. simpl. rewrite <- Hmonth.
      exact (collect_label (rowKey _) (fun _ k => ExternalEventsChart.emptyMonth k)
                           ExternalEventsChart.pushRow ExternalEventsChart.md_month
                           (fun _ _ => eq_refl) (fun _ _ => eq_refl) _ _ None _ Hget). }
    subst rows. rewrite Hk. subst b. simpl.
    rewrite <- Hcpu, <- Hmem, <- Hnet, <- Hpow.
    repeat split; apply Hmean.
    + events_field Hget ExternalEventsChart.md_cpu_values cpu_usage.
    + events_field Hget ExternalEventsChart.md_memory_values memory_usage.
    + events_field Hget ExternalEventsChart.md_network_values network_traffic.
    + events_field Hget ExternalEventsChart.md_power_values power_consumption.
Qed.

(** C2, witness: the January bucket of [Sample.gap], whose second row has
    an empty cpu_usage cell, has the cpu mean (80 + 0) / 2 = 40; no row
    has a memory_usage column, and the memory mean is 0 / 2 = 0. *)
Lemma bucket_mean_counts_every_row_witness :
  exists b,
    In b (MonthlyChart.processedData Sample.calendar Sample.gap)
    /\ filed (rowKey Sample.calendar) (MonthlyChart.month b) Sample.gap = Sample.gap
    /\ MonthlyChart.cpu_avg b = Num.of_Z 40
    /\ MonthlyChart.memory_avg b = Num.zero.
Proof.
  eexists. split; [left; reflexivity|]. split; [reflexivity|].
  destruct (proj1 (bucket_mean_counts_every_row Sample.calendar Sample.gap [])
                  _ (or_introl eq_refl))
    as [[_ Hcpu] [[_ Hmemory] _]].
  split.
  - destruct Hcpu as [Hcpu _]; [left; repeat constructor; discriminate|].
    rewrite Hcpu. vm_compute. reflexivity.
  - destruct Hmemory as [Hmemory _]; [right; repeat constructor|].
    rewrite Hmemory. vm_compute. reflexivity.
Defined.

(** C2, counterexample: the two rows of [Sample.extremes] lie in one
    bucket and both have a cpu_usage cell, reading Infinity and -Infinity.
    Their sum is NaN, so the claimed mean over the two rows is NaN, and the
    aggregation reports the cpu mean 0. *)
Lemma opposite_infinities_average_to_zero :
  exists b,
    MonthlyChart.processedData Sample.calendar Sample.extremes = [b]
    /\ filed (rowKey Sample.calendar) (MonthlyChart.month b) Sample.extremes = Sample.extremes
    /\ uniform cpu_usage Sample.extremes
    /\ spec_mean cpu_usage Sample.extremes = S754_nan
    /\ MonthlyChart.cpu_avg b = Num.zero
    /\ MonthlyChart.cpu_avg b
       <> spec_mean cpu_usage (filed (rowKey Sample.calendar) (MonthlyChart.month b)
                                     Sample.extremes).
Proof.
  eexists. split; [reflexivity|].
  split; [reflexivity|].
  split; [left; repeat constructor; discriminate|].
  split; [vm_compute; reflexivity|].
  split; [vm_compute; reflexivity|].
  vm_compute. discriminate.
Qed.

(** ** Rows and their buckets *)

Lemma collect_keeps {I V : Type} (keyOf : I -> option string) (fresh : I -> string -> V)
    (push : I -> V -> V) (k : string) (items : list I) (v : V) :
  fold_left (collect keyOf fresh push k) items (Some v) <> None.
Proof.
  revert v. induction items as [|item items IH]; simpl; intros v; [discriminate|].
  unfold collect at 2.
  destruct (keyOf item) as [k'|]; [|apply IH].
  destruct (String.eqb k' k); apply IH.
Qed.

Lemma collect_finds {I V : Type} (keyOf : I -> option string) (fresh : I -> string -> V)
    (push : I -> V -> V) (k : string) (items : list I) (acc : option V) (item : I) :
  In item items -> keyOf item = Some k ->
  fold_left (collect keyOf fresh push k) items acc <> None.
Proof.
  revert acc. induction items as [|x items IH]; simpl; intros acc Hin Hkey; [contradiction|].
  destruct Hin as [Heq|Hin]; [subst x | now apply IH].
  unfold collect at 2. rewrite Hkey, String.eqb_refl. apply collect_keeps.
Qed.

(** Every row that has a key finds a bucket under that key. *)
Lemma group_all_files {I V : Type} (keyOf : I -> option string) (fresh : I -> string -> V)
    (push : I -> V -> V) (k : string) (items : list I) (item : I) :
  In item items -> keyOf item = Some k ->
  In k (keys (fold_left (group keyOf fresh push) items [])).
Proof.
  intros Hin Hkey.
  apply Map_has_keys.
  destruct (Map_has k (fold_left (group keyOf fresh push) items [])) eqn:Hhas; [reflexivity|].
  apply Map_has_get in Hhas. rewrite group_all_get in Hhas.
  exfalso. now apply (collect_finds keyOf fresh push k items (Map_get k []) item).
Qed.

(** A bucket exists only for the key of some row. *)
Lemma group_all_keys {I V : Type} (keyOf : I -> option string) (fresh : I -> string -> V)
    (push : I -> V -> V) (k : string) (items : list I) (m : JSMap V) :
  In k (keys (fold_left (group keyOf fresh push) items m)) ->
  In k (keys m) \/ exists item, In item items /\ keyOf item = Some k.
Proof.
  revert m. induction items as [|x items IH]; simpl; intros m Hin; [now left|].
  apply IH in Hin. destruct Hin as [Hin|[item [Hin Hkey]]].
  - unfold group in Hin. destruct (keyOf x) as [k'|] eqn:Hx; [|now left].
    rewrite keys_update in Hin.
    destruct (Map_has k' m); [now left|].
    unfold Map_set, keys in Hin. rewrite map_app in Hin.
    apply in_app_or in Hin. destruct Hin as [Hin|[Hin|[]]]; [now left|].
    simpl in Hin. subst k'. right. exists x. split; [now left | exact Hx].
  - right. exists item. split; [now right | exact Hkey].
Qed.

(** The months on display are exactly the keys of the rows that have one. *)
Lemma monthly_months_iff calendar (data : list Row) (k : string) :
  In k (map MonthlyChart.month (MonthlyChart.processedData calendar data)) <->
  exists item, In item data /\ rowKey calendar item = Some k.
Proof.
  assert (Hsorted : In k (map MonthlyChart.month (MonthlyChart.processedData calendar data)) <->
                    In k (keys (MonthlyChart.monthlyData calendar data))).
  { unfold MonthlyChart.processedData. destruct data as [|item0 data0].
    - simpl. tauto.
    - rewrite <- monthly_months. split; apply Permutation_in, Permutation_map.
      + apply sort_perm.
      + apply Permutation_sym, sort_perm. }
  rewrite Hsorted, monthly_monthlyData. split.
  - intros Hin. apply group_all_keys in Hin. destruct Hin as [[]|Hin]. exact Hin.
  - intros [item [Hin Hkey]]. now apply group_all_files with item.
Qed.

(** A row whose timestamp is absent or empty has no key, so no bucket is
    made for it, yet the summary metrics count it. *)
Lemma row_without_timestamp calendar (data : list Row) (item : Row) :
  present (timestamp item) = false ->
  rowKey calendar item = None
  /\ (forall k, ~ In item (filed (rowKey calendar) k data))
  /\ (forall metrics, DatabaseMetricsGrid.calculateMetrics data = Some metrics ->
        DatabaseMetricsGrid.totalInputs metrics = List.length data).
Proof.
  intros Hts.
  assert (Hkey : rowKey calendar item = None).
  { unfold rowKey. destruct (timestamp item) as [[|c ts]|]; try reflexivity. discriminate. }
  split; [exact Hkey|]. split.
  - intros k Hin. unfold filed in Hin. apply filter_In in Hin.
    rewrite Hkey in Hin. destruct Hin as [_ Hin]. discriminate.
  - intros metrics Hm. unfold DatabaseMetricsGrid.calculateMetrics in Hm.
    destruct data; [discriminate|]. now inversion Hm.
Qed.

(** A row whose timestamp is text that the host cannot read as a date is
    filed under the key "NaN-NaN". *)
Lemma row_with_invalid_date calendar (data : list Row) (item : Row) (ts : string) :
  In item data -> timestamp item = Some ts -> ts <> "" -> calendar ts = None ->
  In "NaN-NaN" (map MonthlyChart.month (MonthlyChart.processedData calendar data))
  /\ In item (filed (rowKey calendar) "NaN-NaN" data).
Proof.
  intros Hin Hts Hne Hcal.
  assert (Hkey : rowKey calendar item = Some "NaN-NaN").
  { unfold rowKey, monthKey. rewrite Hts, Hcal. destruct ts; [contradiction | reflexivity]. }
  split.
  - apply monthly_months_iff. now exists item.
  - unfold filed. apply filter_In. split; [exact Hin|]. now rewrite Hkey.
Qed.

(** C7, at the failing input: a single row whose timestamp reads "n/a" (no
    date for any host) is counted by the summary metrics and is also given
    a monthly bucket, keyed "NaN-NaN", that averages its cpu_usage. *)
Theorem unparseable_timestamp_is_bucketed :
  let data := [ Sample.row (Some "n/a") (Some (Num.of_Z 50)) ] in
  Sample.calendar "n/a" = None
  /\ map (fun b => (MonthlyChart.month b, MonthlyChart.cpu_avg b))
         (MonthlyChart.processedData Sample.calendar data) = [ ("NaN-NaN", Num.of_Z 50) ]
  /\ option_map DatabaseMetricsGrid.totalInputs (DatabaseMetricsGrid.calculateMetrics data)
     = Some 1%nat.
Proof.
  repeat split; vm_compute; reflexivity.
Qed.

(** ** Daily growth rates *)

Lemma fixed_fails (cell : option Raw.Cell) :
  DailyChart.fixed (Raw.or_zero cell) = None <-> textual cell = true.
Proof.
  destruct cell as [[[|c s]|x]|]; simpl; split; intros H; try reflexivity; discriminate.
Qed.

Lemma daily_point_fails toNumber toLocaleDateString
    (prevItem : option Raw.Row) (index : nat) (item : Raw.Row) :
  DailyChart.point toNumber toLocaleDateString prevItem index item = None <->
  holdsText item = true.
Proof.
  unfold DailyChart.point, holdsText.
  pose proof (fixed_fails (Raw.cpu_usage item)) as Hcpu.
  pose proof (fixed_fails (Raw.memory_usage item)) as Hmemory.
  pose proof (fixed_fails (Raw.network_traffic item)) as Hnetwork.
  pose proof (fixed_fails (Raw.power_consumption item)) as Hpower.
  destruct prevItem as [prevItem|];
    destruct (DailyChart.fixed (Raw.or_zero (Raw.cpu_usage item))),
             (DailyChart.fixed (Raw.or_zero (Raw.memory_usage item))),
             (DailyChart.fixed (Raw.or_zero (Raw.network_traffic item))),
             (DailyChart.fixed (Raw.or_zero (Raw.power_consumption item)));
    destruct (textual (Raw.cpu_usage item)), (textual (Raw.memory_usage item)),
             (textual (Raw.network_traffic item)), (textual (Raw.power_consumption item));
    simpl; intuition congruence.
Qed.

Lemma daily_points_fail toNumber toLocaleDateString (data : list Raw.Row) :
  forall prevItem index,
    DailyChart.points toNumber toLocaleDateString prevItem index data = None <->
    exists item, In item data /\ holdsText item = true.
Proof.
  induction data as [|item data IH]; intros prevItem index; simpl.
  - split; [discriminate | intros [item [[] _]]].
  - pose proof (daily_point_fails toNumber toLocaleDateString prevItem index item) as Hpoint.
    destruct (DailyChart.point toNumber toLocaleDateString prevItem index item) as [p|].
    + specialize (IH (Some item) (S index)).
      destruct (DailyChart.points toNumber toLocaleDateString (Some item) (S index) data)
        as [ps|].
      * split; [discriminate|]. intros [item' [[Heq|Hin] Htext]].
        -- subst item'. apply Hpoint in Htext. discriminate.
        -- assert (Hbad : Some ps = None) by (apply IH; now exists item'). discriminate.
      * split; [|reflexivity]. intros _.
        destruct (proj1 IH eq_refl) as [item' [Hin Htext]].
        exists item'. split; [now right | exact Htext].
    + split; [|reflexivity]. intros _. exists item. split; [now left | now apply Hpoint].
Qed.

Lemma daily_points_nth toNumber toLocaleDateString (data : list Raw.Row) :
  forall (prevItem : option Raw.Row) (index : nat) (points : list DailyChart.Point)
         (i : nat) (p : DailyChart.Point),
    DailyChart.points toNumber toLocaleDateString prevItem index data = Some points ->
    nth_error points i = Some p ->
    exists item,
      nth_error data i = Some item
      /\ DailyChart.point toNumber toLocaleDateString
           (match i with O => prevItem | S k => nth_error data k end)
           (index + i) item = Some p.
Proof.
  induction data as [|x data IH]; intros prevItem index points i p Hpoints Hp; simpl in Hpoints.
  - inversion Hpoints; subst. destruct i; discriminate.
  - destruct (DailyChart.point toNumber toLocaleDateString prevItem index x) as [px|] eqn:Hx;
      [|discriminate].
    destruct (DailyChart.points toNumber toLocaleDateString (Some x) (S index) data)
      as [ps|] eqn:Hps; [|discriminate].
    inversion Hpoints; subst points.
    destruct i as [|i]; simpl in Hp.
    + inversion Hp; subst. exists x. rewrite Nat.add_0_r. now split.
    + destruct (IH _ _ _ _ _ Hps Hp) as [item [Hitem Hpoint]].
      exists item. split; [exact Hitem|].
      replace (index + S i)%nat with (S index + i)%nat by lia.
      destruct i; exact Hpoint.
Qed.

Lemma daily_points_length toNumber toLocaleDateString (data : list Raw.Row) :
  forall prevItem index points,
    DailyChart.points toNumber toLocaleDateString prevItem index data = Some points ->
    List.length points = List.length data.
Proof.
  induction data as [|item data IH]; intros prevItem index points; simpl.
  - intros H. now inversion H.
  - destruct (DailyChart.point toNumber toLocaleDateString prevItem index item); [|discriminate].
    destruct (DailyChart.points toNumber toLocaleDateString (Some item) (S index) data)
      as [ps|] eqn:Hps; [|discriminate].
    intros H. inversion H. simpl. f_equal. now apply (IH (Some item) (S index)).
Qed.

Lemma toFixed_zero (f : nat) : Num.toFixed f Num.zero = Num.zero.
Proof. reflexivity. Qed.

Lemma toFixed_growth (prev current : number) :
  Num.toFixed 2 (DailyChart.growth prev current) =
  if Num.gt prev Num.zero
  then Num.toFixed 2 (Num.mul (Num.div (Num.sub current prev) prev) (Num.of_Z 100))
  else Num.zero.
Proof.
  unfold DailyChart.growth. now destruct (Num.gt prev Num.zero).
Qed.

(** The growth percentages of a point, when the callback returns one. *)
Lemma daily_point_growth toNumber toLocaleDateString
    (prevItem : option Raw.Row) (index : nat) (item : Raw.Row) (p : DailyChart.Point) :
  DailyChart.point toNumber toLocaleDateString prevItem index item = Some p ->
  let value (column : Raw.Row -> option Raw.Cell) (row : Raw.Row) :=
    DailyChart.numeric toNumber (Raw.or_zero (column row)) in
  let rate (column : Raw.Row -> option Raw.Cell) :=
    match prevItem with
    | None => Num.zero
    | Some prevItem =>
        Num.toFixed 2 (DailyChart.growth (value column prevItem) (value column item))
    end in
  DailyChart.cpu_growth p = rate Raw.cpu_usage
  /\ DailyChart.memory_growth p = rate Raw.memory_usage
  /\ DailyChart.network_growth p = rate Raw.network_traffic.
Proof.
  intros Hp value rate. subst value rate. unfold DailyChart.point in Hp.
  destruct (DailyChart.fixed (Raw.or_zero (Raw.cpu_usage item)));
    [|destruct prevItem; discriminate].
  destruct (DailyChart.fixed (Raw.or_zero (Raw.memory_usage item)));
    [|destruct prevItem; discriminate].
  destruct (DailyChart.fixed (Raw.or_zero (Raw.network_traffic item)));
    [|destruct prevItem; discriminate].
  destruct (DailyChart.fixed (Raw.or_zero (Raw.power_consumption item)));
    [|destruct prevItem; discriminate].
  destruct prevItem as [prevItem|]; inversion Hp; simpl; repeat split.
Qed.

(** A row of a file on which the callback does not throw has only empty
    metric cells, which count as 0. *)
Lemma empty_cell_is_zero toNumber (cell : option Raw.Cell) :
  unparsed cell = true -> textual cell = false ->
  DailyChart.numeric toNumber (Raw.or_zero cell) = Num.zero.
Proof.
  destruct cell as [[[|c s]|x]|]; simpl; intros Hu Ht; try discriminate; reflexivity.
Qed.

Lemma quiet_row toNumber (item : Raw.Row) :
  fromFile item = true -> holdsText item = false ->
  DailyChart.numeric toNumber (Raw.or_zero (Raw.cpu_usage item)) = Num.zero
  /\ DailyChart.numeric toNumber (Raw.or_zero (Raw.memory_usage item)) = Num.zero
  /\ DailyChart.numeric toNumber (Raw.or_zero (Raw.network_traffic item)) = Num.zero.
Proof.
  unfold fromFile, holdsText. intros Hfile Htext.
  apply andb_prop in Hfile. destruct Hfile as [Hfile _].
  apply andb_prop in Hfile. destruct Hfile as [Hfile Hnetwork].
  apply andb_prop in Hfile. destruct Hfile as [Hcpu Hmemory].
  apply orb_false_elim in Htext. destruct Htext as [Htext _].
  apply orb_false_elim in Htext. destruct Htext as [Htext Hnetwork'].
  apply orb_false_elim in Htext. destruct Htext as [Hcpu' Hmemory'].
  repeat split; now apply empty_cell_is_zero.
Qed.

Lemma daily_points_of_file toNumber toLocaleDateString (data : list Raw.Row) :
  Forall (fun item => fromFile item = true) data ->
  forall prevItem index points,
    match prevItem with
    | Some prev => fromFile prev = true /\ holdsText prev = false
    | None => True
    end ->
    DailyChart.points toNumber toLocaleDateString prevItem index data = Some points ->
    Forall (fun p => DailyChart.cpu_growth p = Num.zero
                     /\ DailyChart.memory_growth p = Num.zero
                     /\ DailyChart.network_growth p = Num.zero) points.
Proof.
  intros Hfile. induction Hfile as [|item data Hitem Hdata IH];
    intros prevItem index points Hprev Hpoints; simpl in Hpoints.
  - inversion Hpoints. constructor.
  - destruct (DailyChart.point toNumber toLocaleDateString prevItem index item) as [p|] eqn:Hp;
      [|discriminate].
    destruct (DailyChart.points toNumber toLocaleDateString (Some item) (S index) data)
      as [ps|] eqn:Hps; [|discriminate].
    inversion Hpoints; subst points.
    assert (Htext : holdsText item = false).
    { destruct (holdsText item) eqn:Htext; [|reflexivity].
      apply (daily_point_fails toNumber toLocaleDateString prevItem index) in Htext.
      rewrite Htext in Hp. discriminate. }
    constructor.
    + destruct (daily_point_growth _ _ _ _ _ _ Hp) as [Hcpu [Hmemory Hnetwork]].
      rewrite Hcpu, Hmemory, Hnetwork.
      destruct prevItem as [prev|]; [|now repeat split].
      destruct Hprev as [Hprev Hquiet].
      destruct (quiet_row toNumber prev Hprev Hquiet) as [H1 [H2 H3]].
      destruct (quiet_row toNumber item Hitem Htext) as [H4 [H5 H6]].
      rewrite H1, H2, H3, H4, H5, H6. repeat split.
    + apply (IH (Some item) (S index)); [now split | exact Hps].
Qed.

Lemma daily_chart_growth (toNumber : string -> number) (toLocaleDateString : JSDate -> string)
    (data : list Raw.Row) (points : list DailyChart.Point) (index : nat)
    (p : DailyChart.Point) :
  DailyChart.processedData toNumber toLocaleDateString data = Some points ->
  nth_error points index = Some p ->
  let value (column : Raw.Row -> option Raw.Cell) (row : Raw.Row) :=
    DailyChart.numeric toNumber (Raw.or_zero (column row)) in
  let rate (prev current : number) :=
    if Num.gt prev Num.zero
    then Num.toFixed 2 (Num.mul (Num.div (Num.sub current prev) prev) (Num.of_Z 100))
    else Num.zero in
  match index with
  | O =>
      DailyChart.cpu_growth p = Num.zero
      /\ DailyChart.memory_growth p = Num.zero
      /\ DailyChart.network_growth p = Num.zero
  | S previous =>
      exists prevItem item,
        nth_error data previous = Some prevItem
        /\ nth_error data index = Some item
        /\ DailyChart.cpu_growth p
           = rate (value Raw.cpu_usage prevItem) (value Raw.cpu_usage item)
        /\ DailyChart.memory_growth p
           = rate (value Raw.memory_usage prevItem) (value Raw.memory_usage item)
        /\ DailyChart.network_growth p
           = rate (value Raw.network_traffic prevItem) (value Raw.network_traffic item)
  end.
Proof.
  intros Hpoints Hp value rate. unfold DailyChart.processedData in Hpoints.
  destruct (daily_points_nth _ _ _ _ _ _ _ _ Hpoints Hp) as [item [Hitem Hpoint]].
  apply daily_point_growth in Hpoint. cbv zeta in Hpoint.
  destruct Hpoint as [Hcpu [Hmemory Hnetwork]].
  destruct index as [|previous]; [now repeat split|].
  destruct (nth_error data previous) as [prevItem|] eqn:Hprev.
  - exists prevItem, item. split; [reflexivity|]. split; [exact Hitem|].
    subst value rate. cbv beta. rewrite <- !toFixed_growth. now repeat split.
  - exfalso. apply nth_error_None in Hprev.
    assert (Hlt : (S previous < List.length data)%nat)
      by (apply nth_error_Some; congruence).
    lia.
Qed.

(** C4.  For the rows that [Papa.parse] returns for a file with the
    cpu_usage cells 3 and 4 the daily chart throws, and no growth
    percentage is charted.  In general the chart throws exactly when some
    row has a metric cell that is text and not empty, which is so for every
    file that has a metric value: [toFixed] is called on the text.  When
    the pass completes there is one point per row; the growth percentages
    of the first point are 0 and those of a later point are 0 unless the
    previous value is greater than 0, and (current - previous) / previous
    * 100 rounded to two decimal places otherwise.  For the rows of a file
    a pass completes only with empty metric cells, and every growth
    percentage is 0. *)
Theorem daily_growth_is_charted_for_numbers_only :
  DailyChart.processedData Sample.toNumber Sample.toLocaleDateString Sample.loaded = None
  /\ forall (toNumber : string -> number) (toLocaleDateString : JSDate -> string)
            (data : list Raw.Row),
      let chart := DailyChart.processedData toNumber toLocaleDateString data in
      let value (column : Raw.Row -> option Raw.Cell) (row : Raw.Row) :=
        DailyChart.numeric toNumber (Raw.or_zero (column row)) in
      let rate (prev current : number) :=
        if Num.gt prev Num.zero
        then Num.toFixed 2 (Num.mul (Num.div (Num.sub current prev) prev) (Num.of_Z 100))
        else Num.zero in
      (chart = None <-> exists item, In item data /\ holdsText item = true)
      /\ (forall points, chart = Some points ->
            List.length points = List.length data
            /\ forall index p, nth_error points index = Some p ->
                 match index with
                 | O =>
                     DailyChart.cpu_growth p = Num.zero
                     /\ DailyChart.memory_growth p = Num.zero
                     /\ DailyChart.network_growth p = Num.zero
                 | S previous =>
                     exists prevItem item,
                       nth_error data previous = Some prevItem
                       /\ nth_error data index = Some item
                       /\ DailyChart.cpu_growth p
                          = rate (value Raw.cpu_usage prevItem) (value Raw.cpu_usage item)
                       /\ DailyChart.memory_growth p
                          = rate (value Raw.memory_usage prevItem)
                                 (value Raw.memory_usage item)
                       /\ DailyChart.network_growth p
                          = rate (value Raw.network_traffic prevItem)
                                 (value Raw.network_traffic item)
                 end)
      /\ (Forall (fun item => fromFile item = true) data ->
          forall points, chart = Some points ->
            Forall (fun p => DailyChart.cpu_growth p = Num.zero
                             /\ DailyChart.memory_growth p = Num.zero
                             /\ DailyChart.network_growth p = Num.zero) points).
Proof.
  split; [vm_compute; reflexivity|].
  intros toNumber toLocaleDateString data chart value rate. subst chart.
  split; [apply daily_points_fail|]. split.
  - intros points Hpoints.
    split; [unfold DailyChart.processedData in Hpoints;
            now apply daily_points_length in Hpoints|].
    intros index p Hp.
    exact (daily_chart_growth toNumber toLocaleDateString data points index p Hpoints Hp).
  - intros Hfile points Hpoints.
    now apply (daily_points_of_file toNumber toLocaleDateString data Hfile None 0%nat).
Qed.

(** The values 3 and 4 passed as numbers are charted with the growth
    percentages 0 and 33.33, and a file whose metric cells are all empty is
    charted with the growth percentages 0. *)
Example daily_chart_on_numbers_and_on_empty_cells :
  option_map (map DailyChart.cpu_growth)
    (DailyChart.processedData Sample.toNumber Sample.toLocaleDateString
       [ Sample.cells None (Some (Raw.Number (Num.of_Z 3)));
         Sample.cells None (Some (Raw.Number (Num.of_Z 4))) ])
  = Some [ Num.zero; Num.lit 33.33 ]
  /\ option_map (map DailyChart.cpu_growth)
       (DailyChart.processedData Sample.toNumber Sample.toLocaleDateString
          [ Sample.cells (Some "2025-01-01") (Some (Raw.Text ""));
            Sample.cells (Some "2025-01-02") (Some (Raw.Text "")) ])
     = Some [ Num.zero; Num.zero ].
Proof. repeat split; vm_compute; reflexivity. Qed.

(** ** The capacity chart's simulated series *)

Lemma capacity_point_measured format (random1 random2 : nat -> number) (index : nat) (item : Row) :
  option_map measured (DatabaseCapacityChart.point format random1 index item) =
  option_map measured (DatabaseCapacityChart.point format random2 index item).
Proof.
  unfold DatabaseCapacityChart.point.
  destruct (format _); reflexivity.
Qed.

Lemma capacity_points_measured format (random1 random2 : nat -> number) (data : list Row) :
  forall index,
    option_map (map measured) (DatabaseCapacityChart.points format random1 index data) =
    option_map (map measured) (DatabaseCapacityChart.points format random2 index data).
Proof.
  induction data as [|item data IH]; intros index; simpl; [reflexivity|].
  pose proof (capacity_point_measured format random1 random2 index item) as Hp.
  specialize (IH (S index)).
  destruct (DatabaseCapacityChart.point format random1 index item) as [p1|],
           (DatabaseCapacityChart.point format random2 index item) as [p2|];
    simpl in Hp; try discriminate; [|reflexivity].
  destruct (DatabaseCapacityChart.points format random1 (S index) data) as [ps1|],
           (DatabaseCapacityChart.points format random2 (S index) data) as [ps2|];
    simpl in IH; try discriminate; [|reflexivity].
  simpl. inversion Hp. inversion IH. congruence.
Qed.

(** C6, as amended.  Two computations of the capacity chart over the same
    rows agree on whether the pass completes and on every field of every
    point except the simulated [dailyInputs], whatever [Math.random]
    returns in each; the buckets, the correlation and the classifications
    use no random draw at all (they are functions of the rows alone). *)
Theorem derived_data_deterministic_but_daily_inputs
    format (random1 random2 : nat -> number) (data : list Row) :
  option_map (map measured) (DatabaseCapacityChart.processedData format random1 data) =
  option_map (map measured) (DatabaseCapacityChart.processedData format random2 data).
Proof.
  apply capacity_points_measured.
Qed.

(** C6, counterexample: one row with cpu_usage 50 and no memory_usage has
    [baseInputs] 750; when [Math.random()] returns 0 the chart shows 550
    daily inputs, and when it returns 0.5 it shows 750. *)
Lemma daily_inputs_follow_random :
  let data := [ Sample.row None (Some (Num.of_Z 50)) ] in
  let first := DatabaseCapacityChart.processedData Sample.format (fun _ => Num.zero) data in
  let second := DatabaseCapacityChart.processedData Sample.format (fun _ => Num.lit 0.5) data in
  option_map (map DatabaseCapacityChart.dailyInputs) first = Some [ Num.of_Z 550 ]
  /\ option_map (map DatabaseCapacityChart.dailyInputs) second = Some [ Num.of_Z 750 ]
  /\ first <> second.
Proof.
  repeat split; try (vm_compute; reflexivity); vm_compute; discriminate.
Qed.

(** ** Upload *)

(** C8.  When the parse of a dropped file ends with at least one error, the
    dialog holds one error status for that file, carrying the message of
    the first error and no rows; the promise is rejected with that message,
    which is written once to the console; the rows loaded in the page are
    unchanged; the "Load Data" button is disabled, and its handler, were it
    called, would change nothing. *)
Theorem parse_error_commits_nothing
    toLocaleString (fileName : string) (results : FileUpload.ParseResult)
    (first : FileUpload.ParseError) (rest : list FileUpload.ParseError)
    (page : FileUpload.Page) :
  FileUpload.errors results = first :: rest ->
  let after := FileUpload.onPredictionsDrop [ (fileName, FileUpload.Complete results) ] page in
  FileUpload.predictionFile after =
    Some {| FileUpload.name := fileName;
            FileUpload.status := FileUpload.error;
            FileUpload.progress := 0;
            FileUpload.error_message := Some (FileUpload.message first);
            FileUpload.data := None |}
  /\ snd (FileUpload.processFile fileName (FileUpload.Complete results) page)
     = FileUpload.Rejected (FileUpload.message first)
  /\ FileUpload.console after = FileUpload.console page ++ [ FileUpload.message first ]
  /\ FileUpload.predictionsData after = FileUpload.predictionsData page
  /\ FileUpload.toasts after = FileUpload.toasts page
  /\ FileUpload.canLoadData after = false
  /\ FileUpload.handleLoadData toLocaleString after = after.
Proof.
  intros Herrors after. subst after.
  unfold FileUpload.onPredictionsDrop, FileUpload.processFile.
  rewrite Herrors. repeat split.
Qed.

(** C8, witness: a file whose parse reports two errors, dropped on a page
    that already shows [Sample.january]. *)
Lemma parse_error_commits_nothing_witness :
  let tooFew :=
    {| FileUpload.error_type := "FieldMismatch"; FileUpload.error_code := "TooFewFields";
       FileUpload.message := "Too few fields: expected 3 fields but parsed 2";
       FileUpload.row := Some 1%nat |} in
  let quotes :=
    {| FileUpload.error_type := "Quotes"; FileUpload.error_code := "MissingQuotes";
       FileUpload.message := "Quoted field unterminated"; FileUpload.row := Some 4%nat |} in
  let results :=
    {| FileUpload.result_data := Sample.swings; FileUpload.errors := [ tooFew; quotes ] |} in
  let page :=
    {| FileUpload.showFileUpload := true; FileUpload.predictionsData := Sample.january;
       FileUpload.toasts := []; FileUpload.predictionFile := None;
       FileUpload.console := [] |} in
  let after := FileUpload.onPredictionsDrop [ ("metrics.csv", FileUpload.Complete results) ] page in
  FileUpload.predictionsData after = Sample.january
  /\ FileUpload.handleLoadData Sample.toLocaleString after = after.
Proof.
  intros tooFew quotes results page after.
  destruct (parse_error_commits_nothing Sample.toLocaleString "metrics.csv" results
              tooFew [ quotes ] page eq_refl)
    as [_ [_ [_ [Hdata [_ [_ Hload]]]]]].
  split; [exact Hdata | exact Hload].
Defined.

(** ** Empty input *)

(** C9.  For no rows at all, both monthly aggregations return no bucket,
    and the maintenance heuristic returns its output for no input, the
    empty task list; the daily chart, the capacity chart and the summary
    metrics return their empty results as well.  None of them throws on
    the empty input. *)
Theorem empty_input_yields_empty_results
    calendar toNumber toLocaleDateString format random toLocaleString toString
    (eventsData : list EventRow) :
  MonthlyChart.processedData calendar [] = []
  /\ ExternalEventsChart.correlatedData calendar [] eventsData = []
  /\ MaintenancePredictions.maintenanceTasks toLocaleString toString [] = []
  /\ DailyChart.processedData toNumber toLocaleDateString [] = Some []
  /\ DatabaseCapacityChart.processedData format random [] = Some []
  /\ DatabaseMetricsGrid.calculateMetrics [] = None.
Proof.
  repeat split.
Qed.

(** ** The correlation estimator, in binary64 *)

Lemma filter_of_map {A B : Type} (f : B -> bool) (g : A -> B) (l : list A) :
  filter f (map g l) = map g (filter (fun a => f (g a)) l).
Proof.
  induction l as [|a l IH]; simpl; [reflexivity|].
  destruct (f (g a)); simpl; now rewrite IH.
Qed.

Lemma validData_length {num : Type} `{Arith num} (pts : list (@point num)) :
  (List.length (validData pts) <= List.length pts)%nat.
Proof. apply filter_length_le. Qed.

Lemma pearson_short {num : Type} `{Arith num} (valid : list (@point num)) :
  (List.length valid < 2)%nat -> pearson valid = n_zero.
Proof.
  intros Hlen. unfold pearson.
  destruct (Nat.ltb_spec (List.length valid) 2) as [_|Hge]; [reflexivity | lia].
Qed.

Lemma pearson_not_nan (valid : list (@point number)) :
  Num.isNaN (pearson valid) = false.
Proof.
  unfold pearson.
  destruct (List.length valid <? 2)%nat; [reflexivity|].
  cbv zeta.
  destruct (fold_left _ _ _) as [[numerator denomMetric] denomEvents].
  simpl.
  destruct (Num.isNaN (Num.div numerator (Num.sqrt (Num.mul denomMetric denomEvents)))) eqn:E;
    [reflexivity | exact E].
Qed.

Lemma average_not_nan (values : list number) : Num.isNaN (average values) = false.
Proof.
  unfold average, Num.or_else.
  destruct (Num.div _ _); reflexivity.
Qed.

Lemma truthy_nonzero (x : number) :
  Num.isNaN x = false -> Num.truthy x = negb (Num.is_zero x).
Proof. destruct x; simpl; congruence. Qed.

Lemma correlated_metric_not_nan calendar (predictionsData : list Row) (eventsData : list EventRow)
    (eventFilter : string) (metric : ExternalEventsChart.Metric) (b : ExternalEventsChart.Bucket) :
  In b (ExternalEventsChart.filteredData
          (ExternalEventsChart.correlatedData calendar predictionsData eventsData) eventFilter) ->
  Num.isNaN (ExternalEventsChart.getMetricData metric b) = false.
Proof.
  intros Hin.
  assert (Hsrc : exists b0,
             In b0 (ExternalEventsChart.correlatedData calendar predictionsData eventsData)
             /\ ExternalEventsChart.getMetricData metric b
                = ExternalEventsChart.getMetricData metric b0).
  { unfold ExternalEventsChart.filteredData in Hin.
    destruct (String.eqb eventFilter "all"); [now exists b|].
    apply in_map_iff in Hin. destruct Hin as [b0 [Hb Hin]].
    exists b0. split; [exact Hin|]. subst b. now destruct metric. }
  destruct Hsrc as [b0 [Hin0 Heq]]. rewrite Heq.
  apply events_bucket in Hin0. destruct Hin0 as [k [v [_ Hb0]]]. subst b0.
  destruct metric; apply average_not_nan.
Qed.

(** C10.  For the chart rows that the aggregation and the event-type
    selector produce, [calculateCorrelation] is the Pearson routine (the
    fewer-than-two check, then the formula) applied to exactly those rows
    whose selected metric average is not zero and whose event count is not
    zero, in their order. *)
Theorem correlation_uses_nonzero_rows_only
    calendar (predictionsData : list Row) (eventsData : list EventRow)
    (eventFilter : string) (selectedMetric : ExternalEventsChart.Metric) :
  let rows :=
    ExternalEventsChart.filteredData
      (ExternalEventsChart.correlatedData calendar predictionsData eventsData) eventFilter in
  let nonzero (item : ExternalEventsChart.Bucket) :=
    negb (Num.is_zero (ExternalEventsChart.getMetricData selectedMetric item))
    && negb (Nat.eqb (ExternalEventsChart.event_count item) 0) in
  ExternalEventsChart.calculateCorrelation rows selectedMetric =
  pearson (map (fun item => (ExternalEventsChart.getMetricData selectedMetric item,
                             ExternalEventsChart.event_count item))
               (filter nonzero rows)).
Proof.
  intros rows nonzero.
  unfold ExternalEventsChart.calculateCorrelation, correlate, validData.
  rewrite filter_of_map. do 2 f_equal.
  apply filter_ext_in. intros b Hin. simpl. subst nonzero. simpl.
  rewrite truthy_nonzero; [reflexivity|].
  now apply correlated_metric_not_nan with calendar predictionsData eventsData eventFilter.
Qed.

(** ** The correlation estimator, in exact arithmetic *)

Section ExactCorrelation.

#[local] Open Scope R_scope.

Lemma zeroR_true (r : R) : Exact.zeroR r = true <-> r = 0.
Proof. unfold Exact.zeroR. destruct (Req_dec_T r 0); split; congruence. Qed.

Lemma zeroR_false (r : R) : Exact.zeroR r = false <-> r <> 0.
Proof. unfold Exact.zeroR. destruct (Req_dec_T r 0); split; congruence. Qed.

Lemma negR_false (r : R) : 0 <= r -> Exact.negR r = false.
Proof. intros Hr. unfold Exact.negR. destruct (Rlt_dec r 0); [lra | reflexivity]. Qed.

Lemma exact_sum (xs : list R) (a : R) :
  fold_left Exact.add (map Exact.Fin xs) (Exact.Fin a) = Exact.Fin (fold_left Rplus xs a).
Proof.
  revert a. induction xs as [|x xs IH]; simpl; intros a; [reflexivity | apply IH].
Qed.

Lemma exact_loop (mx my : R) (xs ys : list R) (acc : R * R * R) :
  fold_left (accumulate (Exact.Fin mx) (Exact.Fin my))
            (combine (map Exact.Fin xs) (map Exact.Fin ys))
            (Exact.Fin (fst (fst acc)), Exact.Fin (snd (fst acc)), Exact.Fin (snd acc)) =
  let r := fold_left (rstep mx my) (combine xs ys) acc in
  (Exact.Fin (fst (fst r)), Exact.Fin (snd (fst r)), Exact.Fin (snd r)).
Proof.
  revert ys acc. induction xs as [|x xs IH]; intros ys acc; [reflexivity|].
  destruct ys as [|y ys]; [reflexivity|].
  destruct acc as [[n a] b]. simpl.
  exact (IH ys (n + (x + - mx) * (y + - my), a + (x + - mx) * (x + - mx),
                b + (y + - my) * (y + - my))).
Qed.

(** The Cauchy-Schwarz inequality, kept along the loop. *)
Lemma cross_term (n a b u v : R) :
  n * n <= a * b -> 0 <= a -> 0 <= b ->
  2 * (n * (u * v)) <= a * (v * v) + b * (u * u).
Proof.
  intros Hn Ha Hb.
  destruct (Rle_dec (2 * (n * (u * v))) (a * (v * v) + b * (u * u))) as [H|H]; [exact H|].
  exfalso. apply Rnot_le_lt in H.
  pose proof (Rle_0_sqr u) as Hu. pose proof (Rle_0_sqr v) as Hv.
  unfold Rsqr in *.
  assert (H0 : 0 <= a * (v * v) + b * (u * u)).
  { apply Rplus_le_le_0_compat; apply Rmult_le_pos; assumption. }
  assert (Hsq : (a * (v * v) + b * (u * u)) * (a * (v * v) + b * (u * u))
                < (2 * (n * (u * v))) * (2 * (n * (u * v)))).
  { apply Rmult_le_0_lt_compat; assumption. }
  pose proof (Rle_0_sqr (a * (v * v) - b * (u * u))) as Hd.
  pose proof (Rle_0_sqr (u * v)) as Huv. unfold Rsqr in *.
  assert (Hab : 0 <= (a * b - n * n) * ((u * v) * (u * v))).
  { apply Rmult_le_pos; [lra | assumption]. }
  lra.
Qed.

Lemma rstep_bound (mx my : R) (l : list (R * R)) (n a b : R) :
  n * n <= a * b -> 0 <= a -> 0 <= b ->
  let r := fold_left (rstep mx my) l (n, a, b) in
  fst (fst r) * fst (fst r) <= snd (fst r) * snd r /\ 0 <= snd (fst r) /\ 0 <= snd r.
Proof.
  revert n a b. induction l as [|[x y] l IH]; intros n a b Hn Ha Hb; simpl.
  - repeat split; assumption.
  - apply IH; simpl.
    + pose proof (cross_term n a b (x + - mx) (y + - my) Hn Ha Hb). nra.
    + pose proof (Rle_0_sqr (x + - mx)) as Hx. unfold Rsqr in Hx. lra.
    + pose proof (Rle_0_sqr (y + - my)) as Hy. unfold Rsqr in Hy. lra.
Qed.

(** A constant first (second) coordinate leaves the numerator and the
    first (second) denominator at zero. *)
Lemma rstep_constant_fst (c my : R) (l : list (R * R)) (b : R) :
  Forall (fun p => fst p = c) l ->
  let r := fold_left (rstep c my) l (0, 0, b) in
  fst (fst r) = 0 /\ snd (fst r) = 0.
Proof.
  revert b. induction l as [|[x y] l IH]; intros b Hall; simpl; [now split|].
  inversion Hall as [|? ? Hx Hl]. simpl in Hx. subst.
  replace (0 + (c + - c) * (y + - my)) with 0 by ring.
  replace (0 + (c + - c) * (c + - c)) with 0 by ring.
  now apply IH.
Qed.

Lemma rstep_constant_snd (mx c : R) (l : list (R * R)) (a : R) :
  Forall (fun p => snd p = c) l ->
  let r := fold_left (rstep mx c) l (0, a, 0) in
  fst (fst r) = 0 /\ snd r = 0.
Proof.
  revert a. induction l as [|[x y] l IH]; intros a Hall; simpl; [now split|].
  inversion Hall as [|? ? Hy Hl]. simpl in Hy. subst.
  replace (0 + (x + - mx) * (c + - c)) with 0 by ring.
  replace (0 + (c + - c) * (c + - c)) with 0 by ring.
  now apply IH.
Qed.

Lemma rmean_constant (c : R) (xs : list R) :
  xs <> [] -> Forall (fun x => x = c) xs -> rmean xs = c.
Proof.
  intros Hne Hall. unfold rmean.
  assert (Hsum : forall a, fold_left Rplus xs a = a + c * INR (List.length xs)).
  { clear Hne. induction Hall as [|x xs Hx Hxs IH]; intros a; simpl fold_left.
    - simpl. ring.
    - rewrite IH. subst x. change (List.length (c :: xs)) with (S (List.length xs)).
      rewrite S_INR. ring. }
  rewrite Hsum. field.
  apply not_0_INR. destruct xs; [contradiction | discriminate].
Qed.

End ExactCorrelation.

Section ExactPearson.

#[local] Open Scope R_scope.

Lemma validData_lift (pts : list (R * nat)) :
  validData (lift pts) = lift (filter rvalid pts).
Proof.
  unfold validData, lift. now rewrite filter_of_map.
Qed.

Lemma exact_mean (xs : list R) :
  xs <> [] ->
  Exact.div (fold_left Exact.add (map Exact.Fin xs) (Exact.Fin 0))
            (Exact.Fin (INR (List.length (map Exact.Fin xs)))) = Exact.Fin (rmean xs).
Proof.
  intros Hne. rewrite exact_sum, length_map. unfold Exact.div, rmean.
  assert (Hlen : INR (List.length xs) <> 0)
    by (apply not_0_INR; destruct xs; [contradiction | discriminate]).
  apply zeroR_false in Hlen. now rewrite Hlen.
Qed.

Lemma exact_pearson (valid : list (R * nat)) :
  (2 <= List.length valid)%nat ->
  pearson (lift valid) =
  let n := fst (fst (moments valid)) in
  let a := snd (fst (moments valid)) in
  let b := snd (moments valid) in
  if Exact.zeroR (sqrt (a * b)) then Exact.Fin 0 else Exact.Fin (n / sqrt (a * b)).
Proof.
  intros Hlen.
  assert (Hne : valid <> []) by (destruct valid; [simpl in Hlen; lia | discriminate]).
  pose proof (rstep_bound (rmean (map fst valid)) (rmean (map (fun p => INR (snd p)) valid))
                (combine (map fst valid) (map (fun p => INR (snd p)) valid)) 0 0 0)
    as Hbound.
  fold (moments valid) in Hbound. cbv zeta in Hbound |- *.
  destruct Hbound as [Hcs [Ha Hb]]; try lra.
  unfold pearson.
  replace (List.length (lift valid) <? 2)%nat with false
    by (symmetry; apply Nat.ltb_ge; unfold lift; now rewrite length_map).
  cbv zeta.
  replace (map fst (lift valid)) with (map Exact.Fin (map fst valid))
    by (unfold lift; now rewrite !map_map).
  replace (map (fun p : point => n_of_nat (snd p)) (lift valid))
    with (map Exact.Fin (map (fun p => INR (snd p)) valid))
    by (unfold lift; now rewrite !map_map).
  change (@n_div Exact.xreal Exact.exact) with Exact.div.
  change (@n_zero Exact.xreal Exact.exact) with (Exact.Fin 0).
  unfold sum.
  change (@n_add Exact.xreal Exact.exact) with Exact.add.
  rewrite !exact_mean
    by (intros Hnil; apply Hne; destruct valid; [reflexivity | discriminate]).
  rewrite (exact_loop _ _ _ _ (0, 0, 0)).
  fold (moments valid). cbv zeta.
  destruct (moments valid) as [[n a] b]. simpl in Hcs, Ha, Hb |- *.
  assert (Hab : 0 <= a * b) by now apply Rmult_le_pos.
  rewrite (negR_false _ Hab).
  destruct (Exact.zeroR (sqrt (a * b))) eqn:Hz.
  - apply zeroR_true in Hz. apply sqrt_eq_0 in Hz; [|exact Hab].
    assert (Hn : n = 0) by nra.
    subst n. replace (Exact.zeroR 0) with true by (symmetry; now apply zeroR_true).
    reflexivity.
  - reflexivity.
Qed.

Lemma exact_pearson_range (valid : list (R * nat)) :
  exists r, pearson (lift valid) = Exact.Fin r /\ -1 <= r <= 1.
Proof.
  destruct (Nat.lt_ge_cases (List.length valid) 2) as [Hlt|Hge].
  - exists 0. split; [|lra].
    apply (@pearson_short Exact.xreal Exact.exact). unfold lift. now rewrite length_map.
  - rewrite (exact_pearson valid Hge). cbv zeta.
    pose proof (rstep_bound (rmean (map fst valid)) (rmean (map (fun p => INR (snd p)) valid))
                  (combine (map fst valid) (map (fun p => INR (snd p)) valid)) 0 0 0)
      as Hbound.
    fold (moments valid) in Hbound. cbv zeta in Hbound.
    destruct Hbound as [Hcs [Ha Hb]]; try lra.
    destruct (moments valid) as [[n a] b]. simpl in Hcs, Ha, Hb |- *.
    destruct (Exact.zeroR (sqrt (a * b))) eqn:Hz.
    + exists 0. split; [reflexivity | lra].
    + exists (n / sqrt (a * b)). split; [reflexivity|].
      apply zeroR_false in Hz.
      assert (Hs : 0 < sqrt (a * b)).
      { pose proof (sqrt_pos (a * b)). lra. }
      assert (Habs : Rabs n <= sqrt (a * b)).
      { rewrite <- sqrt_Rsqr_abs. apply sqrt_le_1_alt. unfold Rsqr. exact Hcs. }
      assert (Hn : - sqrt (a * b) <= n <= sqrt (a * b))
        by (unfold Rabs in Habs; destruct (Rcase_abs n); lra).
      split.
      * apply Rmult_le_reg_r with (sqrt (a * b)); [exact Hs|].
        unfold Rdiv. rewrite Rmult_assoc, Rinv_l by lra. lra.
      * apply Rmult_le_reg_r with (sqrt (a * b)); [exact Hs|].
        unfold Rdiv. rewrite Rmult_assoc, Rinv_l by lra. lra.
Qed.

Lemma exact_pearson_constant (valid : list (R * nat)) :
  (exists c, Forall (fun p => fst p = c) valid)
  \/ (exists c, Forall (fun p => snd p = c) valid) ->
  pearson (lift valid) = Exact.Fin 0.
Proof.
  intros Hconst.
  destruct (Nat.lt_ge_cases (List.length valid) 2) as [Hlt|Hge].
  - apply (@pearson_short Exact.xreal Exact.exact). unfold lift. now rewrite length_map.
  - rewrite (exact_pearson valid Hge). cbv zeta.
    assert (Hne : valid <> []) by (destruct valid; [simpl in Hge; lia | discriminate]).
    assert (Hzero : snd (fst (moments valid)) * snd (moments valid) = 0).
    { unfold moments.
      destruct Hconst as [[c Hc]|[c Hc]].
      - assert (Hxs : Forall (fun x => x = c) (map fst valid))
          by (apply Forall_map; exact Hc).
        rewrite (rmean_constant c (map fst valid));
          [|destruct valid; [contradiction | discriminate] | exact Hxs].
        destruct (rstep_constant_fst c (rmean (map (fun p => INR (snd p)) valid))
                    (combine (map fst valid) (map (fun p => INR (snd p)) valid)) 0)
          as [_ Ha].
        + apply Forall_forall. intros [x y] Hin. apply in_combine_l in Hin.
          rewrite Forall_forall in Hxs. now apply Hxs.
        + cbv zeta in Ha. rewrite Ha. ring.
      - assert (Hys : Forall (fun y => y = INR c) (map (fun p => INR (snd p)) valid)).
        { apply Forall_map. eapply Forall_impl; [|exact Hc].
          intros p Hp. simpl in Hp. now rewrite Hp. }
        rewrite (rmean_constant (INR c) (map (fun p => INR (snd p)) valid));
          [|destruct valid; [contradiction | discriminate] | exact Hys].
        destruct (rstep_constant_snd (rmean (map fst valid)) (INR c)
                    (combine (map fst valid) (map (fun p => INR (snd p)) valid)) 0)
          as [_ Hb].
        + apply Forall_forall. intros [x y] Hin. apply in_combine_r in Hin.
          rewrite Forall_forall in Hys. now apply Hys.
        + cbv zeta in Hb. rewrite Hb. ring. }
    rewrite Hzero, sqrt_0.
    replace (Exact.zeroR 0) with true by (symmetry; now apply zeroR_true).
    reflexivity.
Qed.

End ExactPearson.

(** ** Sums and means of equal event counts, in binary64

    Integers below 2^53 are binary64 numbers, and adding them and dividing
    a product by a factor is exact as long as the results stay below
    2^53. *)

Lemma iter_xO_value (m : positive) (p : positive) :
  Zpos (Pos.iter xO m p) = Zpos m * 2 ^ Zpos p.
Proof.
  induction p as [|p IH] using Pos.peano_ind.
  - simpl. lia.
  - rewrite Pos.iter_succ, Pos2Z.inj_succ, Z.pow_succ_r by lia.
    rewrite Pos2Z.inj_xO, IH. lia.
Qed.

Lemma shl_value (m : positive) (k : Z) : 0 <= k -> Zpos (shl m k) = Zpos m * 2 ^ k.
Proof.
  intros Hk. destruct k as [|p|p]; simpl shl; [simpl; lia | apply iter_xO_value | lia].
Qed.

Lemma digits_size (m : positive) : digits2_pos m = Pos.size m.
Proof. induction m; simpl; congruence. Qed.

Lemma digits_bounds (m : positive) :
  2 ^ (Zpos (digits2_pos m) - 1) <= Zpos m < 2 ^ Zpos (digits2_pos m).
Proof.
  rewrite digits_size. split.
  - pose proof (Pos2Z.pos_le_pos _ _ (Pos.size_le m)) as Hle.
    rewrite Pos2Z.inj_pow in Hle. change (Zpos 2) with 2 in Hle.
    change (Zpos m~0) with (2 * Zpos m) in Hle.
    assert (Hpow : 2 ^ Zpos (Pos.size m) = 2 * 2 ^ (Zpos (Pos.size m) - 1)).
    { rewrite <- Z.pow_succ_r by lia. f_equal. lia. }
    lia.
  - pose proof (Pos2Z.pos_lt_pos _ _ (Pos.size_gt m)) as Hlt.
    rewrite Pos2Z.inj_pow in Hlt. exact Hlt.
Qed.

Lemma digits_unique (m : positive) (d : Z) :
  2 ^ (d - 1) <= Zpos m < 2 ^ d -> Zpos (digits2_pos m) = d.
Proof.
  intros [Hlo Hhi]. pose proof (digits_bounds m) as [Hlo' Hhi'].
  assert (Hd : 0 < d).
  { destruct (Z_lt_le_dec 0 d) as [H|H]; [exact H|]. exfalso.
    assert (2 ^ d <= 1).
    { destruct (Z.eq_dec d 0) as [->|Hne]; [simpl; lia|].
      rewrite Z.pow_neg_r by lia. lia. }
    lia. }
  destruct (Z.lt_trichotomy (Zpos (digits2_pos m)) d) as [H|[H|H]]; [|exact H|]; exfalso.
  - assert (2 ^ Zpos (digits2_pos m) <= 2 ^ (d - 1)) by (apply Z.pow_le_mono_r; lia). lia.
  - assert (2 ^ d <= 2 ^ (Zpos (digits2_pos m) - 1)) by (apply Z.pow_le_mono_r; lia). lia.
Qed.

Lemma shl_digits (m : positive) (k : Z) :
  0 <= k -> Zpos (digits2_pos (shl m k)) = Zpos (digits2_pos m) + k.
Proof.
  intros Hk. apply digits_unique. rewrite shl_value by exact Hk.
  pose proof (digits_bounds m) as [Hlo Hhi].
  replace (Zpos (digits2_pos m) + k - 1) with ((Zpos (digits2_pos m) - 1) + k) by lia.
  rewrite !Z.pow_add_r by lia.
  assert (0 < 2 ^ k) by (apply Z.pow_pos_nonneg; lia).
  split; nia.
Qed.

Lemma shl_shl (m : positive) (j k : Z) : 0 <= j -> 0 <= k -> shl (shl m j) k = shl m (j + k).
Proof.
  intros Hj Hk. apply Pos2Z.inj. rewrite !shl_value by lia.
  rewrite Z.pow_add_r by lia. lia.
Qed.

(** Shifting right a mantissa that ends in enough zeros loses nothing. *)
Lemma shr_exact (p : positive) :
  forall q : positive,
    SpecFloat.iter_pos shr_1 p (Build_shr_record (Zpos (Pos.iter xO q p)) false false)
    = Build_shr_record (Zpos q) false false.
Proof.
  induction p as [p IH|p IH|]; intros q; simpl.
  - rewrite IH, IH. reflexivity.
  - rewrite IH, IH. reflexivity.
  - reflexivity.
Qed.

Lemma fexp_normal (e : Z) : -1021 <= e -> fexp Num.prec Num.emax e = e - 53.
Proof. intros He. unfold fexp, emin, Num.prec, Num.emax. lia. Qed.

(** A mantissa of 53 digits followed by [k] zeros rounds to itself. *)
Lemma round_exact (s : bool) (q : positive) (k e : Z) :
  Zpos (digits2_pos q) = 53 -> 0 <= k -> -1074 <= e + k <= 971 ->
  binary_round_aux Num.prec Num.emax s (Zpos (shl q k)) e loc_Exact = S754_finite s q (e + k).
Proof.
  intros Hq Hk He.
  assert (Hkeep : forall e', -1074 <= e' ->
            shr_fexp Num.prec Num.emax (Zpos q) e' loc_Exact
            = (Build_shr_record (Zpos q) false false, e')).
  { intros e' He'. unfold shr_fexp, Zdigits2. rewrite Hq, fexp_normal by lia.
    replace (53 + e' - 53 - e') with 0 by lia. reflexivity. }
  unfold binary_round_aux.
  assert (Hfirst : shr_fexp Num.prec Num.emax (Zpos (shl q k)) e loc_Exact
                   = (Build_shr_record (Zpos q) false false, e + k)).
  { destruct k as [|p|p]; [| |lia].
    - simpl shl. rewrite Hkeep by lia. f_equal. lia.
    - unfold shr_fexp, Zdigits2. rewrite shl_digits, Hq, fexp_normal by lia.
      replace (53 + Zpos p + e - 53 - e) with (Zpos p) by lia.
      simpl shl. simpl shr_record_of_loc. unfold shr. rewrite shr_exact. reflexivity. }
  rewrite Hfirst. simpl shr_m. simpl loc_of_shr_record. simpl round_nearest_even.
  rewrite Hkeep by lia. simpl shr_m.
  replace (e + k <=? Num.emax - Num.prec) with true; [reflexivity|].
  symmetry. apply Z.leb_le. unfold Num.emax, Num.prec. lia.
Qed.

(** Rounding an integer of at most 53 digits, written with [j] more zeros
    at the exponent [e], gives the number in its normal form. *)
Lemma binary_round_small (s : bool) (z : positive) (j e : Z) :
  Zpos (digits2_pos z) <= 53 -> 0 <= j ->
  -1074 <= Zpos (digits2_pos z) + j + e - 53 <= 971 ->
  binary_round Num.prec Num.emax s (shl z j) e
  = S754_finite s (shl z (53 - Zpos (digits2_pos z))) (Zpos (digits2_pos z) + j + e - 53).
Proof.
  intros Hz Hj He. set (d := Zpos (digits2_pos z)) in *.
  unfold binary_round. rewrite shl_digits, fexp_normal by lia. fold d.
  unfold shl_align.
  destruct (d + j + e - 53 - e) as [|p|p] eqn:Hshift.
  - replace (shl z j) with (shl (shl z (53 - d)) 0) by (rewrite shl_shl by lia; f_equal; lia).
    rewrite round_exact; [f_equal; lia | | lia | lia].
    rewrite shl_digits by lia. fold d. lia.
  - replace (shl z j) with (shl (shl z (53 - d)) (Zpos p))
      by (rewrite shl_shl by lia; f_equal; lia).
    rewrite round_exact; [f_equal; lia | | lia | lia].
    rewrite shl_digits by lia. fold d. lia.
  - replace (Pos.iter xO (shl z j) p) with (shl (shl z (53 - d)) 0).
    + rewrite round_exact; [f_equal; lia | | lia | lia].
      rewrite shl_digits by lia. fold d. lia.
    + change (Pos.iter xO (shl z j) p) with (shl (shl z j) (Zpos p)).
      rewrite !shl_shl by lia. f_equal. lia.
Qed.

Lemma of_Z_canonical (z : positive) :
  Zpos z < 2 ^ 53 ->
  Num.of_Z (Zpos z) = S754_finite false (shl z (53 - Zpos (digits2_pos z))) (Zpos (digits2_pos z) - 53).
Proof.
  intros Hz.
  assert (Hd : Zpos (digits2_pos z) <= 53).
  { pose proof (digits_bounds z) as [Hlo _].
    destruct (Z_le_gt_dec (Zpos (digits2_pos z)) 53) as [H|H]; [exact H|]. exfalso.
    assert (2 ^ 53 <= 2 ^ (Zpos (digits2_pos z) - 1)) by (apply Z.pow_le_mono_r; lia). lia. }
  unfold Num.of_Z, binary_normalize.
  change z with (shl z 0) at 1.
  rewrite binary_round_small by lia. f_equal; lia.
Qed.

Lemma shl_align_value (m : positive) (e ez : Z) :
  ez <= e -> fst (shl_align m e ez) = shl m (e - ez).
Proof.
  intros He. unfold shl_align.
  destruct (ez - e) as [|p|p] eqn:Hd; simpl fst.
  - replace (e - ez) with 0 by lia. reflexivity.
  - lia.
  - replace (e - ez) with (Zpos p) by lia. reflexivity.
Qed.

(** Adding two positive integers whose sum stays below 2^53 is exact. *)
Lemma add_exact (a b : positive) :
  Zpos a + Zpos b < 2 ^ 53 ->
  Num.add (Num.of_Z (Zpos a)) (Num.of_Z (Zpos b)) = Num.of_Z (Zpos a + Zpos b).
Proof.
  intros Hsum.
  rewrite (of_Z_canonical a), (of_Z_canonical b) by lia.
  change (Zpos a + Zpos b) with (Zpos (a + b)). rewrite (of_Z_canonical (a + b)) by (simpl; lia).
  set (da := Zpos (digits2_pos a)). set (db := Zpos (digits2_pos b)).
  set (d := Zpos (digits2_pos (a + b))).
  assert (Hda : 1 <= da <= d /\ 1 <= db <= d /\ d <= 53).
  { pose proof (digits_bounds a) as [Ha Ha']. pose proof (digits_bounds b) as [Hb Hb'].
    pose proof (digits_bounds (a + b)) as [Hab Hab'].
    fold da in Ha, Ha'. fold db in Hb, Hb'. fold d in Hab, Hab'.
    rewrite Pos2Z.inj_add in Hab, Hab'.
    assert (Hmono : forall x y, 0 <= y -> 2 ^ (x - 1) < 2 ^ y -> x <= y).
    { intros x y Hy H. destruct (Z_le_gt_dec x y) as [Hle|Hgt]; [exact Hle|]. exfalso.
      assert (2 ^ y <= 2 ^ (x - 1)) by (apply Z.pow_le_mono_r; lia). lia. }
    subst da db d. repeat split; try lia; apply Hmono; lia. }
  unfold Num.add, SFadd. cbv zeta.
  set (ez := Z.min (da - 53) (db - 53)).
  rewrite !shl_align_value by lia. unfold cond_Zopp.
  assert (HM : Zpos (shl (shl a (53 - da)) (da - 53 - ez))
               + Zpos (shl (shl b (53 - db)) (db - 53 - ez))
               = Zpos (shl (a + b) (- ez))).
  { rewrite !shl_shl, !shl_value by lia. rewrite Pos2Z.inj_add.
    replace (53 - da + (da - 53 - ez)) with (- ez) by lia.
    replace (53 - db + (db - 53 - ez)) with (- ez) by lia. lia. }
  rewrite HM. unfold binary_normalize.
  rewrite binary_round_small by (fold d; lia). fold d. f_equal. lia.
Qed.

(** Dividing a product below 2^53 by one of its factors is exact. *)
Lemma div_exact (n c : positive) :
  Zpos n * Zpos c < 2 ^ 53 ->
  Num.div (Num.of_Z (Zpos n * Zpos c)) (Num.of_Z (Zpos n)) = Num.of_Z (Zpos c).
Proof.
  intros Hprod.
  assert (Hn : Zpos n < 2 ^ 53) by nia.
  assert (Hc : Zpos c < 2 ^ 53) by nia.
  change (Zpos n * Zpos c) with (Zpos (n * c)).
  rewrite (of_Z_canonical (n * c)), (of_Z_canonical n), (of_Z_canonical c)
    by (rewrite ?Pos2Z.inj_mul; lia).
  set (dn := Zpos (digits2_pos n)). set (dc := Zpos (digits2_pos c)).
  set (dp := Zpos (digits2_pos (n * c))).
  assert (Hd : 1 <= dn /\ 1 <= dc /\ dn <= dp <= 53 /\ dc <= dp /\ dp <= dn + dc).
  { pose proof (digits_bounds n) as [Hn1 Hn2]. pose proof (digits_bounds c) as [Hc1 Hc2].
    pose proof (digits_bounds (n * c)) as [Hp1 Hp2].
    fold dn in Hn1, Hn2. fold dc in Hc1, Hc2. fold dp in Hp1, Hp2.
    rewrite Pos2Z.inj_mul in Hp1, Hp2.
    assert (Hmono : forall x y, 0 <= y -> 2 ^ (x - 1) < 2 ^ y -> x <= y).
    { intros x y Hy H. destruct (Z_le_gt_dec x y) as [Hle|Hgt]; [exact Hle|]. exfalso.
      assert (2 ^ y <= 2 ^ (x - 1)) by (apply Z.pow_le_mono_r; lia). lia. }
    assert (0 < 2 ^ (dn - 1)) by (apply Z.pow_pos_nonneg; subst dn; lia).
    assert (0 < 2 ^ (dc - 1)) by (apply Z.pow_pos_nonneg; subst dc; lia).
    assert (Hboth : Zpos n * Zpos c < 2 ^ (dn + dc))
      by (rewrite Z.pow_add_r by (subst dn dc; lia); nia).
    subst dn dc dp. repeat split; try lia; apply Hmono; try lia; nia. }
  unfold Num.div, SFdiv, SFdiv_core_binary, Zdigits2.
  rewrite !shl_digits by lia. fold dn dp.
  replace (dp + (53 - dp) + (dp - 53) - (dn + (53 - dn) + (dn - 53))) with (dp - dn) by lia.
  rewrite fexp_normal by lia.
  replace (Z.min (dp - dn - 53) (dp - 53 - (dn - 53))) with (dp - dn - 53) by lia.
  replace (dp - 53 - (dn - 53) - (dp - dn - 53)) with 53 by lia.
  cbv zeta.
  set (q := shl (shl c (53 - dc)) (dc + dn - dp)).
  assert (Hq : Z.shiftl (Zpos (shl (n * c) (53 - dp))) 53
               = Zpos q * Zpos (shl n (53 - dn))).
  { rewrite Z.shiftl_mul_pow2 by lia. subst q.
    rewrite shl_shl, !shl_value by lia. rewrite Pos2Z.inj_mul.
    replace (53 - dc + (dc + dn - dp)) with ((53 - dp) + dn) by lia.
    replace 53 with ((53 - dn) + dn) at 2 by lia.
    rewrite !Z.pow_add_r by lia. ring. }
  change (match 53 with
          | 0 => Zpos (shl (n * c) (53 - dp))
          | Zpos _ => Z.shiftl (Zpos (shl (n * c) (53 - dp))) 53
          | Zneg _ => 0
          end) with (Z.shiftl (Zpos (shl (n * c) (53 - dp))) 53).
  rewrite Hq.
  assert (Hdiv : Z.div_eucl (Zpos q * Zpos (shl n (53 - dn))) (Zpos (shl n (53 - dn)))
                 = (Zpos q, 0)).
  { rewrite (surjective_pairing (Z.div_eucl _ _)).
    change (fst (Z.div_eucl ?a ?b)) with (a / b).
    change (snd (Z.div_eucl ?a ?b)) with (a mod b).
    rewrite Z.div_mul, Z.mod_mul by lia. reflexivity. }
  rewrite Hdiv.
  assert (Hloc : new_location (Zpos (shl n (53 - dn))) 0 = loc_Exact).
  { unfold new_location. destruct (Z.even _); reflexivity. }
  rewrite Hloc. simpl xorb. subst q.
  rewrite round_exact; [f_equal; lia | | lia | lia].
  rewrite shl_digits by lia. fold dc. lia.
Qed.

Lemma of_Z_positive_finite (c : positive) :
  Zpos c < 2 ^ 53 -> exists m e, Num.of_Z (Zpos c) = S754_finite false m e.
Proof.
  intros Hc. rewrite of_Z_canonical by exact Hc. eauto.
Qed.

Lemma sum_equal_counts (c : positive) (values : list number) :
  Forall (fun v => v = Num.of_Z (Zpos c)) values ->
  forall k : positive,
    (Zpos k + Z.of_nat (List.length values)) * Zpos c < 2 ^ 53 ->
    fold_left Num.add values (Num.of_Z (Zpos k * Zpos c))
    = Num.of_Z ((Zpos k + Z.of_nat (List.length values)) * Zpos c).
Proof.
  intros Hall. induction Hall as [|v values Hv Hvalues IH]; intros k Hbound.
  - cbn [fold_left List.length Z.of_nat]. f_equal; lia.
  - subst v. cbn [fold_left List.length] in *.
    change (Zpos k * Zpos c) with (Zpos (k * c)).
    rewrite add_exact by (rewrite Pos2Z.inj_mul; lia).
    replace (Zpos (k * c) + Zpos c) with (Zpos (Pos.succ k) * Zpos c)
      by (rewrite Pos2Z.inj_mul, Pos2Z.inj_succ; lia).
    rewrite IH by (rewrite Pos2Z.inj_succ; lia).
    f_equal. rewrite Pos2Z.inj_succ. lia.
Qed.

(** The mean of [n] copies of the count [c] is [c]. *)
Lemma mean_equal_counts (c : positive) (values : list number) :
  values <> [] ->
  Forall (fun v => v = Num.of_Z (Zpos c)) values ->
  Z.of_nat (List.length values) * Zpos c < 2 ^ 53 ->
  Num.div (fold_left Num.add values Num.zero) (Num.of_nat (List.length values))
  = Num.of_Z (Zpos c).
Proof.
  intros Hne Hall Hbound.
  destruct values as [|v values]; [contradiction|].
  inversion Hall as [|? ? Hv Hvalues]; subst.
  cbn [fold_left List.length] in *.
  assert (Hc : Zpos c < 2 ^ 53) by lia.
  destruct (of_Z_positive_finite c Hc) as [m [e Hfinite]].
  assert (Hfirst : Num.add Num.zero (Num.of_Z (Zpos c)) = Num.of_Z (Zpos 1 * Zpos c)).
  { rewrite Hfinite. replace (Zpos 1 * Zpos c) with (Zpos c) by lia.
    now rewrite Hfinite. }
  rewrite Hfirst, sum_equal_counts by (try exact Hvalues; lia).
  unfold Num.of_nat.
  replace (Zpos 1 + Z.of_nat (List.length values)) with (Z.of_nat (S (List.length values)))
    by lia.
  assert (Hn : Z.of_nat (S (List.length values))
               = Zpos (Pos.of_succ_nat (List.length values)))
    by (rewrite Zpos_P_of_succ_nat; lia).
  rewrite Hn. apply div_exact. rewrite <- Hn. exact Hbound.
Qed.

Lemma sub_self (s : bool) (m : positive) (e : Z) :
  Num.sub (S754_finite s m e) (S754_finite s m e) = Num.zero.
Proof.
  unfold Num.sub, SFsub. cbv zeta. rewrite Z.sub_diag. reflexivity.
Qed.

Lemma mul_by_zero (d : number) : zero_or_nan (Num.mul d Num.zero) = true.
Proof. destruct d as [s|s| |s m e]; reflexivity. Qed.

Lemma add_zero_or_nan (x y : number) :
  zero_or_nan x = true -> zero_or_nan y = true -> zero_or_nan (Num.add x y) = true.
Proof.
  destruct x as [[|]|sx| |sx mx ex], y as [[|]|sy| |sy my ey];
    simpl; intros Hx Hy; try discriminate; reflexivity.
Qed.

Lemma quotient_over_zero_is_nan (numerator denomMetric : number) :
  zero_or_nan numerator = true ->
  Num.isNaN (Num.div numerator (Num.sqrt (Num.mul denomMetric Num.zero))) = true.
Proof.
  intros Hn. pose proof (mul_by_zero denomMetric) as Hd.
  destruct (Num.mul denomMetric Num.zero) as [sd|sd| |sd md ed]; try discriminate;
    destruct numerator as [sn|sn| |sn mn en]; try discriminate; reflexivity.
Qed.

(** With every event count equal to the mean of the counts, the loop
    leaves the numerator at a zero or NaN and the events' denominator at
    0. *)
Lemma accumulate_equal_counts (meanMetric v : number) (pairs : list (number * number)) :
  Num.sub v v = Num.zero ->
  Forall (fun p => snd p = v) pairs ->
  forall numerator denomMetric,
    zero_or_nan numerator = true ->
    let result := fold_left (accumulate meanMetric v) pairs
                            (numerator, denomMetric, Num.zero) in
    zero_or_nan (fst (fst result)) = true /\ snd result = Num.zero.
Proof.
  intros Hv Hall. induction Hall as [|[x y] pairs Hy Hpairs IH];
    intros numerator denomMetric Hn; cbv zeta.
  - now split.
  - simpl in Hy. subst y. cbn [fold_left].
    assert (Hstep : accumulate meanMetric v (numerator, denomMetric, Num.zero) (x, v)
                    = (Num.add numerator (Num.mul (Num.sub x meanMetric) Num.zero),
                       Num.add denomMetric
                               (Num.mul (Num.sub x meanMetric) (Num.sub x meanMetric)),
                       Num.zero)).
    { unfold accumulate. cbn [fst snd n_sub n_add n_mul ieee]. now rewrite Hv. }
    rewrite Hstep.
    apply IH. apply add_zero_or_nan; [exact Hn | apply mul_by_zero].
Qed.

Lemma pearson_equal_counts (valid : list (@point number)) (c : positive) :
  Forall (fun p => snd p = Pos.to_nat c) valid ->
  Z.of_nat (List.length valid) * Zpos c < 2 ^ 53 ->
  pearson valid = Num.zero.
Proof.
  intros Hall Hbound. unfold pearson.
  destruct (List.length valid <? 2)%nat eqn:Hshort; [reflexivity|].
  apply Nat.ltb_ge in Hshort. cbv zeta.
  cbn [n_div n_zero n_add n_sub n_mul n_sqrt n_isNaN n_of_nat ieee]. unfold sum.
  cbn [n_add n_zero ieee]. unfold point, number in *.
  remember (map (fun p : Num.number * nat => Num.of_nat (snd p)) valid) as eventValues
    eqn:Hevents.
  assert (Hvalues : Forall (fun v => v = Num.of_Z (Zpos c)) eventValues).
  { subst eventValues. apply Forall_map. eapply Forall_impl; [|exact Hall].
    intros p Hp. simpl in Hp. rewrite Hp. unfold Num.of_nat. now rewrite positive_nat_Z. }
  assert (Hlen : List.length eventValues = List.length valid)
    by (subst eventValues; apply length_map).
  clear Hevents.
  assert (Hmean : Num.div (fold_left Num.add eventValues Num.zero)
                          (Num.of_nat (@List.length Num.number eventValues))
                  = Num.of_Z (Zpos c)).
  { apply mean_equal_counts; [|exact Hvalues | unfold number; rewrite Hlen; exact Hbound].
    intros Hnil. rewrite Hnil in Hlen. simpl in Hlen. lia. }
  rewrite Hmean.
  assert (Hc : Zpos c < 2 ^ 53) by nia.
  destruct (of_Z_positive_finite c Hc) as [m [e Hfinite]].
  pose proof (accumulate_equal_counts
                (Num.div (fold_left Num.add (map fst valid) Num.zero)
                         (Num.of_nat (List.length (map fst valid))))
                (Num.of_Z (Zpos c)) (combine (map fst valid) eventValues)) as Hloop.
  rewrite Hfinite in Hloop at 1 2. rewrite sub_self in Hloop.
  specialize (Hloop eq_refl).
  assert (Hpairs : Forall (fun p : number * number => snd p = Num.of_Z (Zpos c))
                          (combine (map fst valid) eventValues)).
  { apply Forall_forall. intros [x y] Hin. apply in_combine_r in Hin.
    rewrite Forall_forall in Hvalues. now apply Hvalues. }
  specialize (Hloop Hpairs Num.zero Num.zero eq_refl). cbv zeta in Hloop.
  destruct (fold_left (accumulate _ _) _ _) as [[numerator denomMetric] denomEvents].
  simpl in Hloop. destruct Hloop as [Hnumerator Hevents]. subst denomEvents.
  now rewrite quotient_over_zero_is_nan.
Qed.

(** ** Degenerate input and range of the correlation *)

(** C1, as amended.  When fewer than two rows are given, or fewer than two
    survive the filter, the coefficient is exactly 0, and the coefficient
    is never NaN.  When the rows that survive the filter all have the same
    event count, the coefficient is exactly 0 in binary64, the counts
    adding up to less than 2^53 (they add up to no more than the number of
    events): their mean is exact, every difference to it is 0, and the NaN
    guard returns 0.  When those rows all have the same metric average (or
    the same event count), the coefficient is exactly 0 when the
    arithmetic is exact; nothing is said of what rounding leaves of it in
    binary64 for equal metric averages. *)
Theorem degenerate_correlation_is_zero :
  (forall pts : list (@point number),
      (List.length pts < 2)%nat \/ (List.length (validData pts) < 2)%nat ->
      correlate pts = Num.zero)
  /\ (forall pts : list (@point number), Num.isNaN (correlate pts) = false)
  /\ (forall (pts : list (@point number)) (c : nat),
        Forall (fun p => snd p = c) (validData pts) ->
        Z.of_nat (List.length (validData pts)) * Z.of_nat c < 2 ^ 53 ->
        correlate pts = Num.zero)
  /\ (forall pts : list (R * nat),
        (exists c, Forall (fun p => fst p = c) (filter rvalid pts))
        \/ (exists c, Forall (fun p => snd p = c) (filter rvalid pts)) ->
        correlate (lift pts) = Exact.Fin 0).
Proof.
  split; [|split; [|split]].
  - intros pts Hshort. unfold correlate.
    apply (@pearson_short number ieee).
    pose proof (validData_length pts). lia.
  - intros pts. apply pearson_not_nan.
  - intros pts c Hvalid Hbound. unfold correlate.
    destruct c as [|c'].
    + apply (@pearson_short number ieee).
      assert (Hnone : forall p : point, ~ In p (validData pts)).
      { intros p Hin. pose proof Hin as Hcount.
        rewrite Forall_forall in Hvalid. apply Hvalid in Hcount.
        apply filter_In in Hin. destruct Hin as [_ Hkeep].
        rewrite Hcount in Hkeep. simpl in Hkeep. rewrite andb_false_r in Hkeep.
        discriminate. }
      destruct (validData pts) as [|p rest]; [simpl; lia|].
      exfalso. apply (Hnone p). now left.
    + apply (pearson_equal_counts _ (Pos.of_succ_nat c')).
      * now rewrite SuccNat2Pos.id_succ.
      * now rewrite Zpos_P_of_succ_nat, <- Nat2Z.inj_succ.
  - intros pts Hconst. unfold correlate. rewrite validData_lift.
    now apply exact_pearson_constant.
Qed.

(** C1, witness: two rows of which one has no events; four rows of which
    three have a metric average and two events each; and three rows with
    the same metric average 1/10 read exactly. *)
Lemma degenerate_correlation_is_zero_witness :
  correlate [ (Num.of_Z 70, 3%nat); (Num.of_Z 90, 0%nat) ] = Num.zero
  /\ correlate [ (Num.lit 0.1, 2%nat); (Num.zero, 5%nat); (Num.lit 0.2, 2%nat);
                 (Num.lit 0.7, 2%nat) ] = Num.zero
  /\ correlate (lift [ ((1 / 10)%R, 1%nat); ((1 / 10)%R, 2%nat); ((1 / 10)%R, 4%nat) ])
     = Exact.Fin 0.
Proof.
  split; [|split].
  - apply (proj1 degenerate_correlation_is_zero). right. vm_compute. lia.
  - apply (proj1 (proj2 (proj2 degenerate_correlation_is_zero)) _ 2%nat).
    + vm_compute. repeat constructor.
    + vm_compute. reflexivity.
  - apply (proj2 (proj2 (proj2 degenerate_correlation_is_zero))). left.
    exists (1 / 10)%R. apply Forall_forall. intros p Hp. apply filter_In in Hp.
    destruct Hp as [[Hp|[Hp|[Hp|[]]]] _]; subst p; reflexivity.
Defined.

(** C1, counterexample: three months whose metric average is the constant
    0.1, with 1, 2 and 4 events.  The mean of the three averages rounds to
    0.10000000000000002, every difference to it is about -1.4e-17, and the
    coefficient comes out as 1.1868783374443499e-16, not 0.  The chart
    shows this value for one row of cpu_usage 0.1 in each of three months
    that have 1, 2 and 4 events. *)
Lemma constant_metric_gives_nonzero_correlation :
  let pts := [ (Num.lit 0.1, 1%nat); (Num.lit 0.1, 2%nat); (Num.lit 0.1, 4%nat) ] in
  Forall (fun p => fst p = Num.lit 0.1) pts
  /\ correlate pts = Num.lit 1.1868783374443499e-16
  /\ correlate pts <> Num.zero
  /\ Sample.cpuCorrelation (Sample.quarter (Num.lit 0.1) (Num.lit 0.1) (Num.lit 0.1))
                           Sample.incidents
     = correlate pts.
Proof.
  split; [repeat constructor|].
  split; [vm_compute; reflexivity|].
  split; [vm_compute; discriminate | vm_compute; reflexivity].
Qed.

(** C5, as amended.  Read with exact arithmetic, the coefficient of any
    rows is a real number between -1 and 1.  In binary64 the two examples
    come out exactly: 1 for the averages 1, 2, 3 against 1, 2, 3 events,
    and -1 against 3, 2, 1 events. *)
Theorem correlation_in_unit_interval_when_exact :
  (forall pts : list (R * nat),
      exists r, correlate (lift pts) = Exact.Fin r /\ (-1 <= r <= 1)%R)
  /\ correlate [ (Num.of_Z 1, 1%nat); (Num.of_Z 2, 2%nat); (Num.of_Z 3, 3%nat) ] = Num.of_Z 1
  /\ correlate [ (Num.of_Z 1, 3%nat); (Num.of_Z 2, 2%nat); (Num.of_Z 3, 1%nat) ]
     = Num.of_Z (-1).
Proof.
  split; [|split; vm_compute; reflexivity].
  intros pts. unfold correlate. rewrite validData_lift. apply exact_pearson_range.
Qed.

(** C5, counterexample: the averages 1, 3, 7 against 1, 2, 4 events lie on
    a line, and binary64 returns 1.0000000000000002, above 1, which is what
    the chart shows for rows of cpu_usage 1, 3 and 7 in three months that
    have 1, 2 and 4 events; the averages 1e-162 and 2e-162 against 1 and 2
    events make the product of the denominators underflow to 0, and the
    coefficient is +Infinity. *)
Lemma rounding_takes_correlation_out_of_range :
  correlate [ (Num.of_Z 1, 1%nat); (Num.of_Z 3, 2%nat); (Num.of_Z 7, 4%nat) ]
  = Num.lit 1.0000000000000002
  /\ Num.gt (Num.lit 1.0000000000000002) (Num.of_Z 1) = true
  /\ Sample.cpuCorrelation (Sample.quarter (Num.of_Z 1) (Num.of_Z 3) (Num.of_Z 7))
                           Sample.incidents
     = Num.lit 1.0000000000000002
  /\ correlate [ (Num.lit 1e-162, 1%nat); (Num.lit 2e-162, 2%nat) ] = S754_infinity false.
Proof.
  repeat split; vm_compute; reflexivity.
Qed.

(** * Further properties *)

(** ** Rows, keys and buckets *)

Lemma events_months_iff calendar (predictionsData : list Row) (eventsData : list EventRow)
    (k : string) :
  eventsData <> [] ->
  (In k (map ExternalEventsChart.month
             (ExternalEventsChart.correlatedData calendar predictionsData eventsData)) <->
   exists item, In item predictionsData /\ rowKey calendar item = Some k).
Proof.
  intros Hevents.
  assert (Hsorted :
            In k (map ExternalEventsChart.month
                      (ExternalEventsChart.correlatedData calendar predictionsData eventsData)) <->
            In k (keys (ExternalEventsChart.monthlyPredictions calendar predictionsData eventsData))).
  { unfold ExternalEventsChart.correlatedData.
    destruct predictionsData as [|item0 data0]; [|destruct eventsData as [|e0 events0]].
    - unfold ExternalEventsChart.monthlyPredictions. rewrite groupEvents_keys. simpl. tauto.
    - contradiction.
    - rewrite <- events_months. split; apply Permutation_in, Permutation_map.
      + apply sort_perm.
      + apply Permutation_sym, sort_perm. }
  rewrite Hsorted. unfold ExternalEventsChart.monthlyPredictions.
  rewrite groupEvents_keys, events_groupRows. split.
  - intros Hin. apply group_all_keys in Hin. destruct Hin as [[]|Hin]. exact Hin.
  - intros [item [Hin Hkey]]. now apply group_all_files with item.
Qed.

(** X1.  The months that a monthly chart shows are exactly the month keys
    of the rows that have a non-empty timestamp: every such row finds its
    month among the buckets, and no bucket is shown for a month without a
    row.  The same holds for the events chart as soon as there is an
    event. *)
Theorem bucket_months_are_row_keys
    calendar (data : list Row) (eventsData : list EventRow) (k : string) :
  (In k (map MonthlyChart.month (MonthlyChart.processedData calendar data)) <->
   exists item, In item data /\ rowKey calendar item = Some k)
  /\ (eventsData <> [] ->
      (In k (map ExternalEventsChart.month
                 (ExternalEventsChart.correlatedData calendar data eventsData)) <->
       exists item, In item data /\ rowKey calendar item = Some k)).
Proof.
  split; [apply monthly_months_iff | apply events_months_iff].
Qed.

Lemma fold_left_skip {A B : Type} (f : A -> B -> A) (keep : B -> bool) (l : list B) :
  (forall a b, keep b = false -> f a b = a) ->
  forall a, fold_left f l a = fold_left f (filter keep l) a.
Proof.
  intros Hskip. induction l as [|b l IH]; intros a; simpl; [reflexivity|].
  destruct (keep b) eqn:Hb; simpl; [apply IH|].
  rewrite Hskip by exact Hb. apply IH.
Qed.

Lemma monthly_groupRow_skip calendar (m : JSMap MonthlyChart.MonthData) (item : Row) :
  present (timestamp item) = false -> MonthlyChart.groupRow calendar m item = m.
Proof.
  unfold MonthlyChart.groupRow. destruct (timestamp item) as [[|c ts]|]; try reflexivity.
  discriminate.
Qed.

Lemma events_groupRow_skip calendar (m : JSMap ExternalEventsChart.MonthData) (item : Row) :
  present (timestamp item) = false -> ExternalEventsChart.groupRow calendar m item = m.
Proof.
  unfold ExternalEventsChart.groupRow. destruct (timestamp item) as [[|c ts]|]; try reflexivity.
  discriminate.
Qed.

Lemma groupEvent_skip calendar (m : JSMap ExternalEventsChart.MonthData) (event : EventRow) :
  present (ev_timestamp event) = false -> ExternalEventsChart.groupEvent calendar m event = m.
Proof.
  unfold ExternalEventsChart.groupEvent.
  destruct (ev_timestamp event) as [[|c ts]|]; try reflexivity.
  discriminate.
Qed.

(** X2.  Rows whose timestamp is absent or empty have no effect on the
    monthly charts: each chart is the one computed from the other rows
    alone.  Events without a timestamp have no effect on the events chart
    either, as long as some event has one. *)
Theorem rows_without_timestamp_change_no_bucket
    calendar (data : list Row) (eventsData : list EventRow) :
  let dated := filter (fun item => present (timestamp item)) data in
  let datedEvents := filter (fun event => present (ev_timestamp event)) eventsData in
  MonthlyChart.processedData calendar data = MonthlyChart.processedData calendar dated
  /\ ExternalEventsChart.correlatedData calendar data eventsData
     = ExternalEventsChart.correlatedData calendar dated eventsData
  /\ (datedEvents <> [] ->
      ExternalEventsChart.correlatedData calendar data eventsData
      = ExternalEventsChart.correlatedData calendar data datedEvents).
Proof.
  intros dated datedEvents.
  assert (Hmonthly : MonthlyChart.monthlyData calendar data
                     = MonthlyChart.monthlyData calendar dated).
  { unfold MonthlyChart.monthlyData. subst dated.
    apply fold_left_skip. intros m item. apply monthly_groupRow_skip. }
  assert (Hrows : fold_left (ExternalEventsChart.groupRow calendar) data []
                  = fold_left (ExternalEventsChart.groupRow calendar) dated []).
  { subst dated. apply fold_left_skip. intros m item. apply events_groupRow_skip. }
  split; [|split].
  - unfold MonthlyChart.processedData. rewrite Hmonthly.
    destruct data as [|item data']; [reflexivity|].
    destruct dated as [|item' dated'] eqn:Hdated; [|reflexivity].
    reflexivity.
  - unfold ExternalEventsChart.correlatedData, ExternalEventsChart.monthlyPredictions.
    rewrite Hrows.
    destruct eventsData as [|event events'];
      [destruct data, dated; reflexivity|].
    destruct data as [|item data']; [reflexivity|].
    destruct dated as [|item' dated'] eqn:Hdated; [|reflexivity].
    assert (Hnil : fold_left (ExternalEventsChart.groupEvent calendar) (event :: events')
                             (fold_left (ExternalEventsChart.groupRow calendar) [] []) = []).
    { apply map_eq_nil with (f := fst).
      exact (groupEvents_keys calendar (event :: events') []). }
    rewrite Hnil. reflexivity.
  - intros Hdated.
    unfold ExternalEventsChart.correlatedData, ExternalEventsChart.monthlyPredictions.
    assert (Hevents : forall m,
               fold_left (ExternalEventsChart.groupEvent calendar) eventsData m
               = fold_left (ExternalEventsChart.groupEvent calendar) datedEvents m).
    { subst datedEvents. apply fold_left_skip. intros m event. apply groupEvent_skip. }
    rewrite Hevents.
    destruct data as [|item data']; [reflexivity|].
    destruct eventsData as [|event events']; [contradiction Hdated; reflexivity|].
    destruct datedEvents; [contradiction Hdated; reflexivity | reflexivity].
Qed.

(** ** The events of a bucket *)

Lemma collect_constant {I V T : Type} (keyOf : I -> option string) (fresh : I -> string -> V)
    (push : I -> V -> V) (proj : V -> T) (c : T) :
  (forall item v, proj (push item v) = proj v) ->
  (forall item k, proj (fresh item k) = c) ->
  forall (k : string) (items : list I) (acc : option V) (v : V),
    fold_left (collect keyOf fresh push k) items acc = Some v ->
    proj v = match acc with Some v0 => proj v0 | None => c end.
Proof.
  intros Hpush Hfresh k items.
  induction items as [|item items IH]; simpl; intros acc v Hv.
  - now subst acc.
  - apply IH in Hv. rewrite Hv. unfold collect.
    destruct (keyOf item) as [k'|]; [|reflexivity].
    destruct (String.eqb k' k); [|reflexivity].
    rewrite Hpush. destruct acc; [reflexivity | apply Hfresh].
Qed.

Lemma Map_get_has {V : Type} (k : string) (m : JSMap V) (v : V) :
  Map_get k m = Some v -> Map_has k m = true.
Proof.
  intros Hget. destruct (Map_has k m) eqn:Hhas; [reflexivity|].
  apply Map_has_get in Hhas. congruence.
Qed.

Lemma groupEvents_entry calendar (eventsData : list EventRow) :
  forall (m : JSMap ExternalEventsChart.MonthData) (k : string)
         (v : ExternalEventsChart.MonthData),
    Map_get k m = Some v ->
    exists v',
      Map_get k (fold_left (ExternalEventsChart.groupEvent calendar) eventsData m) = Some v'
      /\ ExternalEventsChart.md_events v' =
         ExternalEventsChart.md_events v
         ++ filter (fun event => keyed (eventKey calendar event) k) eventsData.
Proof.
  induction eventsData as [|event events IH]; intros m k v Hget; simpl.
  - exists v. split; [exact Hget | now rewrite app_nil_r].
  - unfold ExternalEventsChart.groupEvent at 2. unfold eventKey at 1.
    destruct (ev_timestamp event) as [[|c ts]|]; simpl; try (now apply IH).
    set (ke := monthKey calendar (String c ts)).
    destruct (Map_has ke m) eqn:Hhas.
    + destruct (String.eqb ke k) eqn:E.
      * apply String.eqb_eq in E.
        destruct (IH (Map_update ke (ExternalEventsChart.pushEvent event) m) k
                     (ExternalEventsChart.pushEvent event v)) as [v' [Hv' Hevents]].
        { rewrite Map_get_update, E. rewrite String.eqb_refl. now rewrite Hget. }
        exists v'. split; [exact Hv'|].
        rewrite Hevents. simpl. now rewrite <- app_assoc.
      * apply IH. now rewrite Map_get_update, E.
    + destruct (String.eqb ke k) eqn:E; [|now apply IH].
      apply String.eqb_eq in E. rewrite E in Hhas.
      apply Map_get_has in Hget. congruence.
Qed.

Lemma events_bucket_events calendar (predictionsData : list Row) (eventsData : list EventRow)
    (k : string) (v : ExternalEventsChart.MonthData) :
  In (k, v) (ExternalEventsChart.monthlyPredictions calendar predictionsData eventsData) ->
  ExternalEventsChart.md_month v = k
  /\ ExternalEventsChart.md_events v
     = filter (fun event => keyed (eventKey calendar event) k) eventsData.
Proof.
  intros Hin.
  destruct (events_entry calendar predictionsData eventsData k v Hin)
    as [v0 [Hv0 [Hmonth _]]].
  split.
  - rewrite <- Hmonth.
    exact (collect_label (rowKey calendar) (fun _ k => ExternalEventsChart.emptyMonth k)
                         ExternalEventsChart.pushRow ExternalEventsChart.md_month
                         (fun _ _ => eq_refl) (fun _ _ => eq_refl) _ _ None _ Hv0).
  - assert (Hempty : ExternalEventsChart.md_events v0 = []).
    { exact (collect_constant (rowKey calendar) (fun _ k => ExternalEventsChart.emptyMonth k)
                              ExternalEventsChart.pushRow ExternalEventsChart.md_events []
                              (fun _ _ => eq_refl) (fun _ _ => eq_refl) _ _ None _ Hv0). }
    apply Map_get_In in Hin; [|apply events_keys_nodup].
    unfold ExternalEventsChart.monthlyPredictions in Hin.
    assert (Hget0 : Map_get k (fold_left (ExternalEventsChart.groupRow calendar)
                                         predictionsData []) = Some v0)
      by (rewrite events_groupRows, group_all_get; exact Hv0).
    destruct (groupEvents_entry calendar eventsData _ k v0 Hget0) as [v' [Hv' Hevents]].
    rewrite Hin in Hv'. inversion Hv'; subst v'.
    now rewrite Hevents, Hempty.
Qed.

(** X3.  Every bucket of the events chart holds exactly the events whose
    non-empty timestamp falls in the bucket's month, in the order of the
    events file, and counts them; its high-severity count never exceeds
    the event count, and its impact is 5 per event plus 15 per
    high-severity event.  When the types of the bucket's events are ASCII
    text, the high-severity count takes the events that are marked high or
    whose type mentions an earthquake or covid, in any case of the
    letters. *)
Theorem bucket_holds_the_events_of_its_month
    calendar (data : list Row) (eventsData : list EventRow) (b : ExternalEventsChart.Bucket) :
  In b (ExternalEventsChart.correlatedData calendar data eventsData) ->
  ExternalEventsChart.events b
  = filter (fun event => keyed (eventKey calendar event) (ExternalEventsChart.month b))
           eventsData
  /\ ExternalEventsChart.event_count b = List.length (ExternalEventsChart.events b)
  /\ (ExternalEventsChart.high_severity_events b <= ExternalEventsChart.event_count b)%nat
  /\ ExternalEventsChart.event_impact b
     = (5 * ExternalEventsChart.event_count b
        + 15 * ExternalEventsChart.high_severity_events b)%nat
  /\ (Forall (fun event => asciiType event = true) (ExternalEventsChart.events b) ->
      ExternalEventsChart.high_severity_events b
      = List.length (filter ExternalEventsChart.highSeverity (ExternalEventsChart.events b))).
Proof.
  intros Hin. apply events_bucket in Hin. destruct Hin as [k [v [Hin Hb]]].
  apply events_bucket_events in Hin. destruct Hin as [Hmonth Hevents].
  subst b. simpl. rewrite Hmonth. repeat split.
  - exact Hevents.
  - apply filter_length_le.
  - lia.
Qed.

(** X3, witness: the January bucket of [Sample.quarter] with
    [Sample.incidents]. *)
Lemma bucket_holds_the_events_of_its_month_witness :
  exists b,
    In b (ExternalEventsChart.correlatedData Sample.calendar
            (Sample.quarter (Num.of_Z 1) (Num.of_Z 3) (Num.of_Z 7)) Sample.incidents)
    /\ ExternalEventsChart.events b = [ Sample.event "2025-01-03" ].
Proof.
  eexists. split; [left; reflexivity|].
  exact (proj1 (bucket_holds_the_events_of_its_month Sample.calendar
                  (Sample.quarter (Num.of_Z 1) (Num.of_Z 3) (Num.of_Z 7)) Sample.incidents
                  _ (or_introl eq_refl))).
Defined.

(** ** Means are plain numbers *)

Lemma average_plain (values : list number) : plain (average values) = true.
Proof.
  unfold average, Num.or_else.
  destruct (Num.div _ _) as [[|]| | |]; reflexivity.
Qed.

(** X4.  Every mean of every bucket of the two monthly charts is a plain
    number: never NaN (an empty list of values gives 0, not 0/0) and never
    negative zero. *)
Theorem bucket_means_are_plain_numbers
    calendar (data : list Row) (eventsData : list EventRow) :
  Forall (fun b =>
            plain (MonthlyChart.cpu_avg b) = true
            /\ plain (MonthlyChart.memory_avg b) = true
            /\ plain (MonthlyChart.network_avg b) = true
            /\ plain (MonthlyChart.power_avg b) = true
            /\ plain (MonthlyChart.cpu_growth b) = true
            /\ plain (MonthlyChart.memory_growth b) = true
            /\ plain (MonthlyChart.network_growth b) = true)
         (MonthlyChart.processedData calendar data)
  /\ Forall (fun b =>
               plain (ExternalEventsChart.cpu_avg b) = true
               /\ plain (ExternalEventsChart.memory_avg b) = true
               /\ plain (ExternalEventsChart.network_avg b) = true
               /\ plain (ExternalEventsChart.power_avg b) = true)
            (ExternalEventsChart.correlatedData calendar data eventsData).
Proof.
  split; apply Forall_forall; intros b Hin.
  - apply monthly_bucket in Hin. destruct Hin as [k [v [_ Hb]]]. subst b. simpl.
    repeat split; apply average_plain.
  - apply events_bucket in Hin. destruct Hin as [k [v [_ Hb]]]. subst b. simpl.
    repeat split; apply average_plain.
Qed.

(** ** The two monthly charts agree *)

Lemma compare_refl (a : string) : String.compare a a = Eq.
Proof.
  pose proof (String.compare_antisym a a) as H.
  destruct (String.compare a a); [reflexivity | discriminate | discriminate].
Qed.

Lemma sorted_same_members (l1 l2 : list string) :
  StronglySorted (fun a b => localeCompare a b = Lt) l1 ->
  StronglySorted (fun a b => localeCompare a b = Lt) l2 ->
  (forall x, In x l1 <-> In x l2) ->
  l1 = l2.
Proof.
  unfold localeCompare.
  revert l2. induction l1 as [|x1 l1 IH]; intros l2 H1 H2 Hmem.
  - destruct l2 as [|x2 l2]; [reflexivity|].
    exfalso. apply (Hmem x2). now left.
  - destruct l2 as [|x2 l2].
    + exfalso. apply (Hmem x1). now left.
    + inversion H1 as [|? ? Hs1 Hall1]; subst.
      inversion H2 as [|? ? Hs2 Hall2]; subst.
      rewrite Forall_forall in Hall1, Hall2.
      assert (Hx : x1 = x2).
      { destruct (proj1 (Hmem x1) (or_introl eq_refl)) as [Heq|Hin1]; [now symmetry|].
        destruct (proj2 (Hmem x2) (or_introl eq_refl)) as [Heq|Hin2]; [exact Heq|].
        pose proof (Hall2 _ Hin1) as Hlt1. pose proof (Hall1 _ Hin2) as Hlt2.
        pose proof (compare_lt_trans _ _ _ Hlt1 Hlt2) as Hbad.
        rewrite compare_refl in Hbad. discriminate. }
      subst x2. f_equal. apply IH; try assumption.
      intros x. split; intros Hin.
      * destruct (proj1 (Hmem x) (or_intror Hin)) as [Heq|Hin']; [|exact Hin'].
        subst x. pose proof (Hall1 _ Hin) as Hbad.
        rewrite compare_refl in Hbad. discriminate.
      * destruct (proj2 (Hmem x) (or_intror Hin)) as [Heq|Hin']; [|exact Hin'].
        subst x. pose proof (Hall2 _ Hin) as Hbad.
        rewrite compare_refl in Hbad. discriminate.
Qed.

(** What a chart shows for the month [k] of the rows [data]. *)
Lemma monthly_view calendar (data : list Row) (b : MonthlyChart.Bucket) :
  In b (MonthlyChart.processedData calendar data) ->
  let rows := filed (rowKey calendar) (MonthlyChart.month b) data in
  monthlyView b =
  (MonthlyChart.month b, average (pushed cpu_usage rows), average (pushed memory_usage rows),
   average (pushed network_traffic rows), average (pushed power_consumption rows)).
Proof.
  intros Hin rows.
  apply monthly_bucket in Hin. destruct Hin as [k [v [Hin Hb]]].
  apply monthly_entry in Hin.
  assert (Hk : MonthlyChart.month b = k).
  { subst b. simpl.
    exact (collect_label (rowKey _) (fun item k => MonthlyChart.emptyMonth k (rowDate item))
                         MonthlyChart.pushRow MonthlyChart.md_month
                         (fun _ _ => eq_refl) (fun _ _ => eq_refl) _ _ None _ Hin). }
  subst rows. rewrite Hk. subst b. unfold monthlyView. simpl. simpl in Hk.
  rewrite Hk. repeat f_equal.
  - monthly_field Hin MonthlyChart.md_cpu_usage cpu_usage.
  - monthly_field Hin MonthlyChart.md_memory_usage memory_usage.
  - monthly_field Hin MonthlyChart.md_network_traffic network_traffic.
  - monthly_field Hin MonthlyChart.md_power_consumption power_consumption.
Qed.

Lemma correlated_view calendar (data : list Row) (eventsData : list EventRow)
    (b : ExternalEventsChart.Bucket) :
  In b (ExternalEventsChart.correlatedData calendar data eventsData) ->
  let rows := filed (rowKey calendar) (ExternalEventsChart.month b) data in
  correlatedView b =
  (ExternalEventsChart.month b, average (pushed cpu_usage rows),
   average (pushed memory_usage rows), average (pushed network_traffic rows),
   average (pushed power_consumption rows)).
Proof.
  intros Hin rows.
  apply events_bucket in Hin. destruct Hin as [k [v [Hin Hb]]].
  apply events_entry in Hin.
  destruct Hin as [v0 [Hget [Hmonth [Hcpu [Hmem [Hnet Hpow]]]]]].
  assert (Hk : ExternalEventsChart.month b = k).
  { subst b. simpl. rewrite <- Hmonth.
    exact (collect_label (rowKey _) (fun _ k => ExternalEventsChart.emptyMonth k)
                         ExternalEventsChart.pushRow ExternalEventsChart.md_month
                         (fun _ _ => eq_refl) (fun _ _ => eq_refl) _ _ None _ Hget). }
  subst rows. rewrite Hk. subst b. unfold correlatedView. simpl. simpl in Hk.
  rewrite Hk, <- Hcpu, <- Hmem, <- Hnet, <- Hpow.
  repeat f_equal.
  - events_field Hget ExternalEventsChart.md_cpu_values cpu_usage.
  - events_field Hget ExternalEventsChart.md_memory_values memory_usage.
  - events_field Hget ExternalEventsChart.md_network_values network_traffic.
  - events_field Hget ExternalEventsChart.md_power_values power_consumption.
Qed.

(** X5.  As soon as there is an event, the resource chart's monthly
    aggregation and the events chart show the same months in the same
    order with the same four means: the two copies of the aggregation loop
    agree. *)
Theorem monthly_charts_agree calendar (data : list Row) (eventsData : list EventRow) :
  eventsData <> [] ->
  map monthlyView (MonthlyChart.processedData calendar data)
  = map correlatedView (ExternalEventsChart.correlatedData calendar data eventsData).
Proof.
  intros Hevents.
  set (view := fun k : string =>
                 let rows := filed (rowKey calendar) k data in
                 (k, average (pushed cpu_usage rows), average (pushed memory_usage rows),
                  average (pushed network_traffic rows),
                  average (pushed power_consumption rows))).
  assert (H1 : map monthlyView (MonthlyChart.processedData calendar data)
               = map view (map MonthlyChart.month (MonthlyChart.processedData calendar data))).
  { rewrite map_map. apply map_ext_in. intros b Hin.
    exact (monthly_view calendar data b Hin). }
  assert (H2 : map correlatedView (ExternalEventsChart.correlatedData calendar data eventsData)
               = map view (map ExternalEventsChart.month
                               (ExternalEventsChart.correlatedData calendar data eventsData))).
  { rewrite map_map. apply map_ext_in. intros b Hin.
    exact (correlated_view calendar data eventsData b Hin). }
  rewrite H1, H2. f_equal.
  apply sorted_same_members.
  - unfold MonthlyChart.processedData. destruct data as [|item data']; [constructor|].
    rewrite <- (map_id (map MonthlyChart.month _)).
    assert (Hs := sorted_buckets MonthlyChart.month
                    (map MonthlyChart.averages
                         (Map_values (MonthlyChart.monthlyData calendar (item :: data'))))).
    cbv zeta in Hs. rewrite monthly_months in Hs.
    destruct (Hs (monthly_keys_nodup calendar (item :: data'))) as [Hsorted _].
    rewrite map_id. clear Hs.
    induction Hsorted as [|b l Hl IH Hb]; simpl; constructor; [exact IH|].
    apply Forall_map. exact Hb.
  - unfold ExternalEventsChart.correlatedData. destruct data as [|item data']; [constructor|].
    destruct eventsData as [|event events']; [contradiction|].
    assert (Hs := sorted_buckets ExternalEventsChart.month
                    (map ExternalEventsChart.summarize
                         (Map_values (ExternalEventsChart.monthlyPredictions
                                        calendar (item :: data') (event :: events'))))).
    cbv zeta in Hs. rewrite events_months in Hs.
    destruct (Hs (events_keys_nodup calendar (item :: data') (event :: events')))
      as [Hsorted _].
    clear Hs.
    induction Hsorted as [|b l Hl IH Hb]; simpl; constructor; [exact IH|].
    apply Forall_map. exact Hb.
  - intros k. rewrite monthly_months_iff. symmetry. now apply events_months_iff.
Qed.

(** X5, witness: [Sample.quarter] with [Sample.incidents]. *)
Lemma monthly_charts_agree_witness :
  map monthlyView
      (MonthlyChart.processedData Sample.calendar
         (Sample.quarter (Num.of_Z 1) (Num.of_Z 3) (Num.of_Z 7)))
  = map correlatedView
        (ExternalEventsChart.correlatedData Sample.calendar
           (Sample.quarter (Num.of_Z 1) (Num.of_Z 3) (Num.of_Z 7)) Sample.incidents).
Proof.
  apply monthly_charts_agree. unfold Sample.incidents. discriminate.
Defined.

(** ** The event-type selector *)

Lemma filter_twice {A : Type} (p : A -> bool) (l : list A) :
  filter p (filter p l) = filter p l.
Proof.
  induction l as [|a l IH]; simpl; [reflexivity|].
  destruct (p a) eqn:Hp; simpl; [rewrite Hp, IH|]; auto.
Qed.

(** X6.  Selecting an event type changes, in each bucket, the list of
    events and the event count only: months, means, the high-severity count
    and the impact score stay those of all events.  With a type selected
    each bucket lists the events of that type and counts them; selecting
    the same type again changes nothing. *)
Theorem type_filter_recounts_events_only
    (correlatedData : list ExternalEventsChart.Bucket) (eventFilter : string) :
  let shown := ExternalEventsChart.filteredData correlatedData eventFilter in
  map correlatedView shown = map correlatedView correlatedData
  /\ map ExternalEventsChart.high_severity_events shown
     = map ExternalEventsChart.high_severity_events correlatedData
  /\ map ExternalEventsChart.event_impact shown
     = map ExternalEventsChart.event_impact correlatedData
  /\ (eventFilter <> "all"%string ->
      Forall2 (fun b b' =>
                 ExternalEventsChart.events b'
                 = filter (fun e => match ev_type e with
                                    | Some t => String.eqb t eventFilter
                                    | None => false
                                    end) (ExternalEventsChart.events b)
                 /\ ExternalEventsChart.event_count b'
                    = List.length (ExternalEventsChart.events b'))
              correlatedData shown)
  /\ ExternalEventsChart.filteredData shown eventFilter = shown.
Proof.
  unfold ExternalEventsChart.filteredData.
  destruct (String.eqb eventFilter "all") eqn:Hall; cbv zeta.
  - repeat split; try reflexivity.
    intros Hne. apply String.eqb_eq in Hall. contradiction.
  - repeat split.
    + rewrite map_map. now apply map_ext.
    + rewrite map_map. now apply map_ext.
    + rewrite map_map. now apply map_ext.
    + intros _. induction correlatedData as [|b l IH]; simpl; constructor; auto.
    + rewrite map_map. apply map_ext. intros b. simpl. now rewrite filter_twice.
Qed.

(** ** The metrics grid *)

Lemma sub_nan (x : number) : Num.sub x S754_nan = S754_nan.
Proof. now destruct x. Qed.

(** X7.  The metrics grid shows nothing exactly for no rows; otherwise its
    total is the number of rows, the high-load count is at most that
    total, and the two windows of the trend are adjacent: the 30 rows
    before the last 30, which together are the last 60. *)
Theorem metrics_totals_and_windows (data : list Row) :
  (DatabaseMetricsGrid.calculateMetrics data = None <-> data = [])
  /\ (forall m, DatabaseMetricsGrid.calculateMetrics data = Some m ->
        DatabaseMetricsGrid.totalInputs m = List.length data
        /\ (DatabaseMetricsGrid.highLoadDays m <= DatabaseMetricsGrid.totalInputs m)%nat)
  /\ (DatabaseMetricsGrid.slice_between 60 30 data ++ DatabaseMetricsGrid.slice_last 30 data
      = DatabaseMetricsGrid.slice_last 60 data)%list
  /\ List.length (DatabaseMetricsGrid.slice_last 30 data) = Nat.min 30 (List.length data)
  /\ List.length (DatabaseMetricsGrid.slice_between 60 30 data)
     = (Nat.min 60 (List.length data) - Nat.min 30 (List.length data))%nat.
Proof.
  split; [|split; [|split; [|split]]].
  - destruct data; simpl; split; intros H; try reflexivity; discriminate.
  - intros m Hm. destruct data as [|item rest]; [discriminate|].
    unfold DatabaseMetricsGrid.calculateMetrics in Hm. inversion Hm. simpl.
    split; [reflexivity|].
    pose proof (filter_length_le DatabaseMetricsGrid.highLoad (item :: rest)) as Hle.
    simpl in Hle. exact Hle.
  - unfold DatabaseMetricsGrid.slice_between, DatabaseMetricsGrid.slice_last. cbv zeta.
    set (n := List.length data).
    replace (skipn (n - 30) data) with (skipn (n - 30 - (n - 60)) (skipn (n - 60) data)).
    + apply firstn_skipn.
    + rewrite skipn_skipn. f_equal. lia.
  - unfold DatabaseMetricsGrid.slice_last. rewrite length_skipn. lia.
  - unfold DatabaseMetricsGrid.slice_between. cbv zeta.
    rewrite length_firstn, length_skipn. lia.
Qed.

(** X8.  With at most 30 rows there is no previous window: the trend is
    NaN (shown as "NaN%"), and the daily average, the row count over 365
    rounded, is 0. *)
Theorem short_history_has_no_trend (data : list Row) :
  data <> [] ->
  (List.length data <= 30)%nat ->
  exists m,
    DatabaseMetricsGrid.calculateMetrics data = Some m
    /\ Num.isNaN (DatabaseMetricsGrid.trendPercent m) = true
    /\ DatabaseMetricsGrid.dailyAverage m = Num.zero.
Proof.
  intros Hne Hlen. destruct data as [|item rest]; [contradiction|].
  eexists. split; [reflexivity|]. split.
  - cbn [DatabaseMetricsGrid.trendPercent].
    assert (Hprev : DatabaseMetricsGrid.slice_between 60 30 (item :: rest) = []).
    { unfold DatabaseMetricsGrid.slice_between. cbv zeta.
      replace (List.length (item :: rest) - 30)%nat with 0%nat by lia.
      reflexivity. }
    rewrite Hprev. simpl (List.length []). simpl (DatabaseMetricsGrid.total cpu_usage []).
    replace (Num.div Num.zero (Num.of_nat 0)) with (S754_nan : number) by reflexivity.
    now rewrite sub_nan.
  - cbn [DatabaseMetricsGrid.dailyAverage].
    assert (Hall : forallb (fun n => match Num.round (Num.div (Num.of_nat n) (Num.of_Z 365)) with
                                     | S754_zero false => true
                                     | _ => false
                                     end) (seq 0 31) = true) by (vm_compute; reflexivity).
    rewrite forallb_forall in Hall.
    specialize (Hall (List.length (item :: rest))).
    destruct (Num.round (Num.div (Num.of_nat (List.length (item :: rest))) (Num.of_Z 365)))
      as [[|]| | |]; try reflexivity;
      exfalso; (assert (Hin : In (List.length (item :: rest)) (seq 0 31)) by (apply in_seq; lia));
      specialize (Hall Hin); discriminate.
Qed.

(** X8, witness: one row. *)
Lemma short_history_has_no_trend_witness :
  exists m,
    DatabaseMetricsGrid.calculateMetrics [ Sample.row (Some "2025-01-01"%string) (Some (Num.of_Z 50)) ] = Some m
    /\ Num.isNaN (DatabaseMetricsGrid.trendPercent m) = true
    /\ DatabaseMetricsGrid.dailyAverage m = Num.zero.
Proof.
  apply short_history_has_no_trend; [discriminate | simpl; lia].
Defined.

(** ** Maintenance tasks and their badges *)

(** X9.  For any rows the maintenance panel lists either nothing (no rows)
    or the three tasks vacuum, index and statistics in that order; every
    severity it assigns is one the badge functions know, so no badge takes
    the default colour or the default icon; and vacuuming is "Required"
    only when there are more than 50 rows. *)
Theorem maintenance_tasks_have_known_severity
    (toLocaleString : nat -> string) (toString : number -> string) (data : list Row) :
  let tasks := MaintenancePredictions.maintenanceTasks toLocaleString toString data in
  (data = [] /\ tasks = []
   \/ data <> [] /\ map MaintenancePredictions.id tasks
                    = [ "vacuum"; "index"; "statistics" ]%string)
  /\ Forall (fun task =>
               MaintenanceBadges.getSeverityColor (MaintenancePredictions.severity task)
               <> "secondary"%string
               /\ MaintenanceBadges.getSeverityIcon (MaintenancePredictions.severity task)
                  <> MaintenanceBadges.Clock)
            tasks
  /\ Forall (fun task =>
               MaintenancePredictions.status task = "Required"%string ->
               (50 < List.length data)%nat)
            tasks.
Proof.
  destruct data as [|item rest]; cbv zeta.
  - split; [left; split; reflexivity|]. split; constructor.
  - unfold MaintenancePredictions.maintenanceTasks.
    set (busy := fun item0 : Row =>
                   Num.gt (or_default (cpu_usage item0) Num.zero) (Num.of_Z 80)
                   || Num.gt (or_default (memory_usage item0) Num.zero) (Num.of_Z 85)).
    pose proof (filter_length_le busy (item :: rest)) as Hle.
    cbv zeta.
    split; [right; split; [discriminate | reflexivity]|].
    split.
    + repeat constructor; cbn [MaintenancePredictions.severity];
        try (destruct (50 <? _)%nat); try (destruct (Num.gt _ _));
        try (vm_compute; discriminate).
    + apply Forall_cons; [|apply Forall_cons; [|apply Forall_cons; [|apply Forall_nil]]];
        cbn [MaintenancePredictions.status].
      * destruct (50 <? List.length (filter busy (item :: rest)))%nat eqn:Hhigh.
        -- intros _. apply Nat.ltb_lt in Hhigh. lia.
        -- discriminate.
      * destruct (Num.gt _ _); discriminate.
      * discriminate.
Qed.

(** ** The capacity chart *)

Lemma points_length format random (data : list Row) :
  forall index ps,
    DatabaseCapacityChart.points format random index data = Some ps ->
    List.length ps = List.length data.
Proof.
  induction data as [|item data IH]; intros index ps; simpl.
  - intros H. now inversion H.
  - destruct (DatabaseCapacityChart.point format random index item) as [p|]; [|discriminate].
    destruct (DatabaseCapacityChart.points format random (S index) data) as [ps'|] eqn:Hps;
      [|discriminate].
    intros H. inversion H. simpl. f_equal. now apply (IH (S index)).
Qed.

Lemma point_aborts format random (index : nat) (item : Row) :
  DatabaseCapacityChart.point format random index item = None <->
  format (pointDate index item) = None.
Proof.
  unfold DatabaseCapacityChart.point. fold (pointDate index item).
  destruct (format (pointDate index item)); split; intros H; try reflexivity; discriminate.
Qed.

Lemma points_abort format random (data : list Row) :
  forall index,
    DatabaseCapacityChart.points format random index data = None <->
    exists i item, nth_error data i = Some item /\ format (pointDate (index + i) item) = None.
Proof.
  induction data as [|item data IH]; intros index; simpl.
  - split; [discriminate|]. intros [i [item [Hnth _]]]. destruct i; discriminate.
  - pose proof (point_aborts format random index item) as Hpoint.
    destruct (DatabaseCapacityChart.point format random index item) as [p|].
    + specialize (IH (S index)).
      destruct (DatabaseCapacityChart.points format random (S index) data) as [ps|].
      * split; [discriminate|]. intros [i [item' [Hnth Hfmt]]].
        destruct i as [|i]; simpl in Hnth.
        -- inversion Hnth; subst item'. rewrite Nat.add_0_r in Hfmt.
           apply Hpoint in Hfmt. discriminate.
        -- assert (Hbad : Some ps = None); [|discriminate].
           apply (proj2 IH). exists i, item'. split; [exact Hnth|].
           now replace (S index + i)%nat with (index + S i)%nat by lia.
      * split; [|reflexivity]. intros _.
        destruct (proj1 IH eq_refl) as [i [item' [Hnth Hfmt]]].
        exists (S i), item'. split; [exact Hnth|].
        now replace (index + S i)%nat with (S index + i)%nat by lia.
    + split; [|reflexivity]. intros _. exists 0%nat, item. split; [reflexivity|].
      rewrite Nat.add_0_r. now apply Hpoint.
Qed.

(** X10.  The capacity chart's pass over the rows is abandoned exactly when
    the date of some row cannot be formatted (date-fns throws on an Invalid
    Date, and nothing catches it); a pass that completes gives one point
    per row. *)
Theorem capacity_pass_fails_on_one_bad_date format random (data : list Row) :
  (DatabaseCapacityChart.processedData format random data = None <->
   exists index item, nth_error data index = Some item /\ format (pointDate index item) = None)
  /\ (forall ps, DatabaseCapacityChart.processedData format random data = Some ps ->
                 List.length ps = List.length data).
Proof.
  split.
  - unfold DatabaseCapacityChart.processedData. now rewrite points_abort.
  - intros ps. apply points_length.
Qed.

Lemma binary_round_sign (s : bool) (m : positive) (e : Z) :
  negative (binary_round Num.prec Num.emax s m e) = s \/
  binary_round Num.prec Num.emax s m e = S754_nan.
Proof.
  unfold binary_round.
  destruct (shl_align m e _) as [mz ez].
  unfold binary_round_aux.
  destruct (shr_fexp Num.prec Num.emax (Z.pos mz) ez loc_Exact) as [mrs' e'].
  destruct (shr_fexp Num.prec Num.emax _ e' loc_Exact) as [mrs'' e''].
  destruct (shr_m mrs''); [now left| |now right].
  destruct (e'' <=? Num.emax - Num.prec); now left.
Qed.

Lemma of_Z_sign (n : Z) : 0 <= n -> negative (Num.of_Z n) = false.
Proof.
  intros Hn. unfold Num.of_Z, binary_normalize.
  destruct n as [|p|p]; [reflexivity| |lia].
  destruct (binary_round_sign false p 0) as [H|H]; [exact H | now rewrite H].
Qed.

Lemma round_sign (x : number) : negative x = false -> negative (Num.round x) = false.
Proof.
  destruct x as [s|s| |s m e]; try (intros H; exact H).
  intros Hs. simpl in Hs. subst s. unfold Num.round.
  destruct (0 <=? e); [reflexivity|]. cbv zeta.
  assert (Hq : 0 <= (2 * cond_Zopp false (Z.pos m) + 2 ^ (- e)) / (2 * 2 ^ (- e))).
  { change (cond_Zopp false (Z.pos m)) with (Z.pos m).
    destruct (Z_le_gt_dec 0 (- e)) as [He|He].
    - assert (0 < 2 ^ (- e)) by (apply Z.pow_pos_nonneg; lia).
      apply Z.div_pos; lia.
    - rewrite (Z.pow_neg_r 2 (- e)) by lia.
      replace (2 * 0) with 0 by lia. rewrite Z.div_0_r; lia. }
  destruct ((2 * cond_Zopp false (Z.pos m) + 2 ^ (- e)) / (2 * 2 ^ (- e))) as [|q|q] eqn:Hdiv;
    [reflexivity| |lia].
  apply of_Z_sign. lia.
Qed.

Lemma max_zero_sign (y : number) : negative (Num.max Num.zero y) = false.
Proof.
  destruct y as [[|]|[|]| |[|] m e]; reflexivity.
Qed.

Lemma not_negative_not_below_zero (x : number) :
  negative x = false -> Num.lt x Num.zero = false.
Proof.
  destruct x as [s|s| |s m e]; simpl; intros H; subst; reflexivity.
Qed.

Lemma point_not_negative format random (index : nat) (item : Row) (p : DatabaseCapacityChart.Point) :
  DatabaseCapacityChart.point format random index item = Some p ->
  negative (DatabaseCapacityChart.dailyInputs p) = false.
Proof.
  unfold DatabaseCapacityChart.point.
  destruct (format _); [|discriminate].
  intros H. inversion H. cbn [DatabaseCapacityChart.dailyInputs].
  apply round_sign, max_zero_sign.
Qed.

(** X11.  Whatever the rows hold and whatever [Math.random] returns, no
    point of the capacity chart has daily inputs below zero, and none has
    [-0]: the clamp [Math.max(0, ...)] holds through the final rounding. *)
Theorem daily_inputs_are_never_negative
    format random (data : list Row) (ps : list DatabaseCapacityChart.Point) :
  DatabaseCapacityChart.processedData format random data = Some ps ->
  Forall (fun p =>
            Num.lt (DatabaseCapacityChart.dailyInputs p) Num.zero = false
            /\ negative (DatabaseCapacityChart.dailyInputs p) = false)
         ps.
Proof.
  unfold DatabaseCapacityChart.processedData. generalize 0%nat.
  revert ps. induction data as [|item data IH]; intros ps index; simpl.
  - intros H. inversion H. constructor.
  - destruct (DatabaseCapacityChart.point format random index item) as [p|] eqn:Hp;
      [|discriminate].
    destruct (DatabaseCapacityChart.points format random (S index) data) as [ps'|] eqn:Hps;
      [|discriminate].
    intros H. inversion H. constructor.
    + apply point_not_negative in Hp. split; [now apply not_negative_not_below_zero | exact Hp].
    + now apply (IH ps' (S index)).
Qed.

(** X11, witness: one row whose base is 750, with a draw of -1000 from a
    [Math.random] out of its range: the variation is -400200 and the point
    shows 0. *)
Lemma daily_inputs_are_never_negative_witness :
  let data := [ Sample.row None (Some (Num.of_Z 50)) ] in
  exists ps,
    DatabaseCapacityChart.processedData Sample.format (fun _ => Num.of_Z (-1000)) data = Some ps
    /\ map DatabaseCapacityChart.dailyInputs ps = [ Num.zero ]
    /\ Forall (fun p =>
                 Num.lt (DatabaseCapacityChart.dailyInputs p) Num.zero = false
                 /\ negative (DatabaseCapacityChart.dailyInputs p) = false)
              ps.
Proof.
  eexists. split; [vm_compute; reflexivity|]. split; [vm_compute; reflexivity|].
  apply (daily_inputs_are_never_negative Sample.format (fun _ => Num.of_Z (-1000))
           [ Sample.row None (Some (Num.of_Z 50)) ]).
  vm_compute. reflexivity.
Defined.

(** ** The page and its dialog in use *)

Lemma parsedBy_more (actions : list Session.Action) (action : Session.Action) (rows : list Row) :
  parsedBy actions rows -> parsedBy (actions ++ [action]) rows.
Proof.
  intros [fileName [results [rest [Hin H]]]].
  exists fileName, results, rest. split; [|exact H].
  apply in_or_app. now left.
Qed.

Lemma settled_more (actions : list Session.Action) (action : Session.Action)
    (page : FileUpload.Page) :
  settled actions page -> settled (actions ++ [action]) page.
Proof.
  unfold settled. destruct (FileUpload.predictionFile page) as [file|]; [|trivial].
  intros [Hshow Hdata]. split; [exact Hshow|].
  destruct (FileUpload.data file); [|exact Hdata].
  destruct Hdata as [Hstatus Hrows]. split; [exact Hstatus | now apply parsedBy_more].
Qed.

Lemma session_step toLocaleString (actions : list Session.Action) (action : Session.Action)
    (page : FileUpload.Page) :
  (FileUpload.predictionsData page = [] \/ parsedBy actions (FileUpload.predictionsData page)) ->
  settled actions page ->
  let next := Session.act toLocaleString page action in
  (FileUpload.predictionsData next = []
   \/ parsedBy (actions ++ [action]) (FileUpload.predictionsData next))
  /\ settled (actions ++ [action]) next.
Proof.
  intros Hrows Hfile next.
  assert (Hrows' : FileUpload.predictionsData page = []
                   \/ parsedBy (actions ++ [action]) (FileUpload.predictionsData page))
    by (destruct Hrows; [now left | right; now apply parsedBy_more]).
  assert (Hfile' := settled_more actions action page Hfile).
  subst next. destruct action as [| |acceptedFiles|]; simpl.
  - split; [exact Hrows'|].
    unfold settled in *. simpl.
    destruct (FileUpload.predictionFile page); [|trivial].
    split; [reflexivity | apply Hfile'].
  - destruct (FileUpload.showFileUpload page); [|now split].
    split; [exact Hrows' | exact I].
  - destruct (FileUpload.showFileUpload page) eqn:Hshow; [|now split].
    destruct acceptedFiles as [|[fileName outcome] rest]; [now split|].
    unfold FileUpload.onPredictionsDrop, FileUpload.processFile.
    destruct outcome as [results|msg].
    + destruct (FileUpload.errors results) as [|first others] eqn:Herrors.
      * split; [exact Hrows'|].
        unfold settled. simpl. split; [exact Hshow|]. split; [reflexivity|].
        exists fileName, results, rest. split; [|now split].
        apply in_or_app. right. now left.
      * split; [exact Hrows'|].
        unfold settled. simpl. now split.
    + split; [exact Hrows'|].
      unfold settled. simpl. now split.
  - destruct (FileUpload.showFileUpload page && FileUpload.canLoadData page); [|now split].
    unfold FileUpload.handleLoadData.
    pose proof Hfile' as Hheld. unfold settled in Hheld.
    destruct (FileUpload.predictionFile page) as [file|]; [|now split].
    destruct (FileUpload.data file) as [rows|]; [|now split].
    split; [right; apply Hheld | exact I].
Qed.

Lemma session_invariant toLocaleString (actions : list Session.Action) :
  let page := Session.run toLocaleString actions Session.initial in
  (FileUpload.predictionsData page = [] \/ parsedBy actions (FileUpload.predictionsData page))
  /\ settled actions page.
Proof.
  induction actions as [|action actions IH] using rev_ind.
  - split; [now left | exact I].
  - cbv zeta in *. unfold Session.run in *. rewrite fold_left_app. simpl.
    destruct IH as [Hrows Hfile].
    exact (session_step toLocaleString actions action _ Hrows Hfile).
Qed.

(** X12.  Whatever the user does with the upload button, the dialog's
    close and cancel buttons, its drop zone and its load button, from the
    start of the application on: the rows on display are either none or the
    rows that an error-free parse returned for the first file of one of the
    drops; the dialog holds a file only while it is shown; and the load
    button is enabled exactly when the dialog holds rows to load, which
    then come from an error-free parse. *)
Theorem displayed_rows_come_from_an_error_free_parse
    (toLocaleString : nat -> string) (actions : list Session.Action) :
  let page := Session.run toLocaleString actions Session.initial in
  (FileUpload.predictionsData page = [] \/ parsedBy actions (FileUpload.predictionsData page))
  /\ (FileUpload.showFileUpload page = false -> FileUpload.predictionFile page = None)
  /\ (FileUpload.canLoadData page = true <->
      exists file rows,
        FileUpload.predictionFile page = Some file /\ FileUpload.data file = Some rows)
  /\ (forall file rows,
        FileUpload.predictionFile page = Some file -> FileUpload.data file = Some rows ->
        parsedBy actions rows).
Proof.
  intros page. destruct (session_invariant toLocaleString actions) as [Hrows Hfile].
  fold page in Hrows, Hfile.
  split; [exact Hrows|].
  unfold settled, FileUpload.canLoadData in *.
  destruct (FileUpload.predictionFile page) as [file|].
  - destruct Hfile as [Hshow Hdata]. split; [|split].
    + intros Hhidden. rewrite Hhidden in Hshow. discriminate.
    + destruct (FileUpload.data file) as [rows|] eqn:Hheld.
      * destruct Hdata as [Hstatus _]. rewrite Hstatus. split; [|reflexivity].
        intros _. now exists file, rows.
      * rewrite Hdata. split; [discriminate|].
        intros [file' [rows [Hsome Hnone]]]. inversion Hsome; subst file'.
        rewrite Hheld in Hnone. discriminate.
    + intros file' rows Hsome Hrows'. inversion Hsome; subst file'.
      rewrite Hrows' in Hdata. apply Hdata.
  - split; [reflexivity|]. split.
    + split; [discriminate|]. intros [file [rows [Hsome _]]]. discriminate.
    + intros file rows Hsome. discriminate.
Qed.

(** X13.  Upload, drop and load in a row, from any state of the page: when
    the parse of the dropped file ends without error, its rows replace the
    rows on display, the dialog is gone and one toast is added; the page
    leaves the welcome screen exactly when the file had at least one row,
    so loading a file without rows announces success and shows no
    dashboard. *)
Theorem upload_then_load_replaces_rows
    (toLocaleString : nat -> string) (page : FileUpload.Page)
    (fileName : string) (results : FileUpload.ParseResult)
    (rest : list (string * FileUpload.Outcome)) :
  FileUpload.errors results = [] ->
  let final :=
    Session.run toLocaleString
      [ Session.UploadClick; Session.Drop ((fileName, FileUpload.Complete results) :: rest);
        Session.LoadClick ] page in
  FileUpload.predictionsData final = FileUpload.result_data results
  /\ FileUpload.showFileUpload final = false
  /\ FileUpload.predictionFile final = None
  /\ List.length (FileUpload.toasts final) = S (List.length (FileUpload.toasts page))
  /\ FileUpload.console final = FileUpload.console page
  /\ (Session.hasData final = true <-> FileUpload.result_data results <> []).
Proof.
  intros Herrors final. subst final.
  unfold Session.run. simpl.
  unfold FileUpload.onPredictionsDrop, FileUpload.processFile. rewrite Herrors. simpl.
  repeat split.
  - rewrite length_app. simpl. lia.
  - unfold Session.hasData. simpl.
    destruct (FileUpload.result_data results); simpl; [discriminate|]. intros _. discriminate.
  - unfold Session.hasData. simpl.
    destruct (FileUpload.result_data results); simpl; [contradiction | reflexivity].
Qed.

(** X13, witness: a file without rows and without errors is loaded from the
    initial page, which keeps showing the welcome screen. *)
Lemma upload_then_load_replaces_rows_witness :
  let results := {| FileUpload.result_data := []; FileUpload.errors := [] |} in
  let final :=
    Session.run Sample.toLocaleString
      [ Session.UploadClick; Session.Drop [ ("empty.csv"%string, FileUpload.Complete results) ];
        Session.LoadClick ] Session.initial in
  List.length (FileUpload.toasts final) = 1%nat /\ Session.hasData final = false.
Proof.
  cbv zeta.
  destruct (upload_then_load_replaces_rows Sample.toLocaleString Session.initial
              "empty.csv"%string
              {| FileUpload.result_data := []; FileUpload.errors := [] |} [] eq_refl)
    as [_ [_ [_ [Htoasts _]]]].
  split; [exact Htoasts | reflexivity].
Defined.

(** ** Event types and the impact summary *)

Lemma fold_left_sum {A : Type} (f : A -> nat) (l : list A) (n : nat) :
  fold_left (fun sum item => (sum + f item)%nat) l n = (n + list_sum (map f l))%nat.
Proof.
  revert n. induction l as [|a l IH]; intros n; simpl; [lia|].
  rewrite IH. lia.
Qed.

Lemma filter_swap {A : Type} (p q : A -> bool) (l : list A) :
  filter p (filter q l) = filter q (filter p l).
Proof.
  induction l as [|a l IH]; simpl; [reflexivity|].
  destruct (p a) eqn:Hp, (q a) eqn:Hq; simpl; rewrite ?Hp, ?Hq, IH; reflexivity.
Qed.

Lemma count_by_key {E : Type} (key : E -> option string) (es : list E) (ks : list string) :
  NoDup ks ->
  list_sum (map (fun k => List.length (filter (fun e => keyed (key e) k) es)) ks)
  = List.length (filter (fun e => existsb (keyed (key e)) ks) es).
Proof.
  intros Hnd. induction Hnd as [|k ks Hk Hnd IH]; simpl.
  - induction es as [|e es IHes]; simpl; auto.
  - rewrite IH. clear IH.
    induction es as [|e es IHes]; simpl; [reflexivity|].
    destruct (keyed (key e) k) eqn:Hmatch; simpl.
    + assert (Hother : existsb (keyed (key e)) ks = false).
      { destruct (existsb (keyed (key e)) ks) eqn:Hex; [|reflexivity].
        apply existsb_exists in Hex. destruct Hex as [k' [Hin Hmatch']].
        unfold keyed in Hmatch, Hmatch'. destruct (key e) as [ke|]; [|discriminate].
        apply String.eqb_eq in Hmatch, Hmatch'. subst. contradiction. }
      rewrite Hother. simpl. lia.
    + destruct (existsb (keyed (key e)) ks); simpl; lia.
Qed.

Lemma correlated_months_nodup calendar (data : list Row) (eventsData : list EventRow) :
  NoDup (map ExternalEventsChart.month
             (ExternalEventsChart.correlatedData calendar data eventsData)).
Proof.
  unfold ExternalEventsChart.correlatedData.
  destruct data as [|item data']; [constructor|].
  destruct eventsData as [|event events']; [constructor|].
  eapply Permutation_NoDup.
  - apply Permutation_map, Permutation_sym, sort_perm.
  - rewrite events_months. apply events_keys_nodup.
Qed.

Lemma filtered_event_count calendar (data : list Row) (eventsData : list EventRow)
    (eventFilter : string) :
  map ExternalEventsChart.event_count
      (ExternalEventsChart.filteredData
         (ExternalEventsChart.correlatedData calendar data eventsData) eventFilter)
  = map (fun k => List.length (filter (fun e => keyed (eventKey calendar e) k)
                                      (filter (shownType eventFilter) eventsData)))
        (map ExternalEventsChart.month
             (ExternalEventsChart.correlatedData calendar data eventsData)).
Proof.
  rewrite map_map.
  unfold ExternalEventsChart.filteredData, shownType.
  destruct (String.eqb eventFilter "all") eqn:Hall; simpl orb.
  - apply map_ext_in. intros b Hin.
    apply events_bucket in Hin. destruct Hin as [k [v [Hin Hb]]].
    apply events_bucket_events in Hin. destruct Hin as [Hmonth Hevents].
    subst b. simpl. rewrite Hmonth, Hevents. f_equal. f_equal.
    clear. induction eventsData as [|e es IH]; simpl; [reflexivity | now f_equal].
  - rewrite map_map. apply map_ext_in. intros b Hin.
    apply events_bucket in Hin. destruct Hin as [k [v [Hin Hb]]].
    apply events_bucket_events in Hin. destruct Hin as [Hmonth Hevents].
    subst b. simpl. rewrite Hmonth, Hevents. f_equal. apply filter_swap.
Qed.

(** X14.  The "Total Events" of the impact summary counts the events of
    the selected type whose non-empty timestamp falls in a charted month,
    so an event of a month without prediction rows is counted nowhere; the
    "High Severity" total and the "Avg Impact" do not depend on the
    selected type. *)
Theorem summary_counts_events_of_charted_months
    calendar (data : list Row) (eventsData : list EventRow) (eventFilter : string) :
  let charted := ExternalEventsChart.correlatedData calendar data eventsData in
  let months := map ExternalEventsChart.month charted in
  let shown := ExternalEventsChart.filteredData charted eventFilter in
  EventsSummary.totalEvents shown
  = List.length (filter (fun e => existsb (keyed (eventKey calendar e)) months)
                        (filter (shownType eventFilter) eventsData))
  /\ (EventsSummary.totalEvents shown <= List.length eventsData)%nat
  /\ EventsSummary.totalHighSeverity shown = EventsSummary.totalHighSeverity charted
  /\ EventsSummary.averageImpact shown = EventsSummary.averageImpact charted.
Proof.
  intros charted months shown.
  assert (Htotal : EventsSummary.totalEvents shown
                   = List.length (filter (fun e => existsb (keyed (eventKey calendar e)) months)
                                         (filter (shownType eventFilter) eventsData))).
  { unfold EventsSummary.totalEvents. rewrite fold_left_sum. simpl.
    subst shown charted. rewrite filtered_event_count.
    apply count_by_key, correlated_months_nodup. }
  assert (Hhigh : map ExternalEventsChart.high_severity_events shown
                  = map ExternalEventsChart.high_severity_events charted
                  /\ map ExternalEventsChart.event_impact shown
                     = map ExternalEventsChart.event_impact charted
                  /\ List.length shown = List.length charted).
  { subst shown. unfold ExternalEventsChart.filteredData.
    destruct (String.eqb eventFilter "all"); [now repeat split|].
    rewrite !map_map, length_map. now repeat split. }
  destruct Hhigh as [Hhigh [Himpact Hlength]].
  split; [exact Htotal|]. split; [|split].
  - rewrite Htotal.
    etransitivity; [apply filter_length_le|]. apply filter_length_le.
  - unfold EventsSummary.totalHighSeverity. now rewrite !fold_left_sum, Hhigh.
  - unfold EventsSummary.averageImpact. now rewrite !fold_left_sum, Himpact, Hlength.
Qed.

Lemma Set_add_spec (x : string) (types : list string) :
  NoDup types ->
  NoDup (EventsSummary.Set_add x types)
  /\ (forall t, In t (EventsSummary.Set_add x types) <-> In t types \/ t = x)
  /\ hd_error (EventsSummary.Set_add x types)
     = match types with [] => Some x | t :: _ => Some t end.
Proof.
  intros Hnd. unfold EventsSummary.Set_add.
  destruct (existsb (String.eqb x) types) eqn:Hex.
  - apply existsb_exists in Hex. destruct Hex as [t' [Hin Heq]].
    apply String.eqb_eq in Heq. subst t'.
    split; [exact Hnd|]. split.
    + intros t. split; [now left|]. intros [H|H]; [exact H | now subst].
    + now destruct types.
  - assert (Hnot : ~ In x types).
    { intros Hin. assert (Hex' : existsb (String.eqb x) types = true).
      { apply existsb_exists. exists x. split; [exact Hin | apply String.eqb_refl]. }
      rewrite Hex' in Hex. discriminate. }
    split; [|split].
    + apply NoDup_app; [exact Hnd | repeat constructor; intros [] |].
      intros t Hin [Heq|[]]. subst. contradiction.
    + intros t. rewrite in_app_iff. simpl. intuition.
    + now destruct types.
Qed.

Lemma eventTypes_from (eventsData : list EventRow) :
  forall types : list string,
    NoDup types ->
    let result :=
      fold_left (fun types event =>
                   match ev_type event with
                   | None | Some EmptyString => types
                   | Some t => EventsSummary.Set_add t types
                   end) eventsData types in
    NoDup result
    /\ (forall t, In t result <->
                  In t types
                  \/ exists event, In event eventsData /\ ev_type event = Some t
                                   /\ t <> EmptyString)
    /\ (types <> [] -> hd_error result = hd_error types).
Proof.
  induction eventsData as [|event rest IH]; intros types Hnd; cbv zeta; simpl.
  - split; [exact Hnd|]. split; [|reflexivity].
    intros t. split; [now left|]. intros [H|[event [[] _]]]. exact H.
  - set (types' := match ev_type event with
                   | None | Some EmptyString => types
                   | Some t => EventsSummary.Set_add t types
                   end).
    assert (Hstep : NoDup types'
                    /\ (forall t, In t types' <->
                                  In t types \/ (ev_type event = Some t /\ t <> EmptyString))
                    /\ (types <> [] -> hd_error types' = hd_error types)).
    { subst types'. destruct (ev_type event) as [[|c t0]|].
      - split; [exact Hnd|]. split; [|reflexivity].
        intros t. split; [now left|]. intros [H|[Heq Hne]]; [exact H|].
        inversion Heq. subst t. contradiction.
      - destruct (Set_add_spec (String c t0) types Hnd) as [Hnd' [Hin' Hhd']].
        split; [exact Hnd'|]. split.
        + intros t. rewrite Hin'. split.
          * intros [H|H]; [now left|]. right. subst t. split; [reflexivity | discriminate].
          * intros [H|[Heq _]]; [now left|]. right. now inversion Heq.
        + intros Hne. rewrite Hhd'. destruct types; [contradiction | reflexivity].
      - split; [exact Hnd|]. split; [|reflexivity].
        intros t. split; [now left|]. intros [H|[Heq _]]; [exact H | discriminate]. }
    destruct Hstep as [Hnd' [Hin' Hhd']].
    destruct (IH types' Hnd') as [Hnd'' [Hin'' Hhd'']]. cbv zeta in *.
    split; [exact Hnd''|]. split.
    + intros t. rewrite Hin'', Hin'. split.
      * intros [[H|[Heq Hne]]|[e [Hin [Heq Hne]]]].
        -- now left.
        -- right. exists event. split; [now left | now split].
        -- right. exists e. split; [now right | now split].
      * intros [H|[e [[Heq0|Hin] [Heq Hne]]]].
        -- left. now left.
        -- subst e. left. right. now split.
        -- right. exists e. now repeat split.
    + intros Hne. rewrite Hhd''; [now apply Hhd'|].
      intros Hnil. specialize (Hhd' Hne). rewrite Hnil in Hhd'.
      destruct types; [contradiction | discriminate].
Qed.

(** X15.  The event-type selector offers ['all'] first and then every
    non-empty event type of the events file once: no type twice, none
    invented, none left out. *)
Theorem event_types_are_all_then_each_type_once (eventsData : list EventRow) :
  let types := EventsSummary.eventTypes eventsData in
  hd_error types = Some "all"%string
  /\ NoDup types
  /\ (forall t, In t types <->
                t = "all"%string
                \/ exists event, In event eventsData /\ ev_type event = Some t
                                 /\ t <> EmptyString).
Proof.
  intros types. subst types. unfold EventsSummary.eventTypes.
  assert (Hnd : NoDup [ "all"%string ]) by (repeat constructor; intros []).
  destruct (eventTypes_from eventsData [ "all"%string ] Hnd) as [Hnd' [Hin Hhd]].
  cbv zeta in *. split; [|split].
  - rewrite Hhd; [reflexivity | discriminate].
  - exact Hnd'.
  - intros t. rewrite Hin. simpl. split.
    + intros [[H|[]]|H]; [left; now symmetry | now right].
    + intros [H|H]; [left; left; now symmetry | now right].
Qed.

(** ** The calendar *)

Lemma fold_left_mapped {A B : Type} (f : B -> A -> B) (g : Row -> A) (rows : list Row) (b : B) :
  fold_left f (map g rows) b = fold_left (fun sum item => f sum (g item)) rows b.
Proof.
  revert b. induction rows as [|r rows IH]; intros b; simpl; [reflexivity | apply IH].
Qed.

Lemma dayAverage_spec_mean (column : Row -> option number) (rows : list Row) :
  InteractiveCalendar.dayAverage column rows = spec_mean column rows.
Proof.
  unfold InteractiveCalendar.dayAverage, spec_mean. now rewrite fold_left_mapped.
Qed.

Lemma day_entry onDay (data : list Row) (i : nat) (c : InteractiveCalendar.CalendarData) :
  In c (InteractiveCalendar.day onDay data i) <->
  InteractiveCalendar.dayData onDay data i <> []
  /\ c = {| InteractiveCalendar.date := i;
            InteractiveCalendar.cpu_avg :=
              spec_mean cpu_usage (InteractiveCalendar.dayData onDay data i);
            InteractiveCalendar.memory_avg :=
              spec_mean memory_usage (InteractiveCalendar.dayData onDay data i);
            InteractiveCalendar.network_avg :=
              spec_mean network_traffic (InteractiveCalendar.dayData onDay data i);
            InteractiveCalendar.power_avg :=
              spec_mean power_consumption (InteractiveCalendar.dayData onDay data i);
            InteractiveCalendar.events := [] |}.
Proof.
  unfold InteractiveCalendar.day.
  destruct (InteractiveCalendar.dayData onDay data i) as [|r rows] eqn:Hrows.
  - simpl. split; [contradiction | intros [H _]; now apply H].
  - rewrite !dayAverage_spec_mean. simpl. split.
    + intros [H|[]]. split; [discriminate | now symmetry].
    + intros [_ H]. left. now symmetry.
Qed.

Lemma calendar_entry onDay (data : list Row) (c : InteractiveCalendar.CalendarData) :
  In c (InteractiveCalendar.processedCalendarData onDay data) <->
  (InteractiveCalendar.date c < 365)%nat
  /\ In c (InteractiveCalendar.day onDay data (InteractiveCalendar.date c)).
Proof.
  unfold InteractiveCalendar.processedCalendarData. rewrite in_flat_map. split.
  - intros [i [Hi Hin]]. pose proof Hin as Hc. apply day_entry in Hc.
    destruct Hc as [_ Hc]. assert (Hdate : InteractiveCalendar.date c = i) by now subst c.
    rewrite Hdate. apply in_seq in Hi. split; [lia | exact Hin].
  - intros [Hlt Hin]. exists (InteractiveCalendar.date c). split; [|exact Hin].
    apply in_seq. lia.
Qed.

Lemma calendar_has_day onDay (data : list Row) (i : nat) :
  (i < 365)%nat ->
  InteractiveCalendar.dayData onDay data i <> [] ->
  exists c, In c (InteractiveCalendar.processedCalendarData onDay data)
            /\ InteractiveCalendar.date c = i.
Proof.
  intros Hlt Hrows.
  pose proof (proj2 (day_entry onDay data i _) (conj Hrows eq_refl)) as Hin.
  match type of Hin with In ?c _ => exists c end.
  split; [|reflexivity].
  unfold InteractiveCalendar.processedCalendarData. apply in_flat_map.
  exists i. split; [apply in_seq; lia | exact Hin].
Qed.

Lemma calendar_dates_ascend onDay (data : list Row) (n : nat) :
  forall a,
    StronglySorted lt (map InteractiveCalendar.date
                           (flat_map (InteractiveCalendar.day onDay data) (seq a n)))
    /\ Forall (fun d => (a <= d)%nat)
              (map InteractiveCalendar.date
                   (flat_map (InteractiveCalendar.day onDay data) (seq a n))).
Proof.
  induction n as [|n IH]; intros a; simpl.
  - split; constructor.
  - destruct (IH (S a)) as [Hsorted Hfrom].
    assert (Hfrom' : Forall (fun d => (a < d)%nat)
                            (map InteractiveCalendar.date
                                 (flat_map (InteractiveCalendar.day onDay data) (seq (S a) n))))
      by (eapply Forall_impl; [|exact Hfrom]; simpl; intros; lia).
    unfold InteractiveCalendar.day at 1 3.
    destruct (InteractiveCalendar.dayData onDay data a) as [|r rows]; simpl.
    + split; [exact Hsorted|]. eapply Forall_impl; [|exact Hfrom]. simpl. intros. lia.
    + split.
      * constructor; assumption.
      * constructor; [lia|]. eapply Forall_impl; [|exact Hfrom]. simpl. intros. lia.
Qed.

(** X16.  The calendar holds one entry for each of the next 365 days that
    has a row, in ascending order of date; each mean of an entry is the sum
    over all rows of the day, a row without the column (or with text that
    is no number) adding 0, divided by the number of all rows of the day;
    no entry carries an event. *)
Theorem calendar_days_average_every_row (onDay : string -> nat -> bool) (data : list Row) :
  let calendarData := InteractiveCalendar.processedCalendarData onDay data in
  StronglySorted lt (map InteractiveCalendar.date calendarData)
  /\ (forall i, In i (map InteractiveCalendar.date calendarData) <->
                (i < 365)%nat /\ InteractiveCalendar.dayData onDay data i <> [])
  /\ Forall (fun c =>
               let rows := InteractiveCalendar.dayData onDay data (InteractiveCalendar.date c) in
               InteractiveCalendar.cpu_avg c = spec_mean cpu_usage rows
               /\ InteractiveCalendar.memory_avg c = spec_mean memory_usage rows
               /\ InteractiveCalendar.network_avg c = spec_mean network_traffic rows
               /\ InteractiveCalendar.power_avg c = spec_mean power_consumption rows
               /\ InteractiveCalendar.events c = [])
            calendarData.
Proof.
  intros calendarData. subst calendarData. split; [|split].
  - apply calendar_dates_ascend.
  - intros i. rewrite in_map_iff. split.
    + intros [c [Hdate Hin]]. apply calendar_entry in Hin. destruct Hin as [Hlt Hin].
      apply day_entry in Hin. rewrite Hdate in *. now split; [|apply Hin].
    + intros [Hlt Hrows].
      destruct (calendar_has_day onDay data i Hlt Hrows) as [c [Hin Hdate]].
      now exists c.
  - apply Forall_forall. intros c Hin. apply calendar_entry in Hin. destruct Hin as [_ Hin].
    apply day_entry in Hin. destruct Hin as [_ Hc].
    cbv zeta. rewrite Hc at 1 3 5 7 9. simpl. now repeat split.
Qed.

(** X17.  Looking a date up in the calendar finds nothing exactly when the
    date is in the past, 365 days or more ahead, or a day without rows;
    what it finds is the entry of that date; without an entry the
    intensity of the date is 0, and the intensity never exceeds 3. *)
Theorem calendar_lookup_finds_the_day (onDay : string -> nat -> bool) (data : list Row) (day : Z) :
  (InteractiveCalendar.getDateData onDay data day = None <->
   day < 0 \/ 365 <= day \/ InteractiveCalendar.dayData onDay data (Z.to_nat day) = [])
  /\ (forall c, InteractiveCalendar.getDateData onDay data day = Some c ->
                Z.of_nat (InteractiveCalendar.date c) = day
                /\ In c (InteractiveCalendar.processedCalendarData onDay data))
  /\ (InteractiveCalendar.getDateData onDay data day = None ->
      InteractiveCalendar.getDateIntensity onDay data day = 0%nat)
  /\ (InteractiveCalendar.getDateIntensity onDay data day <= 3)%nat.
Proof.
  split; [|split; [|split]].
  - unfold InteractiveCalendar.getDateData. split.
    + intros Hnone.
      destruct (Z_lt_ge_dec day 0) as [Hneg|Hpos]; [now left|].
      destruct (Z_lt_ge_dec day 365) as [Hlt|Hge]; [|right; left; lia].
      right. right.
      destruct (InteractiveCalendar.dayData onDay data (Z.to_nat day)) as [|r rows] eqn:Hrows;
        [reflexivity|].
      exfalso.
      assert (Hrows' : InteractiveCalendar.dayData onDay data (Z.to_nat day) <> [])
        by (rewrite Hrows; discriminate).
      assert (Hnear : (Z.to_nat day < 365)%nat) by lia.
      destruct (calendar_has_day onDay data (Z.to_nat day) Hnear Hrows') as [c [Hcal Hdate]].
      apply (find_none _ _ Hnone) in Hcal. simpl in Hcal.
      apply Z.eqb_neq in Hcal. lia.
    + intros Hout.
      destruct (find _ _) as [c|] eqn:Hfind; [|reflexivity]. exfalso.
      apply find_some in Hfind. destruct Hfind as [Hin Hdate].
      apply Z.eqb_eq in Hdate.
      apply calendar_entry in Hin. destruct Hin as [Hlt Hin].
      apply day_entry in Hin. destruct Hin as [Hrows _].
      destruct Hout as [Hneg|[Hfar|Hnone]]; [lia | lia |].
      apply Hrows. rewrite <- Hdate in Hnone. now rewrite Nat2Z.id in Hnone.
  - intros c Hfind. unfold InteractiveCalendar.getDateData in Hfind.
    apply find_some in Hfind. destruct Hfind as [Hin Hdate].
    apply Z.eqb_eq in Hdate. now split.
  - intros Hnone. unfold InteractiveCalendar.getDateIntensity. now rewrite Hnone.
  - unfold InteractiveCalendar.getDateIntensity.
    destruct (InteractiveCalendar.getDateData onDay data day); [|lia].
    repeat (destruct (Num.gt _ _); [lia|]). lia.
Qed.

(** ** Month keys *)

Lemma append_length (a b : string) :
  String.length (a ++ b) = (String.length a + String.length b)%nat.
Proof.
  induction a as [|c a IH]; simpl; [reflexivity | now rewrite IH].
Qed.

Lemma append_same_suffix_length (a a' b b' : string) :
  String.length b = String.length b' ->
  (a ++ b)%string = (a' ++ b')%string ->
  a = a' /\ b = b'.
Proof.
  revert a'. induction a as [|c a IH]; intros [|c' a'] Hlen Heq; simpl in Heq.
  - now split.
  - exfalso. rewrite Heq in Hlen. simpl in Hlen. rewrite append_length in Hlen. lia.
  - exfalso. rewrite <- Heq in Hlen. simpl in Hlen. rewrite append_length in Hlen. lia.
  - inversion Heq. subst c'. destruct (IH a' Hlen) as [Ha Hb]; [assumption|].
    subst. now split.
Qed.

Lemma Z_to_string_inj (y1 y2 : Z) : Z_to_string y1 = Z_to_string y2 -> y1 = y2.
Proof.
  unfold Z_to_string. intros Heq.
  assert (Hnonnil : forall z, Z.to_int z <> Decimal.Pos Decimal.Nil
                              /\ Z.to_int z <> Decimal.Neg Decimal.Nil).
  { intros [|p|p]; simpl; split; try discriminate; intros H; inversion H;
      now apply (DecimalPos.Unsigned.to_uint_nonnil p). }
  apply DecimalZ.to_int_inj.
  assert (Hsome : Some (Z.to_int y1) = Some (Z.to_int y2)).
  { rewrite <- (DecimalString.NilZero.isi (Z.to_int y1)) by apply Hnonnil.
    rewrite <- (DecimalString.NilZero.isi (Z.to_int y2)) by apply Hnonnil.
    now rewrite Heq. }
  now inversion Hsome.
Qed.

Lemma month_suffix (m : Z) :
  0 <= m <= 11 ->
  String.length ("-" ++ padStart2 (Z_to_string (m + 1))) = 3%nat.
Proof.
  intros Hm.
  assert (Hcases : m = 0 \/ m = 1 \/ m = 2 \/ m = 3 \/ m = 4 \/ m = 5 \/ m = 6 \/ m = 7
                   \/ m = 8 \/ m = 9 \/ m = 10 \/ m = 11) by lia.
  repeat (destruct Hcases as [Hcases|Hcases]; [subst m; reflexivity|]).
  subst m. reflexivity.
Qed.

Lemma month_suffix_inj (m1 m2 : Z) :
  0 <= m1 <= 11 -> 0 <= m2 <= 11 ->
  padStart2 (Z_to_string (m1 + 1)) = padStart2 (Z_to_string (m2 + 1)) ->
  m1 = m2.
Proof.
  intros H1 H2.
  assert (Hdigits : forall m, 0 <= m <= 11 ->
            padStart2 (Z_to_string (m + 1))
            = nth (Z.to_nat m)
                  [ "01"; "02"; "03"; "04"; "05"; "06"; "07"; "08"; "09"; "10"; "11"; "12" ]%string
                  ""%string).
  { intros m Hm.
    assert (Hcases : m = 0 \/ m = 1 \/ m = 2 \/ m = 3 \/ m = 4 \/ m = 5 \/ m = 6 \/ m = 7
                     \/ m = 8 \/ m = 9 \/ m = 10 \/ m = 11) by lia.
    repeat (destruct Hcases as [Hcases|Hcases]; [subst m; reflexivity|]).
    subst m. reflexivity. }
  rewrite (Hdigits m1 H1), (Hdigits m2 H2). intros Heq.
  assert (Hnd : NoDup [ "01"; "02"; "03"; "04"; "05"; "06"; "07"; "08"; "09"; "10"; "11";
                        "12" ]%string).
  { repeat constructor; simpl; intros H;
      repeat (destruct H as [H|H]; [discriminate|]); exact H. }
  assert (Hidx : Z.to_nat m1 = Z.to_nat m2).
  { apply (proj1 (NoDup_nth _ ""%string) Hnd); simpl; try lia. exact Heq. }
  lia.
Qed.

(** X18.  For timestamps that the host reads as dates, the month key names
    one calendar month: two timestamps get the same key exactly when they
    have the same year and the same month, so a bucket never mixes months;
    and the key of a date is never the key ["NaN-NaN"] under which the
    unreadable timestamps are filed. *)
Theorem month_key_names_one_calendar_month
    (calendar : string -> option (Z * Z)) (s1 s2 : string) (y1 m1 y2 m2 : Z) :
  calendar s1 = Some (y1, m1) ->
  calendar s2 = Some (y2, m2) ->
  0 <= m1 <= 11 ->
  0 <= m2 <= 11 ->
  (monthKey calendar s1 = monthKey calendar s2 <-> y1 = y2 /\ m1 = m2)
  /\ monthKey calendar s1 <> "NaN-NaN"%string.
Proof.
  intros Hs1 Hs2 Hm1 Hm2. unfold monthKey. rewrite Hs1, Hs2. split.
  - split.
    + intros Heq.
      apply append_same_suffix_length in Heq;
        [|now rewrite (month_suffix m1 Hm1), (month_suffix m2 Hm2)].
      destruct Heq as [Hyear Hmonth]. split.
      * now apply Z_to_string_inj.
      * simpl in Hmonth. inversion Hmonth. now apply month_suffix_inj.
    + intros [Hy Hm]. now subst.
  - intros Heq. change "NaN-NaN"%string with ("NaN-" ++ "NaN")%string in Heq.
    apply append_same_suffix_length in Heq; [|now rewrite (month_suffix m1 Hm1)].
    destruct Heq as [_ Hbad]. simpl in Hbad. discriminate.
Qed.

(** X18, witness: two days of January 2025. *)
Lemma month_key_names_one_calendar_month_witness :
  monthKey Sample.calendar "2025-01-15" = monthKey Sample.calendar "2025-01-20"
  /\ monthKey Sample.calendar "2025-01-15" <> "NaN-NaN"%string.
Proof.
  destruct (month_key_names_one_calendar_month Sample.calendar "2025-01-15" "2025-01-20"
              2025 0 2025 0 eq_refl eq_refl ltac:(lia) ltac:(lia)) as [Hsame Hdate].
  split; [apply Hsame; now split | exact Hdate].
Defined.

(** ** The daily chart, row by row *)

Lemma daily_points_app toNumber toLocaleDateString (l1 l2 : list Raw.Row) :
  forall prevItem index points,
    DailyChart.points toNumber toLocaleDateString prevItem index (l1 ++ l2) = Some points ->
    DailyChart.points toNumber toLocaleDateString prevItem index l1
    = Some (firstn (List.length l1) points).
Proof.
  induction l1 as [|item l1 IH]; intros prevItem index points Hpoints.
  - reflexivity.
  - cbn [app DailyChart.points] in Hpoints |- *.
    destruct (DailyChart.point toNumber toLocaleDateString prevItem index item) as [p|];
      [|discriminate].
    destruct (DailyChart.points toNumber toLocaleDateString (Some item) (S index) (l1 ++ l2))
      as [ps|] eqn:Hps; [|discriminate].
    inversion Hpoints; subst points.
    rewrite (IH _ _ _ Hps). reflexivity.
Qed.

(** X19.  A pass of the daily chart that completes gives one point per
    row; rows added at the end of the file leave the points of the earlier
    rows as they were, when the longer pass completes; and a pass that
    throws on the rows throws on the longer file too. *)
Theorem daily_points_survive_appended_rows
    (toNumber : string -> number) (toLocaleDateString : JSDate -> string)
    (data more : list Raw.Row) :
  (forall points,
      DailyChart.processedData toNumber toLocaleDateString data = Some points ->
      List.length points = List.length data)
  /\ (forall points,
        DailyChart.processedData toNumber toLocaleDateString (data ++ more) = Some points ->
        DailyChart.processedData toNumber toLocaleDateString data
        = Some (firstn (List.length data) points))
  /\ (DailyChart.processedData toNumber toLocaleDateString data = None ->
      DailyChart.processedData toNumber toLocaleDateString (data ++ more) = None).
Proof.
  unfold DailyChart.processedData. split; [|split].
  - intros points. apply daily_points_length.
  - intros points. apply daily_points_app.
  - intros Hnone.
    destruct (DailyChart.points toNumber toLocaleDateString None 0 (data ++ more))
      as [points|] eqn:Hpoints; [|reflexivity].
    apply daily_points_app in Hpoints. rewrite Hpoints in Hnone. discriminate.
Qed.
